(** * Mentor allotment: the batch-assignment engine and its validators

    A shallow embedding of [src/models], [src/utils/validators.py],
    [src/utils/config.py] and [src/services/assignment_service.py].

    Python objects that are mutated in place (the [Student] and [Mentor]
    records a caller passes in) live in an explicit store: the caller's list
    is a [list] of records and a reference to one of its objects is the
    position of that object in the list.  Every function that mutates
    returns the store it leaves behind, also when it raises.  Timestamps
    ([datetime.now()]) and logging are left out.  Strings are ASCII text. *)

From Stdlib Require Import Ascii QArith Sorted.
From stdpp Require Import list strings pretty gmap.

Local Open Scope nat_scope.

(** ** Python primitives *)

Module Py.

(** Exceptions, each with what [str(e)] shows. *)
Inductive exn :=
| ValueError (msg : string)
| TypeError (msg : string)
| KeyError (key : string)
| AttributeError (msg : string)
| IndexError (msg : string)
| ZeroDivisionError (msg : string)
| StopIteration.

Definition str_of_exn (e : exn) : string :=
  match e with
  | ValueError msg | TypeError msg | AttributeError msg
  | IndexError msg | ZeroDivisionError msg => msg
  | KeyError key => "'" +:+ key +:+ "'"
  | StopIteration => ""
  end.

Inductive result (A : Type) :=
| Ok (a : A)
| Raise (e : exn).
Global Arguments Ok {A} a.
Global Arguments Raise {A} e.

Definition bind {A B} (r : result A) (k : A → result B) : result B :=
  match r with
  | Ok a => k a
  | Raise e => Raise e
  end.

(** Values a field-keyed record (a [dict]) can hold. *)
Inductive value :=
| VNone
| VBool (b : bool)
| VInt (n : Z)
| VStr (s : string)
| VList (l : list Z).

(** [bool(v)] *)
Definition truthy (v : value) : bool :=
  match v with
  | VNone => false
  | VBool b => b
  | VInt n => negb (n =? 0)%Z
  | VStr s => negb (String.eqb s "")
  | VList l => negb (bool_decide (l = []))
  end.

Definition is_space (a : Ascii.ascii) : bool :=
  let n := Ascii.N_of_ascii a in
  ((9 <=? n) && (n <=? 13) || (28 <=? n) && (n <=? 32))%N.

Definition is_digit (a : Ascii.ascii) : bool :=
  let n := Ascii.N_of_ascii a in ((48 <=? n) && (n <=? 57))%N.

Definition is_alpha (a : Ascii.ascii) : bool :=
  let n := Ascii.N_of_ascii a in
  ((65 <=? n) && (n <=? 90) || (97 <=? n) && (n <=? 122))%N.

Fixpoint drop_while {A} (p : A → bool) (l : list A) : list A :=
  match l with
  | [] => []
  | x :: l' => if p x then drop_while p l' else l
  end.

Fixpoint take_while {A} (p : A → bool) (l : list A) : list A :=
  match l with
  | [] => []
  | x :: l' => if p x then x :: take_while p l' else []
  end.

Definition strip_chars (l : list Ascii.ascii) : list Ascii.ascii :=
  reverse (drop_while is_space (reverse (drop_while is_space l))).

(** [s.strip()] *)
Definition strip (s : string) : string :=
  String.string_of_list_ascii (strip_chars (String.list_ascii_of_string s)).

(** Decimal digits with single underscores between them, most significant
    first; [acc] is the value read so far and [prev] tells whether the
    previous character was a digit. *)
Fixpoint digits_value (l : list Ascii.ascii) (acc : Z) (prev : bool) : option Z :=
  match l with
  | [] => if prev then Some acc else None
  | a :: l' =>
      if is_digit a
      then digits_value l' (10 * acc + Z.of_N (Ascii.N_of_ascii a - 48))%Z true
      else if Ascii.eqb a "_"%char && prev then digits_value l' acc false
      else None
  end.

(** The white space [int()] skips around a literal: tab to carriage return
    and the blank.  The separators 28 to 31, which [str.strip()] removes,
    are not among it. *)
Definition is_int_space (a : Ascii.ascii) : bool :=
  let n := Ascii.N_of_ascii a in ((9 <=? n) && (n <=? 13) || (n =? 32))%N.

(** [int(s)] for a [str], base 10. *)
Definition int_of_str (s : string) : option Z :=
  match reverse (drop_while is_int_space
                   (reverse (drop_while is_int_space (String.list_ascii_of_string s)))) with
  | [] => None
  | a :: l =>
      if Ascii.eqb a "-"%char then Z.opp <$> digits_value l 0 false
      else if Ascii.eqb a "+"%char then digits_value l 0 false
      else digits_value (a :: l) 0 false
  end.

(** [int(v)] *)
Definition int (v : value) : result Z :=
  match v with
  | VInt n => Ok n
  | VBool b => Ok (if b then 1 else 0)%Z
  | VStr s =>
      match int_of_str s with
      | Some n => Ok n
      | None => Raise (ValueError ("invalid literal for int() with base 10: '" +:+ s +:+ "'"))
      end
  | VNone | VList _ =>
      Raise (TypeError "int() argument must be a string, a bytes-like object or a real number")
  end.

(** [v.strip()] *)
Definition strip_value (v : value) : result string :=
  match v with
  | VStr s => Ok (strip s)
  | _ => Raise (AttributeError "object has no attribute 'strip'")
  end.

(** [sorted(l, key=key)]: stable, ascending. *)
Fixpoint insert_by {A} (key : A → Z) (x : A) (l : list A) : list A :=
  match l with
  | [] => [x]
  | y :: l' => if (key x <=? key y)%Z then x :: l else y :: insert_by key x l'
  end.

Definition sorted {A} (key : A → Z) (l : list A) : list A :=
  foldr (insert_by key) [] l.

(** [sep.join(l)] *)
Fixpoint join (sep : string) (l : list string) : string :=
  match l with
  | [] => ""
  | x :: l' =>
      match l' with
      | [] => x
      | _ :: _ => x +:+ sep +:+ join sep l'
      end
  end.

(** [l[start:stop]] for [0 <= start], [0 <= stop] *)
Definition slice {A} (l : list A) (start stop : nat) : list A :=
  take (stop - start) (drop start l).

End Py.

Import Py.

Notation "'let*' x ':=' y 'in' z" := (Py.bind y (λ x, z))
  (at level 10, x name, y at level 100, z at level 200, only parsing).

(** ** Configuration ([utils/config.py]) *)

Record Config := {
  BATCH_SIZE : nat;
  strict_batch_size : bool;
  allow_mentor_overload : bool;
  sort_by_roll_number : bool;
  wrap_around_mentors : bool;
  remainder_threshold : nat;
  min_roll_number : Z;
  max_roll_number : Z;
  valid_years : list Z;
  required_student_fields : list string;
  required_mentor_fields : list string;
}.

(** The class attributes of [Config], the configuration in force by default. *)
Definition config : Config := {|
  BATCH_SIZE := 30;
  strict_batch_size := false;
  allow_mentor_overload := true;
  sort_by_roll_number := true;
  wrap_around_mentors := false;
  remainder_threshold := 12;
  min_roll_number := 1;
  max_roll_number := 9999;
  valid_years := [1; 2; 3; 4]%Z;
  required_student_fields := ["roll_no"; "name"; "branch"; "year"];
  required_mentor_fields := ["faculty_id"; "name"; "department"];
|}.

(** ** Entity model ([models/]) *)

Record Student := {
  roll_no : Z;
  name : string;
  branch : string;
  year : Z;
  email : option string;
  phone : option string;
  assigned_mentor_id : option string;
}.

(** [Mentor]'s [name], [email] and [phone] carry the prefix [m_]: Rocq has
    one name space for the fields of all records. *)
Record Mentor := {
  faculty_id : string;
  m_name : string;
  department : string;
  m_email : option string;
  m_phone : option string;
  availability : bool;
  max_students : Z;
  assigned_students : list Z;
}.

Record Assignment := {
  mentor_id : string;
  student_roll_numbers : list Z;
  batch_number : nat;
  notes : option string;
}.

Record AssignmentSummary := {
  total_students : nat;
  total_mentors : nat;
  total_assignments : nat;
  students_per_mentor_avg : Q;
  unassigned_students : list Z;
  assignments : list Assignment;
}.

Global Instance Student_eq_dec : EqDecision Student.
Proof. solve_decision. Defined.
Global Instance Mentor_eq_dec : EqDecision Mentor.
Proof. solve_decision. Defined.
Global Instance Assignment_eq_dec : EqDecision Assignment.
Proof. solve_decision. Defined.

Global Instance Student_inhabited : Inhabited Student :=
  populate {| roll_no := 0; name := ""; branch := ""; year := 0; email := None;
              phone := None; assigned_mentor_id := None |}.
Global Instance Mentor_inhabited : Inhabited Mentor :=
  populate {| faculty_id := ""; m_name := ""; department := ""; m_email := None;
              m_phone := None; availability := false; max_students := 0;
              assigned_students := [] |}.

(** [student.assigned_mentor_id = v] *)
Definition set_assigned_mentor_id (v : option string) (s : Student) : Student :=
  {| roll_no := roll_no s; name := name s; branch := branch s; year := year s;
     email := email s; phone := phone s; assigned_mentor_id := v |}.

(** [mentor.assigned_students = l] *)
Definition set_assigned_students (l : list Z) (m : Mentor) : Mentor :=
  {| faculty_id := faculty_id m; m_name := m_name m; department := department m;
     m_email := m_email m; m_phone := m_phone m; availability := availability m;
     max_students := max_students m; assigned_students := l |}.

(** [mentor.assigned_students.extend(l)] *)
Definition extend_assigned_students (l : list Z) (m : Mentor) : Mentor :=
  set_assigned_students (assigned_students m ++ l) m.

Definition opt_value (o : option string) : value :=
  match o with
  | Some s => VStr s
  | None => VNone
  end.

Definition Student_to_dict (s : Student) : gmap string value :=
  <["roll_no" := VInt (roll_no s)]> (
  <["name" := VStr (name s)]> (
  <["branch" := VStr (branch s)]> (
  <["year" := VInt (year s)]> (
  <["email" := opt_value (email s)]> (
  <["phone" := opt_value (phone s)]> (
  <["assigned_mentor_id" := opt_value (assigned_mentor_id s)]> ∅)))))).

Definition get_student_count (m : Mentor) : nat := length (assigned_students m).

Definition can_accept_students (m : Mentor) (count : nat) : bool :=
  availability m && bool_decide (Z.of_nat (get_student_count m + count) ≤ max_students m)%Z.

(** [Mentor.assign_student]: raises when the mentor cannot take one more. *)
Definition assign_student (m : Mentor) (student_roll_no : Z) : result Mentor :=
  if negb (can_accept_students m 1)
  then Raise (ValueError ("Mentor " +:+ faculty_id m +:+ " cannot accept more students"))
  else if bool_decide (student_roll_no ∈ assigned_students m) then Ok m
  else Ok (extend_assigned_students [student_roll_no] m).

Definition get_available_slots (m : Mentor) : Z :=
  Z.max 0 (max_students m - Z.of_nat (get_student_count m)).

Definition Mentor_to_dict (m : Mentor) : gmap string value :=
  <["faculty_id" := VStr (faculty_id m)]> (
  <["name" := VStr (m_name m)]> (
  <["department" := VStr (department m)]> (
  <["email" := opt_value (m_email m)]> (
  <["phone" := opt_value (m_phone m)]> (
  <["availability" := VBool (availability m)]> (
  <["max_students" := VInt (max_students m)]> (
  <["assigned_students" := VList (assigned_students m)]> (
  <["current_student_count" := VInt (Z.of_nat (get_student_count m))]> ∅)))))))).

(** The constructor of [Assignment] with its [__post_init__] checks. *)
Definition new_Assignment (mentor : string) (rolls : list Z) (batch : nat)
    (note : option string) : result Assignment :=
  if String.eqb (strip mentor) "" then Raise (ValueError "Mentor ID cannot be empty")
  else if bool_decide (rolls = []) then Raise (ValueError "Student list cannot be empty")
  else if bool_decide (batch ≤ 0) then Raise (ValueError "Batch number must be positive")
  else Ok {| mentor_id := mentor; student_roll_numbers := rolls;
             batch_number := batch; notes := note |}.

(** ** Validators ([utils/validators.py]) *)

Definition validate_roll_number (cfg : Config) (roll : Z) : bool :=
  bool_decide (min_roll_number cfg ≤ roll ≤ max_roll_number cfg)%Z.

Definition validate_year (cfg : Config) (y : Z) : bool :=
  bool_decide (y ∈ valid_years cfg).

Definition local_char (a : ascii) : bool :=
  is_alpha a || is_digit a || bool_decide (a ∈ ["."; "_"; "%"; "+"; "-"]%char).

Definition domain_char (a : ascii) : bool :=
  is_alpha a || is_digit a || bool_decide (a ∈ ["."; "-"]%char).

Definition not_char (c a : ascii) : bool := negb (Ascii.eqb a c).

(** [re.match(r'^[a-zA-Z0-9._%+-]+@[a-zA-Z0-9.-]+\.[a-zA-Z]{2,}$', s)]: the
    local part ends at the first [@], the last label starts after the last
    dot, and [$] also matches just before a newline that ends the string. *)
Definition match_email_pattern (s : list ascii) : bool :=
  let s := match reverse s with
           | "010"%char :: r => reverse r
           | _ => s
           end in
  let local := take_while (not_char "@") s in
  match drop_while (not_char "@") s with
  | _ :: rest =>
      let tld := reverse (take_while (not_char ".") (reverse rest)) in
      match drop_while (not_char ".") (reverse rest) with
      | _ :: dom =>
          negb (bool_decide (local = [])) && forallb local_char local
          && negb (bool_decide (dom = [])) && forallb domain_char dom
          && bool_decide (2 ≤ length tld) && forallb is_alpha tld
      | [] => false
      end
  | [] => false
  end.

Definition validate_email (v : value) : result bool :=
  if negb (truthy v) then Ok true
  else match v with
       | VStr s => Ok (match_email_pattern (String.list_ascii_of_string s))
       | _ => Raise (TypeError "expected string or bytes-like object")
       end.

Definition validate_phone (v : value) : result bool :=
  if negb (truthy v) then Ok true
  else match v with
       | VStr s =>
           let digits_only := List.filter is_digit (String.list_ascii_of_string s) in
           Ok (bool_decide (10 ≤ length digits_only ≤ 15))
       | _ => Raise (TypeError "expected string or bytes-like object")
       end.

(** [d[k]] *)
Definition getitem (d : gmap string value) (k : string) : result value :=
  match d !! k with
  | Some v => Ok v
  | None => Raise (KeyError k)
  end.

(** [field not in d or not d[field]] *)
Definition field_missing (d : gmap string value) (field : string) : bool :=
  match d !! field with
  | Some v => negb (truthy v)
  | None => true
  end.

Definition missing_field_errors (fields : list string) (d : gmap string value) : list string :=
  (λ field, "Missing required field: " +:+ field) <$> List.filter (field_missing d) fields.

(** [k in d and d[k]] *)
Definition present (d : gmap string value) (k : string) : bool :=
  negb (field_missing d k).

Definition roll_number_errors (cfg : Config) (d : gmap string value) : result (list string) :=
  let* v := getitem d "roll_no" in
  match int v with
  | Ok roll =>
      Ok (if validate_roll_number cfg roll then []
          else ["Roll number " +:+ pretty roll +:+ " is out of valid range"])
  | Raise (ValueError _) | Raise (TypeError _) => Ok ["Roll number must be a valid integer"]
  | Raise e => Raise e
  end.

Definition year_errors (cfg : Config) (d : gmap string value) : result (list string) :=
  let* v := getitem d "year" in
  match int v with
  | Ok y =>
      Ok (if validate_year cfg y then [] else ["Year " +:+ pretty y +:+ " is not valid"])
  | Raise (ValueError _) | Raise (TypeError _) => Ok ["Year must be a valid integer"]
  | Raise e => Raise e
  end.

(** [if not d[k].strip(): errors.append(msg)] *)
Definition blank_errors (d : gmap string value) (k msg : string) : result (list string) :=
  let* v := getitem d k in
  let* stripped := strip_value v in
  Ok (if String.eqb stripped "" then [msg] else []).

Definition email_errors (d : gmap string value) : result (list string) :=
  if present d "email" then
    let* v := getitem d "email" in
    let* ok := validate_email v in
    Ok (if ok then [] else ["Invalid email format"])
  else Ok [].

Definition phone_errors (d : gmap string value) : result (list string) :=
  if present d "phone" then
    let* v := getitem d "phone" in
    let* ok := validate_phone v in
    Ok (if ok then [] else ["Invalid phone number format"])
  else Ok [].

(** [StudentValidator.validate_student] *)
Definition validate_student (cfg : Config) (student_data : gmap string value)
    : result (bool * list string) :=
  let errors := missing_field_errors (required_student_fields cfg) student_data in
  if negb (bool_decide (errors = [])) then Ok (false, errors)
  else
    let* e_roll := roll_number_errors cfg student_data in
    let errors := errors ++ e_roll in
    let* e_year := year_errors cfg student_data in
    let errors := errors ++ e_year in
    let* e_name := blank_errors student_data "name" "Student name cannot be empty" in
    let errors := errors ++ e_name in
    let* e_email := email_errors student_data in
    let errors := errors ++ e_email in
    let* e_phone := phone_errors student_data in
    let errors := errors ++ e_phone in
    Ok (bool_decide (length errors = 0), errors).

(** [MentorValidator.validate_faculty_id]: [bool(faculty_id and faculty_id.strip())] *)
Definition validate_faculty_id (v : value) : result bool :=
  if negb (truthy v) then Ok false
  else let* stripped := strip_value v in Ok (negb (String.eqb stripped "")).

Definition max_students_errors (d : gmap string value) : result (list string) :=
  match d !! "max_students" with
  | Some v =>
      match int v with
      | Ok n => Ok (if bool_decide (n ≤ 0)%Z then ["Max students must be positive"] else [])
      | Raise (ValueError _) | Raise (TypeError _) => Ok ["Max students must be a valid integer"]
      | Raise e => Raise e
      end
  | None => Ok []
  end.

(** [MentorValidator.validate_mentor] *)
Definition validate_mentor (cfg : Config) (mentor_data : gmap string value)
    : result (bool * list string) :=
  let errors := missing_field_errors (required_mentor_fields cfg) mentor_data in
  if negb (bool_decide (errors = [])) then Ok (false, errors)
  else
    let* v := getitem mentor_data "faculty_id" in
    let* ok := validate_faculty_id v in
    let errors := errors ++ (if ok then [] else ["Faculty ID cannot be empty"]) in
    let* e_name := blank_errors mentor_data "name" "Mentor name cannot be empty" in
    let errors := errors ++ e_name in
    let* e_dept := blank_errors mentor_data "department" "Department cannot be empty" in
    let errors := errors ++ e_dept in
    let* e_email := email_errors mentor_data in
    let errors := errors ++ e_email in
    let* e_phone := phone_errors mentor_data in
    let errors := errors ++ e_phone in
    let* e_max := max_students_errors mentor_data in
    let errors := errors ++ e_max in
    Ok (bool_decide (length errors = 0), errors).

(** [sum(m.max_students for m in mentors if m.availability)] *)
Definition total_capacity (mentors : list Mentor) : Z :=
  foldr Z.add 0%Z (max_students <$> List.filter availability mentors).

(** [AssignmentValidator.validate_assignment_feasibility] *)
Definition validate_assignment_feasibility (cfg : Config)
    (students : list Student) (mentors : list Mentor) : result (bool * list string) :=
  let errors :=
    (if bool_decide (students = []) then ["No students to assign"] else [])
    ++ (if bool_decide (mentors = []) then ["No mentors available"] else []) in
  if negb (bool_decide (errors = [])) then Ok (false, errors)
  else
    let roll_numbers := roll_no <$> students in
    let e_rolls :=
      if bool_decide (length roll_numbers ≠ length (remove_dups roll_numbers))
      then ["Duplicate roll numbers found in student list"] else [] in
    let faculty_ids := faculty_id <$> mentors in
    let e_ids :=
      if bool_decide (length faculty_ids ≠ length (remove_dups faculty_ids))
      then ["Duplicate faculty IDs found in mentor list"] else [] in
    let capacity := total_capacity mentors in
    let total := length students in
    let short := bool_decide (capacity < Z.of_nat total)%Z in
    let e_cap :=
      if short && negb (allow_mentor_overload cfg)
      then ["Not enough mentor capacity. Students: " +:+ pretty total
            +:+ ", Capacity: " +:+ pretty capacity]
      else [] in
    let warnings :=
      if short && allow_mentor_overload cfg
      then ["Some mentors will exceed normal capacity. Students: " +:+ pretty total
            +:+ ", Capacity: " +:+ pretty capacity]
      else [] in
    let available_mentors := List.filter availability mentors in
    if bool_decide (BATCH_SIZE cfg = 0)
    then Raise (ZeroDivisionError "integer division or modulo by zero")
    else
      let batches_needed := (total + BATCH_SIZE cfg - 1) / BATCH_SIZE cfg in
      let e_batches :=
        if bool_decide (length available_mentors < batches_needed)
           && negb (wrap_around_mentors cfg)
        then ["Not enough mentors for batch assignment. Need: " +:+ pretty batches_needed
              +:+ ", Available: " +:+ pretty (length available_mentors)]
        else [] in
      let errors := errors ++ e_rolls ++ e_ids ++ e_cap ++ e_batches in
      Ok (bool_decide (length errors = 0), errors ++ warnings).

Definition student_issues (cfg : Config) (student : Student) : list string :=
  let prefix := "Student " +:+ pretty (roll_no student) +:+ ": " in
  match validate_student cfg (Student_to_dict student) with
  | Ok (is_valid, errors) => if is_valid then [] else (λ error, prefix +:+ error) <$> errors
  | Raise e => [prefix +:+ str_of_exn e]
  end.

Definition mentor_issues (cfg : Config) (mentor : Mentor) : list string :=
  let prefix := "Mentor " +:+ faculty_id mentor +:+ ": " in
  match validate_mentor cfg (Mentor_to_dict mentor) with
  | Ok (is_valid, errors) => if is_valid then [] else (λ error, prefix +:+ error) <$> errors
  | Raise e => [prefix +:+ str_of_exn e]
  end.

(** [validate_data_consistency] *)
Definition validate_data_consistency (cfg : Config)
    (students : list Student) (mentors : list Mentor) : result (bool * list string) :=
  let all_issues := concat (student_issues cfg <$> students) in
  let all_issues := all_issues ++ concat (mentor_issues cfg <$> mentors) in
  let* feasibility := validate_assignment_feasibility cfg students mentors in
  let all_issues := all_issues ++ feasibility.2 in
  Ok (bool_decide (length all_issues = 0), all_issues).

(** ** Assignment engine ([services/assignment_service.py]) *)

(** The local variables of [assign_students_to_mentors] that its loop and
    its remainder step update, together with the two stores.  Students are
    held by reference: [st_unassigned] lists positions in [st_students]. *)
Record LoopState := {
  st_students : list Student;
  st_mentors : list Mentor;
  st_assignments : list Assignment;
  st_unassigned : list nat;
  current_mentor_index : nat;
}.

(** A statement: the state it leaves, and the exception it raised if any. *)
Definition outcome : Type := LoopState * option exn.

Definition and_then (r : outcome) (f : LoopState → outcome) : outcome :=
  match r.2 with
  | None => f r.1
  | Some _ => r
  end.

(** [[m for m in mentors if m.availability]], as references *)
Definition available_refs (mentors : list Mentor) : list nat :=
  List.filter (λ j, availability (mentors !!! j)) (seq 0 (length mentors)).

(** [for mentor in available_mentors: mentor.assigned_students = []] *)
Definition reset_assignments (refs : list nat) (mentors : list Mentor) : list Mentor :=
  foldl (λ ms j, alter (set_assigned_students []) j ms) mentors refs.

(** [[s.roll_no for s in refs]] *)
Definition roll_numbers (students : list Student) (refs : list nat) : list Z :=
  (λ i, roll_no (students !!! i)) <$> refs.

(** [for student in refs: student.assigned_mentor_id = fid] *)
Definition set_mentor_of (fid : string) (refs : list nat) (students : list Student)
    : list Student :=
  foldl (λ sts i, alter (set_assigned_mentor_id (Some fid)) i sts) students refs.

(** [unassigned_students.extend(refs)] *)
Definition mark_unassigned (refs : list nat) (st : LoopState) : LoopState :=
  {| st_students := st_students st; st_mentors := st_mentors st;
     st_assignments := st_assignments st;
     st_unassigned := st_unassigned st ++ refs;
     current_mentor_index := current_mentor_index st |}.

(** Lines 95-119 and 165-185: a new [Assignment] of [refs] to the mentor at
    [cursor], after which the cursor is [next]. *)
Definition assign_to_cursor (avail : list nat) (refs : list nat) (batch : nat)
    (note : string) (cursor next : nat) (st : LoopState) : outcome :=
  match avail !! cursor with
  | None => (st, Some (IndexError "list index out of range"))
  | Some j =>
      let current_mentor := st_mentors st !!! j in
      let student_roll_numbers := roll_numbers (st_students st) refs in
      match new_Assignment (faculty_id current_mentor) student_roll_numbers batch
              (Some note) with
      | Raise e => (st, Some e)
      | Ok assignment =>
          ({| st_students := set_mentor_of (faculty_id current_mentor) refs (st_students st);
              st_mentors := alter (extend_assigned_students student_roll_numbers) j
                              (st_mentors st);
              st_assignments := st_assignments st ++ [assignment];
              st_unassigned := st_unassigned st;
              current_mentor_index := next |}, None)
      end
  end.

(** The body of [for batch_num in range(complete_batches)]. *)
Definition batch_step (cfg : Config) (students avail : list nat) (batch_num : nat)
    (st : LoopState) : outcome :=
  let batch_size := BATCH_SIZE cfg in
  let start_idx := batch_num * batch_size in
  let end_idx := start_idx + batch_size in
  let batch_students := slice students start_idx end_idx in
  let note := "Batch assignment with " +:+ pretty (length batch_students) +:+ " students" in
  if bool_decide (length avail ≤ current_mentor_index st) then
    if wrap_around_mentors cfg
    then assign_to_cursor avail batch_students (batch_num + 1) note 0 1 st
    else (mark_unassigned batch_students st, None)
  else
    assign_to_cursor avail batch_students (batch_num + 1) note
      (current_mentor_index st) (current_mentor_index st + 1) st.

Definition process_batches (cfg : Config) (students avail : list nat)
    (complete_batches : nat) (st : LoopState) : outcome :=
  foldl (λ r batch_num, and_then r (batch_step cfg students avail batch_num))
    (st, None) (seq 0 complete_batches).

(** [last_assignment.student_roll_numbers.extend(rolls)] and the new notes *)
Definition fold_into (rolls : list Z) (remainder : nat) (a : Assignment) : Assignment :=
  let extended := student_roll_numbers a ++ rolls in
  {| mentor_id := mentor_id a; student_roll_numbers := extended;
     batch_number := batch_number a;
     notes := Some ("Batch assignment with " +:+ pretty (length extended)
                    +:+ " students (includes " +:+ pretty remainder
                    +:+ " remainder students)") |}.

(** Lines 121-189: the remainder. *)
Definition handle_remainder (cfg : Config) (students avail : list nat)
    (complete_batches remainder_students_count : nat) (st : LoopState) : outcome :=
  if bool_decide (0 < remainder_students_count) then
    let start_idx := complete_batches * BATCH_SIZE cfg in
    let remainder_students := drop start_idx students in
    if bool_decide (remainder_students_count ≤ remainder_threshold cfg) then
      match last (st_assignments st) with
      | Some last_assignment =>
          match list_find (λ j, faculty_id (st_mentors st !!! j) = mentor_id last_assignment)
                  avail with
          | None => (st, Some StopIteration)
          | Some (_, j) =>
              let last_mentor := st_mentors st !!! j in
              let total_after_addition :=
                length (student_roll_numbers last_assignment) + remainder_students_count in
              if bool_decide (max_students last_mentor < Z.of_nat total_after_addition)%Z
                 && negb (allow_mentor_overload cfg)
              then (mark_unassigned remainder_students st, None)
              else
                let remainder_roll_numbers := roll_numbers (st_students st) remainder_students in
                ({| st_students := set_mentor_of (faculty_id last_mentor) remainder_students
                                     (st_students st);
                    st_mentors := alter (extend_assigned_students remainder_roll_numbers) j
                                    (st_mentors st);
                    st_assignments :=
                      alter (fold_into remainder_roll_numbers remainder_students_count)
                        (pred (length (st_assignments st))) (st_assignments st);
                    st_unassigned := st_unassigned st;
                    current_mentor_index := current_mentor_index st |}, None)
          end
      | None => (mark_unassigned remainder_students st, None)
      end
    else if bool_decide (current_mentor_index st < length avail) then
      assign_to_cursor avail remainder_students (complete_batches + 1)
        ("Remainder batch assignment with " +:+ pretty remainder_students_count +:+ " students")
        (current_mentor_index st) (current_mentor_index st) st
    else (mark_unassigned remainder_students st, None)
  else (st, None).

(** [_create_assignment_summary]; [unassigned] holds roll numbers already. *)
Definition _create_assignment_summary (n_students n_mentors : nat)
    (assigned : list Assignment) (unassigned : list Z) : AssignmentSummary :=
  let total_assigned := foldr Nat.add 0 ((λ a, length (student_roll_numbers a)) <$> assigned) in
  {| total_students := n_students;
     total_mentors := n_mentors;
     total_assignments := length assigned;
     students_per_mentor_avg :=
       if bool_decide (assigned = []) then 0%Q
       else (Z.of_nat total_assigned # Pos.of_nat (length assigned))%Q;
     unassigned_students := unassigned;
     assignments := assigned |}.

(** The state in which the batch loop starts. *)
Definition initial_state (students : list Student) (mentors : list Mentor) : LoopState :=
  {| st_students := students; st_mentors := mentors; st_assignments := [];
     st_unassigned := []; current_mentor_index := 0 |}.

(** The students in the order the engine walks them, as references. *)
Definition student_order (cfg : Config) (students : list Student) : list nat :=
  let refs := seq 0 (length students) in
  if sort_by_roll_number cfg then sorted (λ i, roll_no (students !!! i)) refs else refs.

(** [AssignmentService.assign_students_to_mentors]: the stores after the call
    and the summary returned or the exception raised. *)
Definition assign_students_to_mentors (cfg : Config)
    (students : list Student) (mentors : list Mentor)
    : (list Student * list Mentor) * result AssignmentSummary :=
  match validate_data_consistency cfg students mentors with
  | Raise e => ((students, mentors), Raise e)
  | Ok (false, issues) =>
      ((students, mentors),
       Raise (ValueError ("Data validation failed: " +:+ join "; " issues)))
  | Ok (true, _) =>
      let order := student_order cfg students in
      let available_mentors := available_refs mentors in
      if bool_decide (available_mentors = [])
      then ((students, mentors), Raise (ValueError "No available mentors found"))
      else
        let mentors0 := reset_assignments available_mentors mentors in
        let batch_size := BATCH_SIZE cfg in
        if bool_decide (batch_size = 0)
        then ((students, mentors0),
              Raise (ZeroDivisionError "integer division or modulo by zero"))
        else
          let complete_batches := length order / batch_size in
          let remainder_students_count := length order `mod` batch_size in
          let st0 := initial_state students mentors0 in
          let r := and_then (process_batches cfg order available_mentors complete_batches st0)
                     (handle_remainder cfg order available_mentors complete_batches
                        remainder_students_count) in
          let st := r.1 in
          ((st_students st, st_mentors st),
           match r.2 with
           | Some e => Raise e
           | None =>
               Ok (_create_assignment_summary (length order) (length mentors)
                     (st_assignments st)
                     (roll_numbers (st_students st) (st_unassigned st)))
           end)
  end.

(** *** Incremental add *)

(** The stores [add_new_students] mutates (the new students and the mentors;
    it only reads the existing students) and its two work lists, which hold
    references into [ad_new]. *)
Record AddState := {
  ad_new : list Student;
  ad_mentors : list Mentor;
  ad_assigned : list nat;
  ad_unassigned : list nat;
}.

(** [any(s.roll_no == student.roll_no for s in existing_students)] *)
Definition already_exists (existing_students : list Student) (student : Student) : bool :=
  existsb (λ s, bool_decide (roll_no s = roll_no student)) existing_students.

(** The mentors with free capacity, each with its free slots. *)
Definition mentors_with_capacity (mentors : list Mentor) : list (nat * Z) :=
  (λ j, (j, get_available_slots (mentors !!! j))) <$>
    List.filter
      (λ j, availability (mentors !!! j)
            && bool_decide (0 < get_available_slots (mentors !!! j))%Z)
      (seq 0 (length mentors)).

(** The loop body shared by lines 273-276 and 289-292, for the mentor [j]:
    the student's [assigned_mentor_id] is written before
    [Mentor.assign_student] is called. *)
Fixpoint assign_each (j : nat) (refs : list nat) (st : AddState) : AddState * option exn :=
  match refs with
  | [] => (st, None)
  | i :: refs' =>
      let mentor := ad_mentors st !!! j in
      let new1 := alter (set_assigned_mentor_id (Some (faculty_id mentor))) i (ad_new st) in
      match assign_student mentor (roll_no (ad_new st !!! i)) with
      | Raise e =>
          ({| ad_new := new1; ad_mentors := ad_mentors st;
              ad_assigned := ad_assigned st; ad_unassigned := ad_unassigned st |}, Some e)
      | Ok mentor' =>
          assign_each j refs'
            {| ad_new := new1; ad_mentors := <[j := mentor']> (ad_mentors st);
               ad_assigned := ad_assigned st ++ [i];
               ad_unassigned := ad_unassigned st |}
      end
  end.

(** Lines 266-279: the pass over the mentors with capacity. *)
Fixpoint greedy_pass (candidates : list (nat * Z)) (st : AddState) : AddState * option exn :=
  match candidates with
  | [] => (st, None)
  | (j, available_slots) :: candidates' =>
      if bool_decide (ad_unassigned st = []) then (st, None)
      else
        let can_assign :=
          Z.to_nat (Z.min available_slots (Z.of_nat (length (ad_unassigned st)))) in
        let students_to_assign := take can_assign (ad_unassigned st) in
        match assign_each j students_to_assign st with
        | (st1, Some e) => (st1, Some e)
        | (st1, None) =>
            greedy_pass candidates'
              {| ad_new := ad_new st1; ad_mentors := ad_mentors st1;
                 ad_assigned := ad_assigned st1;
                 ad_unassigned := drop can_assign (ad_unassigned st1) |}
        end
  end.

(** Lines 281-295: the overload step. *)
Definition overload_step (cfg : Config) (st : AddState) : AddState * option exn :=
  if negb (bool_decide (ad_unassigned st = [])) && allow_mentor_overload cfg then
    match available_refs (ad_mentors st) with
    | j :: _ =>
        match assign_each j (ad_unassigned st) st with
        | (st1, Some e) => (st1, Some e)
        | (st1, None) =>
            ({| ad_new := ad_new st1; ad_mentors := ad_mentors st1;
                ad_assigned := ad_assigned st1; ad_unassigned := [] |}, None)
        end
    | [] => (st, None)
    end
  else (st, None).

(** [_extract_current_assignments], [i] being the position of the first
    mentor of [mentors] in the whole list. *)
Fixpoint _extract_current_assignments (i : nat) (mentors : list Mentor)
    : result (list Assignment) :=
  match mentors with
  | [] => Ok []
  | mentor :: mentors' =>
      if negb (bool_decide (assigned_students mentor = [])) then
        let* assignment :=
          new_Assignment (faculty_id mentor) (assigned_students mentor) (i + 1)
            (Some ("Current assignment with " +:+ pretty (length (assigned_students mentor))
                   +:+ " students")) in
        let* rest := _extract_current_assignments (S i) mentors' in
        Ok (assignment :: rest)
      else _extract_current_assignments (S i) mentors'
  end.

(** [AssignmentService.add_new_students]: the stores after the call (new
    students, mentors) and the pair returned or the exception raised. *)
Definition add_new_students (cfg : Config)
    (existing_students new_students : list Student) (mentors : list Mentor)
    : (list Student * list Mentor) * result (AssignmentSummary * list Student) :=
  match List.find (already_exists existing_students) new_students with
  | Some student =>
      ((new_students, mentors),
       Raise (ValueError ("Student with roll number " +:+ pretty (roll_no student)
                          +:+ " already exists")))
  | None =>
      let refs := seq 0 (length new_students) in
      let order :=
        if sort_by_roll_number cfg
        then sorted (λ i, roll_no (new_students !!! i)) refs else refs in
      let available_mentors := sorted snd (mentors_with_capacity mentors) in
      let st0 := {| ad_new := new_students; ad_mentors := mentors;
                    ad_assigned := []; ad_unassigned := order |} in
      match greedy_pass available_mentors st0 with
      | (st1, Some e) => ((ad_new st1, ad_mentors st1), Raise e)
      | (st1, None) =>
          match overload_step cfg st1 with
          | (st2, Some e) => ((ad_new st2, ad_mentors st2), Raise e)
          | (st2, None) =>
              let all_students :=
                existing_students ++ ((λ i, ad_new st2 !!! i) <$> ad_assigned st2)
                ++ ((λ i, ad_new st2 !!! i) <$> ad_unassigned st2) in
              ((ad_new st2, ad_mentors st2),
               let* current_assignments := _extract_current_assignments 0 (ad_mentors st2) in
               Ok (_create_assignment_summary (length all_students) (length (ad_mentors st2))
                     current_assignments
                     (roll_numbers (ad_new st2) (ad_unassigned st2)),
                   all_students))
          end
      end
  end.

(** * What the claims speak of *)




(** A row with every required field filled in and five things wrong: a
    roll number out of range, a year that is not valid, a name of blanks, an
    address without [@] and a phone number of five digits. *)
Definition row_with_violations : gmap string value :=
  <["roll_no" := VStr "0"]> (
  <["name" := VStr "   "]> (
  <["branch" := VStr "CSE"]> (
  <["year" := VStr "7"]> (
  <["email" := VStr "john.example.com"]> (
  <["phone" := VStr "12345"]> ∅))))).

(** The records of the test suite: [Student(i, f"Student {i}", "CSE", 1)] and
    [Mentor(fid, "Dr. Mentor", "Computer Science")] with a given capacity. *)
Definition student_n (i : Z) : Student :=
  {| roll_no := i; name := "Student " +:+ pretty i; branch := "CSE"; year := 1;
     email := None; phone := None; assigned_mentor_id := None |}.

Definition mentor_n (fid : string) (capacity : Z) : Mentor :=
  {| faculty_id := fid; m_name := "Dr. Mentor"; department := "Computer Science";
     m_email := None; m_phone := None; availability := true;
     max_students := capacity; assigned_students := [] |}.

(** [n] students with roll numbers [1..n]. *)
Definition students_upto (n : nat) : list Student :=
  (λ i, student_n (Z.of_nat i)) <$> seq 1 n.

(** The roll numbers a state has placed: those of its assignments, in
    order, then those of its unassigned students. *)
Definition allocated (st : LoopState) : list Z :=
  concat (student_roll_numbers <$> st_assignments st)
  ++ roll_numbers (st_students st) (st_unassigned st).

(** What the engine can rely on once [validate_data_consistency] has
    accepted its input. *)
Record accepted (cfg : Config) (students : list Student) (mentors : list Mentor) : Prop := {
  acc_batch_size : 0 < BATCH_SIZE cfg;
  acc_students : students ≠ [];
  acc_rolls : NoDup (roll_no <$> students);
  acc_ids : NoDup (faculty_id <$> mentors);
  acc_named : ∀ m, m ∈ mentors → strip (faculty_id m) ≠ "";
  acc_no_shortfall : (Z.of_nat (length students) ≤ total_capacity mentors)%Z;
  acc_batches :
    wrap_around_mentors cfg = false →
    (length students + BATCH_SIZE cfg - 1) / BATCH_SIZE cfg
    ≤ length (available_refs mentors);
}.

(** The fields of a mentor the engine never writes. *)
Definition same_profile (m m' : Mentor) : Prop :=
  faculty_id m = faculty_id m' ∧ availability m = availability m'
  ∧ max_students m = max_students m'.

(** An assignment agrees with the stores [sts] and [ms]: its mentor is an
    available mentor who holds its roll numbers, and the students with those
    roll numbers point to that mentor. *)
Definition agrees (students : list Student) (mentors : list Mentor) (avail : list nat)
    (sts : list Student) (ms : list Mentor) (a : Assignment) : Prop :=
  ∃ j, j ∈ avail ∧ faculty_id (mentors !!! j) = mentor_id a
       ∧ student_roll_numbers a ⊆ assigned_students (ms !!! j)
       ∧ ∀ i, i < length students →
              roll_no (students !!! i) ∈ student_roll_numbers a →
              assigned_mentor_id (sts !!! i) = Some (mentor_id a).

(** The state of the engine once the first [c] students of [order] have been
    placed, against the students and the (reset) mentors it started from:
    the stores keep their shape, the placed roll numbers are those of the
    first [c] students, and every assignment agrees with the two stores. *)
Record consistent (students : list Student) (mentors : list Mentor)
    (order avail : list nat) (c : nat) (st : LoopState) : Prop := {
  con_students : length (st_students st) = length students;
  con_rolls : ∀ i, roll_no (st_students st !!! i) = roll_no (students !!! i);
  con_mentors : length (st_mentors st) = length mentors;
  con_profile : ∀ j, same_profile (st_mentors st !!! j) (mentors !!! j);
  con_allocated : allocated st ≡ₚ roll_numbers students (take c order);
  con_assignments :
    ∀ a, a ∈ st_assignments st →
      agrees students mentors avail (st_students st) (st_mentors st) a;
}.

(** The state after [k] batches when no mentor is reused: batch [p] went to
    the [p]-th available mentor, who holds exactly that batch, and the
    mentors from the cursor on hold nothing. *)
Record sequential (batch_size : nat) (mentors : list Mentor) (avail : list nat)
    (k : nat) (st : LoopState) : Prop := {
  seq_cursor : current_mentor_index st = k;
  seq_count : length (st_assignments st) = k;
  seq_sizes : ∀ a, a ∈ st_assignments st → length (student_roll_numbers a) = batch_size;
  seq_last :
    ∀ a, last (st_assignments st) = Some a →
      ∃ j, avail !! pred k = Some j ∧ mentor_id a = faculty_id (mentors !!! j);
  seq_loads :
    ∀ p j, avail !! p = Some j →
      length (assigned_students (st_mentors st !!! j)) = if decide (p < k) then batch_size else 0;
  seq_unassigned : st_unassigned st = [];
}.

(** A mentor who is unavailable and still holds two students of an
    earlier run. *)
Definition mentor_on_leave : Mentor :=
  {| faculty_id := "FAC002"; m_name := "Dr. Mentor"; department := "Computer Science";
     m_email := None; m_phone := None; availability := false;
     max_students := 30; assigned_students := [7; 8]%Z |}.

(** A configuration with batches of two and a remainder threshold of one,
    small enough to follow by hand; its other settings are the defaults. *)
Definition small_config : Config :=
  {| BATCH_SIZE := 2; strict_batch_size := false; allow_mentor_overload := true;
     sort_by_roll_number := true; wrap_around_mentors := false;
     remainder_threshold := 1;
     min_roll_number := 1; max_roll_number := 9999; valid_years := [1; 2; 3; 4]%Z;
     required_student_fields := ["roll_no"; "name"; "branch"; "year"];
     required_mentor_fields := ["faculty_id"; "name"; "department"] |}.


(** The default configuration with [allow_mentor_overload] switched off. *)
Definition strict_config : Config :=
  {| BATCH_SIZE := 30; strict_batch_size := false; allow_mentor_overload := false;
     sort_by_roll_number := true; wrap_around_mentors := false;
     remainder_threshold := 12;
     min_roll_number := 1; max_roll_number := 9999; valid_years := [1; 2; 3; 4]%Z;
     required_student_fields := ["roll_no"; "name"; "branch"; "year"];
     required_mentor_fields := ["faculty_id"; "name"; "department"] |}.


(** [strict_config] with [wrap_around_mentors] switched on. *)
Definition reuse_config : Config :=
  {| BATCH_SIZE := 30; strict_batch_size := false; allow_mentor_overload := false;
     sort_by_roll_number := true; wrap_around_mentors := true;
     remainder_threshold := 12;
     min_roll_number := 1; max_roll_number := 9999; valid_years := [1; 2; 3; 4]%Z;
     required_student_fields := ["roll_no"; "name"; "branch"; "year"];
     required_mentor_fields := ["faculty_id"; "name"; "department"] |}.

(** * More of the models and services *)

(** [Student(...)]: the dataclass constructor with its [__post_init__]. *)
Definition new_Student (roll : Z) (nm br : string) (yr : Z)
    (em ph mentor : option string) : result Student :=
  if bool_decide (roll ≤ 0)%Z then Raise (ValueError "Roll number must be positive")
  else if String.eqb (strip nm) "" then Raise (ValueError "Student name cannot be empty")
  else if negb (bool_decide (yr ∈ [1; 2; 3; 4]%Z))
  then Raise (ValueError "Year must be between 1 and 4")
  else Ok {| roll_no := roll; name := nm; branch := br; year := yr; email := em;
             phone := ph; assigned_mentor_id := mentor |}.

(** [Mentor(...)]: [assigned_students=None] becomes the empty list. *)
Definition new_Mentor (fid nm dept : string) (em ph : option string) (avail : bool)
    (capacity : Z) (assigned : option (list Z)) : result Mentor :=
  if String.eqb (strip fid) "" then Raise (ValueError "Faculty ID cannot be empty")
  else if String.eqb (strip nm) "" then Raise (ValueError "Mentor name cannot be empty")
  else if bool_decide (capacity ≤ 0)%Z then Raise (ValueError "Max students must be positive")
  else Ok {| faculty_id := fid; m_name := nm; department := dept; m_email := em;
             m_phone := ph; availability := avail; max_students := capacity;
             assigned_students := default [] assigned |}.

(** [l.remove(x)] for an [x] that is in [l]: the first occurrence goes. *)
Fixpoint remove_first (x : Z) (l : list Z) : list Z :=
  match l with
  | [] => []
  | y :: l' => if bool_decide (x = y) then l' else y :: remove_first x l'
  end.

(** [Mentor.remove_student] *)
Definition remove_student (m : Mentor) (student_roll_no : Z) : Mentor :=
  if bool_decide (student_roll_no ∈ assigned_students m)
  then set_assigned_students (remove_first student_roll_no (assigned_students m)) m
  else m.

(** [assignment.student_roll_numbers = l] *)
Definition set_student_roll_numbers (l : list Z) (a : Assignment) : Assignment :=
  {| mentor_id := mentor_id a; student_roll_numbers := l;
     batch_number := batch_number a; notes := notes a |}.

(** [Assignment.add_student] *)
Definition Assignment_add_student (a : Assignment) (roll : Z) : Assignment :=
  if bool_decide (roll ∈ student_roll_numbers a) then a
  else set_student_roll_numbers (student_roll_numbers a ++ [roll]) a.

(** [Assignment.remove_student] *)
Definition Assignment_remove_student (a : Assignment) (roll : Z) : Assignment :=
  if bool_decide (roll ∈ student_roll_numbers a)
  then set_student_roll_numbers (remove_first roll (student_roll_numbers a)) a
  else a.

(** [Config.update_batch_size] *)
Definition update_batch_size (cfg : Config) (new_size : Z) : result Config :=
  if bool_decide (new_size ≤ 0)%Z then Raise (ValueError "Batch size must be positive")
  else Ok {| BATCH_SIZE := Z.to_nat new_size;
             strict_batch_size := strict_batch_size cfg;
             allow_mentor_overload := allow_mentor_overload cfg;
             sort_by_roll_number := sort_by_roll_number cfg;
             wrap_around_mentors := wrap_around_mentors cfg;
             remainder_threshold := remainder_threshold cfg;
             min_roll_number := min_roll_number cfg;
             max_roll_number := max_roll_number cfg;
             valid_years := valid_years cfg;
             required_student_fields := required_student_fields cfg;
             required_mentor_fields := required_mentor_fields cfg |}.

(** [AssignmentValidator.validate_batch_assignment] *)
Definition validate_batch_assignment (cfg : Config) (batch_students : list Student)
    (mentor : Mentor) : bool * list string :=
  let errors :=
    (if bool_decide (batch_students = []) then ["Empty batch cannot be assigned"] else [])
    ++ (if negb (availability mentor)
        then ["Mentor " +:+ faculty_id mentor +:+ " is not available"] else [])
    ++ (if bool_decide (max_students mentor < Z.of_nat (length batch_students))%Z
           && negb (allow_mentor_overload cfg)
        then ["Batch size " +:+ pretty (length batch_students)
              +:+ " exceeds mentor capacity " +:+ pretty (max_students mentor)]
        else []) in
  (bool_decide (length errors = 0), errors).

(** [mentor.availability = b] *)
Definition set_availability (b : bool) (m : Mentor) : Mentor :=
  {| faculty_id := faculty_id m; m_name := m_name m; department := department m;
     m_email := m_email m; m_phone := m_phone m; availability := b;
     max_students := max_students m; assigned_students := assigned_students m |}.

(** Lines 220-227 of [reassign_students]: the first mentor with the given id
    is marked unavailable and loses its students. *)
Definition withdraw_mentor (mentor_to_remove : string) (mentors : list Mentor) : list Mentor :=
  match list_find (λ m, faculty_id m = mentor_to_remove) mentors with
  | Some (j, _) =>
      alter (λ m, set_assigned_students [] (set_availability false m)) j mentors
  | None => mentors
  end.

(** [AssignmentService.reassign_students]; [mentor_to_remove] is [None] by
    default, and the empty string counts as none too. *)
Definition reassign_students (cfg : Config) (students : list Student)
    (mentors : list Mentor) (mentor_to_remove : option string)
    : (list Student * list Mentor) * result AssignmentSummary :=
  let mentors1 :=
    match mentor_to_remove with
    | Some fid => if String.eqb fid "" then mentors else withdraw_mentor fid mentors
    | None => mentors
    end in
  let students1 := set_assigned_mentor_id None <$> students in
  let mentors2 := set_assigned_students [] <$> mentors1 in
  assign_students_to_mentors cfg students1 mentors2.

(** What the pattern of [validate_email] describes, read off the regular
    expression: a local part, [@], a domain, a dot and a last label of two
    or more letters. *)
Definition email_shape (s : list ascii) : Prop :=
  ∃ local dom tld,
    s = local ++ "@"%char :: dom ++ "."%char :: tld
    ∧ local ≠ [] ∧ Forall (λ a, local_char a = true) local
    ∧ dom ≠ [] ∧ Forall (λ a, domain_char a = true) dom
    ∧ 2 ≤ length tld ∧ Forall (λ a, is_alpha a = true) tld.

(** An optional text field is well-formed when it is absent, empty or
    passes its check. *)
Definition well_formed (check : string → bool) (o : option string) : Prop :=
  ∀ s, o = Some s → s ≠ "" → check s = true.


(** [validate_phone] on a text that is not empty. *)
Definition plausible_phone (p : string) : bool :=
  bool_decide (10 ≤ length (List.filter is_digit (String.list_ascii_of_string p)) ≤ 15).


(** The assignment the batch loop makes for batch [p] when it skips none:
    the [p]-th block of [BATCH_SIZE] students in walking order, for the
    available mentors taken in turn. *)
Definition batch_assignment (cfg : Config) (students : list Student)
    (mentors : list Mentor) (order avail : list nat) (p : nat) : Assignment :=
  {| mentor_id := faculty_id (mentors !!! (avail !!! (p `mod` length avail)));
     student_roll_numbers :=
       roll_numbers students (take (BATCH_SIZE cfg) (drop (p * BATCH_SIZE cfg) order));
     batch_number := p + 1;
     notes := Some ("Batch assignment with " +:+ pretty (BATCH_SIZE cfg) +:+ " students") |}.

(** The state after [k] batches of which none was skipped. *)
Record dealt (cfg : Config) (students : list Student) (mentors : list Mentor)
    (order avail : list nat) (k : nat) (st : LoopState) : Prop := {
  dealt_assignments :
    st_assignments st = batch_assignment cfg students mentors order avail <$> seq 0 k;
  dealt_unassigned : st_unassigned st = [];
  dealt_cursor :
    current_mentor_index st
    = match k with 0 => 0 | S k' => k' `mod` length avail + 1 end;
}.

(** The engine has written a student's [assigned_mentor_id] at most, and
    nothing of a student whose roll number is in no assignment. *)
Definition untouched (students : list Student) (st : LoopState) : Prop :=
  length (st_students st) = length students
  ∧ ∀ i, set_assigned_mentor_id None (st_students st !!! i)
         = set_assigned_mentor_id None (students !!! i)
         ∧ (roll_no (students !!! i) ∉ concat (student_roll_numbers <$> st_assignments st) →
            st_students st !!! i = students !!! i).

(** Each available mentor holds the roll numbers of the assignments made
    out to that mentor, in their order. *)
Definition holds_assignments (mentors : list Mentor) (avail : list nat)
    (st : LoopState) : Prop :=
  ∀ j, j ∈ avail →
    assigned_students (st_mentors st !!! j)
    = concat (student_roll_numbers <$>
                List.filter (λ a, bool_decide (mentor_id a = faculty_id (mentors !!! j)))
                  (st_assignments st)).

(** What one step of the engine does with the students [refs] it looks
    at: it leaves them unassigned, makes a new assignment of them to an
    available mentor, or folds them into the last assignment. *)
Inductive placement_step (students : list Student) (mentors : list Mentor)
    (avail refs : list nat) (st st' : LoopState) : Prop :=
| step_unassigned :
    st_mentors st' = st_mentors st →
    st_assignments st' = st_assignments st →
    st_unassigned st' = st_unassigned st ++ refs →
    placement_step students mentors avail refs st st'
| step_assigned j a :
    j ∈ avail →
    mentor_id a = faculty_id (mentors !!! j) →
    student_roll_numbers a = roll_numbers students refs →
    st_mentors st'
    = alter (extend_assigned_students (roll_numbers students refs)) j (st_mentors st) →
    st_assignments st' = st_assignments st ++ [a] →
    st_unassigned st' = st_unassigned st →
    placement_step students mentors avail refs st st'
| step_folded j A0 a a' :
    j ∈ avail →
    st_assignments st = A0 ++ [a] →
    mentor_id a = faculty_id (mentors !!! j) →
    mentor_id a' = mentor_id a →
    batch_number a' = batch_number a →
    student_roll_numbers a' = student_roll_numbers a ++ roll_numbers students refs →
    st_mentors st'
    = alter (extend_assigned_students (roll_numbers students refs)) j (st_mentors st) →
    st_assignments st' = A0 ++ [a'] →
    st_unassigned st' = st_unassigned st →
    placement_step students mentors avail refs st st'.

(** Whether a validated run leaves its remainder unassigned: a remainder
    within the threshold when there is no complete batch to fold it into, or
    when overload is off and the mentor of the last batch has no room for
    batch and remainder together; a remainder above the threshold when the
    cursor has run past the last available mentor, that is, when the
    complete batches are a positive multiple of the available mentors. *)
Definition remainder_left_over (cfg : Config) (students : list Student)
    (mentors : list Mentor) : bool :=
  let avail := available_refs mentors in
  let k := length students / BATCH_SIZE cfg in
  let r := length students `mod` BATCH_SIZE cfg in
  let last_mentor := mentors !!! (avail !!! ((k - 1) `mod` length avail)) in
  bool_decide (0 < r)
  && (if bool_decide (r ≤ remainder_threshold cfg)
      then bool_decide (k = 0)
           || negb (allow_mentor_overload cfg)
              && bool_decide (max_students last_mentor < Z.of_nat (BATCH_SIZE cfg + r))%Z
      else bool_decide (0 < k) && bool_decide (k `mod` length avail = 0)).


(** How [add_new_students] can change a mentor: it may add students at
    the end of the list, of an available mentor and within [max_students]
    only, and changes nothing else. *)
Definition grown (m m' : Mentor) : Prop :=
  same_profile m' m
  ∧ assigned_students m `prefix_of` assigned_students m'
  ∧ (m' = m
     ∨ availability m = true
       ∧ (Z.of_nat (length (assigned_students m')) ≤ max_students m)%Z).

(** The free slots of the available mentors. *)
Definition free_slots (mentors : list Mentor) : Z :=
  foldr Z.add 0%Z (get_available_slots <$> List.filter availability mentors).


(** * Properties *)

(** ** The student validator *)

Section validate_student_spec.
Context (cfg : Config) (d : gmap string value).







Lemma blank_errors_spec k s msg :
  d !! k = Some (VStr s) →
  blank_errors d k msg = Ok (if String.eqb (strip s) "" then [msg] else []).
Proof. intros Hv. unfold blank_errors, getitem. by rewrite Hv. Qed.



End validate_student_spec.








(** The second stage at work: the row with five things wrong is reported
    for all five, in the order of the checks. *)
Lemma validate_student_lists_five_violations :
  validate_student config row_with_violations
  = Ok (false, ["Roll number 0 is out of valid range"; "Year 7 is not valid";
                "Student name cannot be empty"; "Invalid email format";
                "Invalid phone number format"]).
Proof. by vm_compute. Qed.


(** ** Lists *)

Lemma remove_dups_length_le `{EqDecision A} (l : list A) :
  length (remove_dups l) ≤ length l.
Proof. induction l as [|x l IH]; simpl; [done|]. case_decide; simpl; lia. Qed.

Lemma remove_dups_length_NoDup `{EqDecision A} (l : list A) :
  length (remove_dups l) = length l ↔ NoDup l.
Proof.
  induction l as [|x l IH]; simpl.
  - split; [constructor|done].
  - pose proof (remove_dups_length_le l). case_decide as Hx; simpl.
    + split; [lia|]. intros Hnd. by apply NoDup_cons in Hnd as [? _].
    + rewrite NoDup_cons. split.
      * intros [= Hlen]. split; [done|]. by apply IH.
      * intros [_ Hnd]. f_equal. by apply IH.
Qed.

(** ** The capacity warning *)

(** Whatever the overload policy, a capacity shortfall leaves an issue in the
    list that [validate_assignment_feasibility] returns. *)
Lemma capacity_shortfall_is_reported cfg students mentors :
  students ≠ [] → mentors ≠ [] → BATCH_SIZE cfg ≠ 0 →
  (total_capacity mentors < Z.of_nat (length students))%Z →
  ∃ ok issues, validate_assignment_feasibility cfg students mentors = Ok (ok, issues)
               ∧ issues ≠ [].
Proof.
  intros Hs Hm HB Hcap. unfold validate_assignment_feasibility.
  rewrite (bool_decide_eq_false_2 (students = [])),
    (bool_decide_eq_false_2 (mentors = [])) by done. simpl.
  rewrite (bool_decide_eq_true_2 (_ < _)%Z), (bool_decide_eq_false_2 (BATCH_SIZE cfg = 0))
    by done.
  destruct (allow_mentor_overload cfg); simpl; eexists _, _; (split; [done|]).
  all: intros H; apply (f_equal length) in H;
    repeat (rewrite length_app in H || simpl in H); lia.
Qed.

(** So the run is refused: [validate_data_consistency] accepts only an empty
    issue list, warnings included. *)
Lemma capacity_shortfall_always_raises cfg students mentors :
  students ≠ [] → mentors ≠ [] → BATCH_SIZE cfg ≠ 0 →
  (total_capacity mentors < Z.of_nat (length students))%Z →
  ∃ msg, assign_students_to_mentors cfg students mentors
         = ((students, mentors), Raise (ValueError msg)).
Proof.
  intros Hs Hm HB Hcap.
  destruct (capacity_shortfall_is_reported cfg students mentors Hs Hm HB Hcap)
    as (ok & issues & Hv & Hne).
  unfold assign_students_to_mentors, validate_data_consistency. rewrite Hv. simpl.
  rewrite bool_decide_eq_false_2; [by eexists|].
  rewrite !length_app. destruct issues; [done|simpl; lia].
Qed.

(** C4: three students for one available mentor of capacity two, with
    [allow_mentor_overload] enabled.  The feasibility check returns ok with
    the shortfall as a warning, and the run raises on that warning. *)
Lemma capacity_warning_blocks_the_run :
  allow_mentor_overload config = true ∧
  (total_capacity [mentor_n "FAC001" 2] < Z.of_nat (length (students_upto 3)))%Z ∧
  validate_assignment_feasibility config (students_upto 3) [mentor_n "FAC001" 2]
  = Ok (true, ["Some mentors will exceed normal capacity. Students: 3, Capacity: 2"]) ∧
  assign_students_to_mentors config (students_upto 3) [mentor_n "FAC001" 2]
  = ((students_upto 3, [mentor_n "FAC001" 2]),
     Raise (ValueError
       "Data validation failed: Some mentors will exceed normal capacity. Students: 3, Capacity: 2")).
Proof. repeat split; by vm_compute. Qed.

(** ** Incremental add *)

(** A mentor that is full refuses [assign_student]. *)
Lemma assign_student_full m r :
  (max_students m ≤ Z.of_nat (length (assigned_students m)))%Z →
  assign_student m r
  = Raise (ValueError ("Mentor " +:+ faculty_id m +:+ " cannot accept more students")).
Proof.
  intros Hfull. unfold assign_student, can_accept_students, get_student_count.
  rewrite (bool_decide_eq_false_2 (_ ≤ _)%Z) by lia. by rewrite andb_false_r.
Qed.

(** The overload step raises as soon as the first available mentor is full. *)
Lemma overload_step_raises_when_full cfg st j rest :
  allow_mentor_overload cfg = true → ad_unassigned st ≠ [] →
  available_refs (ad_mentors st) = j :: rest →
  (max_students (ad_mentors st !!! j)
   ≤ Z.of_nat (length (assigned_students (ad_mentors st !!! j))))%Z →
  (overload_step cfg st).2
  = Some (ValueError ("Mentor " +:+ faculty_id (ad_mentors st !!! j)
                      +:+ " cannot accept more students")).
Proof.
  intros Hov Hun Hav Hfull. unfold overload_step.
  rewrite bool_decide_eq_false_2, Hov, Hav by done. simpl.
  destruct (ad_unassigned st) as [|i refs]; [done|]. simpl.
  by rewrite assign_student_full.
Qed.

(** C6: one empty mentor of capacity one and two new students, with
    [allow_mentor_overload] enabled.  The greedy pass places student 1; the
    overload step marks student 2 with the mentor's id and then raises. *)
Lemma overload_add_raises :
  allow_mentor_overload config = true ∧
  add_new_students config [] (students_upto 2) [mentor_n "FAC001" 1]
  = (([set_assigned_mentor_id (Some "FAC001") (student_n 1);
       set_assigned_mentor_id (Some "FAC001") (student_n 2)],
      [set_assigned_students [1%Z] (mentor_n "FAC001" 1)]),
     Raise (ValueError "Mentor FAC001 cannot accept more students")).
Proof. split; by vm_compute. Qed.

Lemma already_exists_spec existing student :
  already_exists existing student = true ↔ roll_no student ∈ roll_no <$> existing.
Proof.
  unfold already_exists. rewrite existsb_exists, list_elem_of_fmap.
  split.
  - intros (s & Hs & Heq). apply bool_decide_eq_true in Heq.
    exists s. by rewrite list_elem_of_In.
  - intros (s & Heq & Hs). exists s. rewrite <- list_elem_of_In.
    split; [done|]. by apply bool_decide_eq_true.
Qed.

(** C7: when a new student's roll number is already taken, [add_new_students]
    raises a [ValueError] that names a colliding roll number (that of the
    first new student that collides) and leaves the new students and the
    mentors as they were; it never writes to an existing student. *)
Theorem add_new_students_rejects_duplicates cfg existing new mentors s e :
  s ∈ new → e ∈ existing → roll_no s = roll_no e →
  ∃ r, r ∈ roll_no <$> new ∧ r ∈ roll_no <$> existing ∧
       add_new_students cfg existing new mentors
       = ((new, mentors),
          Raise (ValueError ("Student with roll number " +:+ pretty r +:+ " already exists"))).
Proof.
  intros Hs He Heq. unfold add_new_students.
  destruct (List.find (already_exists existing) new) as [student|] eqn:Hfind.
  - apply find_some in Hfind as [Hin Hex]. exists (roll_no student).
    split; [|split; [|done]].
    + apply list_elem_of_fmap. exists student. by rewrite list_elem_of_In.
    + by apply already_exists_spec.
  - exfalso. apply list_elem_of_In in Hs.
    pose proof (find_none _ _ Hfind s Hs) as Hno.
    assert (already_exists existing s = true); [|congruence].
    apply already_exists_spec. rewrite Heq. by apply list_elem_of_fmap_2.
Qed.

Lemma add_new_students_rejects_duplicates_witness :
  ∃ r, r ∈ roll_no <$> students_upto 3 ∧ r ∈ roll_no <$> [student_n 2] ∧
       add_new_students config [student_n 2] (students_upto 3)
         [mentor_n "FAC001" 1; mentor_n "FAC002" 5]
       = ((students_upto 3, [mentor_n "FAC001" 1; mentor_n "FAC002" 5]),
          Raise (ValueError ("Student with roll number " +:+ pretty r +:+ " already exists"))).
Proof.
  apply (add_new_students_rejects_duplicates config [student_n 2] (students_upto 3)
           [mentor_n "FAC001" 1; mentor_n "FAC002" 5] (student_n 2) (student_n 2)).
  - apply (bool_decide_unpack _). by vm_compute.
  - apply (bool_decide_unpack _). by vm_compute.
  - reflexivity.
Defined.

(** ** Stores *)

(** Writing the same field of several objects, one after the other. *)
Lemma foldl_alter_lookup_total `{!Inhabited A} (g : A → A) (refs : list nat) (l : list A) i :
  (∀ x, g (g x) = g x) →
  foldl (λ l r, alter g r l) l refs !!! i
  = if decide (i ∈ refs ∧ i < length l) then g (l !!! i) else l !!! i.
Proof.
  intros Hg. revert l. induction refs as [|r refs IH]; intros l; cbn [foldl].
  - rewrite decide_False; [done|]. intros [H _]. by apply elem_of_nil in H.
  - rewrite IH, length_alter, list_lookup_total_alter.
    destruct (decide (i = r)) as [->|Hne].
    + destruct (decide (r < length l)).
      * rewrite (decide_True (P := r = r ∧ _)) by done.
        rewrite (decide_True (P := r ∈ r :: refs ∧ _)) by (split; [left|done]).
        destruct (decide (r ∈ refs ∧ r < length l)); [apply Hg|done].
      * repeat (rewrite decide_False by (intros [_ ?]; lia)). done.
    + rewrite (decide_False (P := r = i ∧ _)) by (intros [? _]; done).
      apply decide_ext. rewrite elem_of_cons. split; intros [Hin ?]; (split; [|done]).
      * by right.
      * by destruct Hin.
Qed.

Lemma foldl_alter_length {A} (g : A → A) (refs : list nat) (l : list A) :
  length (foldl (λ l r, alter g r l) l refs) = length l.
Proof.
  revert l. induction refs as [|r refs IH]; intros l; simpl; [done|].
  by rewrite IH, length_alter.
Qed.

Lemma foldl_alter_lookup_ne {A} (g : A → A) (refs : list nat) (l : list A) i :
  i ∉ refs → foldl (λ l r, alter g r l) l refs !! i = l !! i.
Proof.
  revert l. induction refs as [|r refs IH]; intros l Hi; simpl; [done|].
  apply not_elem_of_cons in Hi as [? ?]. rewrite IH by done.
  by apply list_lookup_alter_ne.
Qed.

Lemma set_mentor_of_length fid refs sts : length (set_mentor_of fid refs sts) = length sts.
Proof. apply foldl_alter_length. Qed.

Lemma set_mentor_of_lookup_total fid refs sts i :
  set_mentor_of fid refs sts !!! i
  = if decide (i ∈ refs ∧ i < length sts)
    then set_assigned_mentor_id (Some fid) (sts !!! i) else sts !!! i.
Proof. by apply foldl_alter_lookup_total. Qed.

Lemma set_mentor_of_roll_no fid refs sts i :
  roll_no (set_mentor_of fid refs sts !!! i) = roll_no (sts !!! i).
Proof. rewrite set_mentor_of_lookup_total. by case_decide. Qed.

Lemma roll_numbers_set_mentor_of fid refs sts l :
  roll_numbers (set_mentor_of fid refs sts) l = roll_numbers sts l.
Proof.
  unfold roll_numbers. apply list_fmap_ext. intros _ i _. apply set_mentor_of_roll_no.
Qed.

Lemma reset_assignments_lookup_total refs ms j :
  reset_assignments refs ms !!! j
  = if decide (j ∈ refs ∧ j < length ms) then set_assigned_students [] (ms !!! j) else ms !!! j.
Proof. by apply foldl_alter_lookup_total. Qed.

Lemma available_refs_spec ms j :
  j ∈ available_refs ms ↔ j < length ms ∧ availability (ms !!! j) = true.
Proof.
  unfold available_refs. rewrite list_elem_of_In, filter_In, <- list_elem_of_In, elem_of_seq.
  split; intros [? ?]; split; try done; lia.
Qed.

Lemma filter_NoDup {A} (p : A → bool) l : NoDup l → NoDup (List.filter p l).
Proof.
  induction 1 as [|x l Hx Hnd IH]; simpl; [constructor|].
  destruct (p x); [|done]. constructor; [|done].
  rewrite list_elem_of_In, filter_In, <- list_elem_of_In. tauto.
Qed.


(** The references to the available mentors and the available mentors
    themselves are as many. *)
Lemma available_refs_length ms :
  length (available_refs ms) = length (List.filter availability ms).
Proof.
  unfold available_refs.
  induction ms as [|m ms IH] using rev_ind; [done|].
  replace (length (ms ++ [m])) with (S (length ms)) by (rewrite length_app; simpl; lia).
  rewrite seq_S, !List.filter_app, !length_app. simpl.
  rewrite lookup_total_app_r, Nat.sub_diag by done. simpl.
  rewrite <- IH. f_equal; [|by destruct (availability m)].
  f_equal. apply List.filter_ext_in. intros j Hj. apply in_seq in Hj.
  by rewrite lookup_total_app_l by lia.
Qed.

(** [sorted] rearranges. *)
Lemma insert_by_Permutation {A} (key : A → Z) x l : insert_by key x l ≡ₚ x :: l.
Proof.
  induction l as [|y l IH]; simpl; [done|].
  destruct (_ <=? _)%Z; [done|]. rewrite IH. apply Permutation_swap.
Qed.

Lemma sorted_Permutation {A} (key : A → Z) l : sorted key l ≡ₚ l.
Proof.
  unfold sorted. induction l as [|x l IH]; simpl; [done|].
  by rewrite insert_by_Permutation, IH.
Qed.

Lemma student_order_Permutation cfg students :
  student_order cfg students ≡ₚ seq 0 (length students).
Proof. unfold student_order. destruct (sort_by_roll_number cfg); [apply sorted_Permutation|done]. Qed.

(** ** The engine leaves unavailable mentors alone *)

Section frame.
Context (cfg : Config) (order avail : list nat).

Lemma assign_to_cursor_frame refs batch note cursor next st j :
  j ∉ avail →
  st_mentors (assign_to_cursor avail refs batch note cursor next st).1 !! j
  = st_mentors st !! j.
Proof.
  intros Hj. unfold assign_to_cursor.
  destruct (avail !! cursor) as [j'|] eqn:Hc; [|done].
  destruct (new_Assignment _ _ _ _); [|done]. simpl.
  apply list_lookup_alter_ne. intros ->. apply Hj. by eapply list_elem_of_lookup_2.
Qed.

Lemma batch_step_frame batch_num st j :
  j ∉ avail →
  st_mentors (batch_step cfg order avail batch_num st).1 !! j = st_mentors st !! j.
Proof.
  intros Hj. unfold batch_step.
  case_bool_decide; [destruct (wrap_around_mentors cfg)|];
    auto using assign_to_cursor_frame.
Qed.

Lemma process_batches_S k st :
  process_batches cfg order avail (S k) st
  = and_then (process_batches cfg order avail k st) (batch_step cfg order avail k).
Proof. unfold process_batches. by rewrite seq_S, foldl_snoc. Qed.

Lemma process_batches_frame k st j :
  j ∉ avail →
  st_mentors (process_batches cfg order avail k st).1 !! j = st_mentors st !! j.
Proof.
  intros Hj. induction k as [|k IH]; [done|].
  rewrite process_batches_S. unfold and_then.
  destruct (process_batches cfg order avail k st) as [st' [e|]]; simpl in *; [done|].
  by rewrite batch_step_frame.
Qed.

Lemma handle_remainder_frame complete remainder st j :
  j ∉ avail →
  st_mentors (handle_remainder cfg order avail complete remainder st).1 !! j
  = st_mentors st !! j.
Proof.
  intros Hj. unfold handle_remainder.
  case_bool_decide; [|done]. case_bool_decide.
  - destruct (last (st_assignments st)) as [a|]; [|done].
    destruct (list_find _ avail) as [[p j']|] eqn:Hfind; [|done].
    destruct (_ && _); [done|]. simpl.
    apply list_lookup_alter_ne. intros ->. apply Hj.
    apply list_find_Some in Hfind as (Hp & _). by eapply list_elem_of_lookup_2.
  - case_bool_decide; [|done]. by apply assign_to_cursor_frame.
Qed.

End frame.

(** C10: a mentor whose [availability] is false is the same record after
    [assign_students_to_mentors] as before, whether the call returns or
    raises; in particular its [assigned_students] are not reset. *)
Theorem assign_students_to_mentors_frame cfg students mentors j m :
  mentors !! j = Some m → availability m = false →
  (assign_students_to_mentors cfg students mentors).1.2 !! j = Some m.
Proof.
  intros Hj Hm.
  assert (Hnot : j ∉ available_refs mentors).
  { rewrite available_refs_spec. intros [_ Hav].
    rewrite (list_lookup_total_correct _ _ _ Hj) in Hav. congruence. }
  unfold assign_students_to_mentors.
  destruct (validate_data_consistency cfg students mentors) as [[[] issues]|e]; try done.
  case_bool_decide; [done|].
  assert (Hreset : reset_assignments (available_refs mentors) mentors !! j = Some m).
  { unfold reset_assignments. by rewrite foldl_alter_lookup_ne. }
  case_bool_decide; [done|]. cbn [fst snd].
  unfold and_then.
  destruct (process_batches _ _ _ _ _) as [st' [e|]] eqn:Hloop; cbn [fst snd].
  - rewrite <- Hreset.
    change st' with (st', Some e).1. rewrite <- Hloop.
    by rewrite process_batches_frame.
  - rewrite handle_remainder_frame by done. rewrite <- Hreset.
    change st' with (st', @None exn).1. rewrite <- Hloop.
    by rewrite process_batches_frame.
Qed.

Lemma assign_students_to_mentors_frame_witness :
  (assign_students_to_mentors config (students_upto 3)
     [mentor_n "FAC001" 30; mentor_on_leave]).1.2 !! 1 = Some mentor_on_leave.
Proof.
  apply (assign_students_to_mentors_frame config (students_upto 3)
           [mentor_n "FAC001" 30; mentor_on_leave] 1 mentor_on_leave); reflexivity.
Defined.

(** ** What validation guarantees *)

Lemma email_errors_total d o : d !! "email" = Some (opt_value o) → ∃ e, email_errors d = Ok e.
Proof.
  intros Hd. unfold email_errors, present, field_missing, getitem, validate_email. rewrite Hd.
  destruct o as [s|]; simpl; [|by eexists].
  destruct (negb (String.eqb s "")); simpl; by eexists.
Qed.

Lemma phone_errors_total d o : d !! "phone" = Some (opt_value o) → ∃ e, phone_errors d = Ok e.
Proof.
  intros Hd. unfold phone_errors, present, field_missing, getitem, validate_phone. rewrite Hd.
  destruct o as [s|]; simpl; [|by eexists].
  destruct (negb (String.eqb s "")); simpl; by eexists.
Qed.

(** A mentor that [validate_data_consistency] has no issue with has a
    faculty id that is not blank. *)
Lemma mentor_issues_nil_named cfg m : mentor_issues cfg m = [] → strip (faculty_id m) ≠ "".
Proof.
  unfold mentor_issues, validate_mentor.
  case_bool_decide as Hmiss; simpl.
  2:{ destruct (missing_field_errors _ _); done. }
  rewrite Hmiss. unfold getitem at 1.
  replace (Mentor_to_dict m !! "faculty_id") with (Some (VStr (faculty_id m))) by reflexivity.
  simpl. unfold validate_faculty_id.
  rewrite (blank_errors_spec _ "name" (m_name m)) by reflexivity.
  rewrite (blank_errors_spec _ "department" (department m)) by reflexivity.
  destruct (email_errors_total (Mentor_to_dict m) (m_email m)) as [e1 ->]; [reflexivity|].
  destruct (phone_errors_total (Mentor_to_dict m) (m_phone m)) as [e2 ->]; [reflexivity|].
  unfold max_students_errors.
  replace (Mentor_to_dict m !! "max_students") with (Some (VInt (max_students m)))
    by reflexivity.
  cbn [int]. 
  destruct (truthy (VStr (faculty_id m))); simpl.
  - destruct (String.eqb_spec (strip (faculty_id m)) ""); simpl; [|done].
    case_bool_decide as Hlen; [done|]. done.
  - case_bool_decide as Hlen; [done|]. done.
Qed.

Lemma concat_nil_elem {A} (ls : list (list A)) l : concat ls = [] → l ∈ ls → l = [].
Proof.
  induction ls as [|l' ls IH]; simpl; intros Hnil Hl; [by apply elem_of_nil in Hl|].
  apply app_eq_nil in Hnil as [? ?]. apply elem_of_cons in Hl as [->|?]; auto.
Qed.

Lemma if_singleton_nil {A} (b : bool) (x : A) : (if b then [x] else []) = [] → b = false.
Proof. by destruct b. Qed.

Lemma validation_accepted cfg students mentors issues :
  validate_data_consistency cfg students mentors = Ok (true, issues) →
  accepted cfg students mentors.
Proof.
  unfold validate_data_consistency.
  destruct (validate_assignment_feasibility cfg students mentors) as [[ok fissues]|e] eqn:Hfeas;
    simpl; [|done].
  intros [= Hlen _]. apply bool_decide_eq_true in Hlen.
  rewrite !length_app in Hlen.
  assert (Hs : concat (student_issues cfg <$> students) = [])
    by (apply length_zero_iff_nil; lia).
  assert (Hm : concat (mentor_issues cfg <$> mentors) = [])
    by (apply length_zero_iff_nil; lia).
  assert (Hf : fissues = []) by (apply length_zero_iff_nil; lia). subst fissues.
  clear Hlen. unfold validate_assignment_feasibility in Hfeas.
  destruct (decide (students = [])) as [->|Hsne].
  { destruct (bool_decide (mentors = [])); simpl in Hfeas; congruence. }
  destruct (decide (mentors = [])) as [->|Hmne].
  { rewrite (bool_decide_eq_false_2 (students = [])) in Hfeas by done.
    simpl in Hfeas. congruence. }
  rewrite (bool_decide_eq_false_2 (students = [])),
    (bool_decide_eq_false_2 (mentors = [])) in Hfeas by done.
  simpl in Hfeas.
  case_bool_decide as HB; [done|]. injection Hfeas as _ Hiss.
  apply app_eq_nil in Hiss as [Herr Hwarn].
  apply app_eq_nil in Herr as [Hr Herr]. apply app_eq_nil in Herr as [Hi Herr].
  apply app_eq_nil in Herr as [Hc Hb].
  apply if_singleton_nil in Hr, Hi, Hc, Hb, Hwarn.
  apply bool_decide_eq_false, dec_stable in Hr, Hi.
  assert (Hcap : (Z.of_nat (length students) ≤ total_capacity mentors)%Z).
  { destruct (decide (total_capacity mentors < Z.of_nat (length students))%Z); [|lia].
    rewrite (bool_decide_eq_true_2 (_ < _)%Z) in Hc, Hwarn by done.
    by destruct (allow_mentor_overload cfg). }
  split; try done.
  - lia.
  - by apply remove_dups_length_NoDup.
  - by apply remove_dups_length_NoDup.
  - intros m Hin. apply mentor_issues_nil_named with cfg.
    apply (concat_nil_elem _ _ Hm). by apply list_elem_of_fmap_2.
  - intros Hwrap. rewrite Hwrap, andb_true_r in Hb.
    apply bool_decide_eq_false in Hb. rewrite available_refs_length. lia.
Qed.

(** ** The skip branch of the batch loop *)

Lemma mark_unassigned_nil st : mark_unassigned [] st = st.
Proof. destruct st. unfold mark_unassigned. simpl. by rewrite app_nil_r. Qed.

Lemma mark_unassigned_app refs1 refs2 st :
  mark_unassigned refs2 (mark_unassigned refs1 st) = mark_unassigned (refs1 ++ refs2) st.
Proof. unfold mark_unassigned. simpl. by rewrite app_assoc. Qed.

Lemma slice_app {A} (l : list A) a n m :
  slice l a (a + n) ++ slice l (a + n) (a + n + m) = slice l a (a + n + m).
Proof.
  unfold slice.
  replace (a + n - a) with n by lia. replace (a + n + m - (a + n)) with m by lia.
  replace (a + n + m - a) with (n + m) by lia.
  by rewrite <- (drop_drop l n a), take_take_drop.
Qed.

Lemma process_batches_skips cfg order avail k n st st_k :
  wrap_around_mentors cfg = false →
  process_batches cfg order avail k st = (st_k, None) →
  length avail ≤ current_mentor_index st_k →
  process_batches cfg order avail (k + n) st
  = (mark_unassigned
       (slice order (k * BATCH_SIZE cfg) (k * BATCH_SIZE cfg + n * BATCH_SIZE cfg)) st_k,
     None).
Proof.
  intros Hwrap Hk Hcur. induction n as [|n IH].
  - rewrite Nat.add_0_r, Hk. unfold slice.
    replace (_ - _) with 0 by lia. by rewrite take_0, mark_unassigned_nil.
  - replace (k + S n) with (S (k + n)) by lia.
    rewrite process_batches_S, IH. unfold and_then, batch_step. cbn [fst snd].
    rewrite bool_decide_eq_true_2 by done. rewrite Hwrap, mark_unassigned_app.
    do 2 f_equal.
    replace ((k + n) * BATCH_SIZE cfg) with (k * BATCH_SIZE cfg + n * BATCH_SIZE cfg) by lia.
    replace (k * BATCH_SIZE cfg + S n * BATCH_SIZE cfg)
      with (k * BATCH_SIZE cfg + n * BATCH_SIZE cfg + BATCH_SIZE cfg) by lia.
    apply slice_app.
Qed.

(** C5: with [wrap_around_mentors] off, once the cursor has reached the end
    of the available mentors after [k] batches, the loop run for [n] more
    batches puts the students of all of them, in order, on the unassigned
    list; it creates no assignment, leaves the cursor where it is and writes
    to no student or mentor. *)
Theorem exhausted_cursor_skips_every_batch cfg order avail k n st st_k :
  wrap_around_mentors cfg = false →
  process_batches cfg order avail k st = (st_k, None) →
  length avail ≤ current_mentor_index st_k →
  ∃ st', process_batches cfg order avail (k + n) st = (st', None)
    ∧ st_unassigned st'
      = st_unassigned st_k
        ++ slice order (k * BATCH_SIZE cfg) ((k + n) * BATCH_SIZE cfg)
    ∧ st_assignments st' = st_assignments st_k
    ∧ current_mentor_index st' = current_mentor_index st_k
    ∧ st_students st' = st_students st_k
    ∧ st_mentors st' = st_mentors st_k.
Proof.
  intros Hwrap Hk Hcur. eexists. split; [by apply process_batches_skips|].
  simpl. repeat split. do 2 f_equal. lia.
Qed.

Lemma exhausted_cursor_skips_every_batch_witness :
  ∃ st', process_batches small_config (seq 0 7) [0] (1 + 2)
           (initial_state (students_upto 7) [mentor_n "FAC001" 30]) = (st', None)
    ∧ st_unassigned st' = [] ++ slice (seq 0 7) (1 * 2) ((1 + 2) * 2)
    ∧ st_assignments st'
      = [{| mentor_id := "FAC001"; student_roll_numbers := [1; 2]%Z; batch_number := 1;
            notes := Some "Batch assignment with 2 students" |}]
    ∧ current_mentor_index st' = 1
    ∧ st_students st'
      = set_mentor_of "FAC001" [0; 1] (students_upto 7)
    ∧ st_mentors st' = [set_assigned_students [1; 2]%Z (mentor_n "FAC001" 30)].
Proof.
  apply (exhausted_cursor_skips_every_batch small_config (seq 0 7) [0] 1 2
           (initial_state (students_upto 7) [mentor_n "FAC001" 30])
           {| st_students := set_mentor_of "FAC001" [0; 1] (students_upto 7);
              st_mentors := [set_assigned_students [1; 2]%Z (mentor_n "FAC001" 30)];
              st_assignments :=
                [{| mentor_id := "FAC001"; student_roll_numbers := [1; 2]%Z;
                    batch_number := 1;
                    notes := Some "Batch assignment with 2 students" |}];
              st_unassigned := []; current_mentor_index := 1 |}).
  - reflexivity.
  - by vm_compute.
  - simpl. lia.
Defined.

(** ** Placing students keeps the state consistent *)

Lemma elem_of_concat {A} (ls : list (list A)) x : x ∈ concat ls ↔ ∃ l, l ∈ ls ∧ x ∈ l.
Proof.
  rewrite list_elem_of_In, in_concat. split; intros (l & Hl & Hx); exists l.
  - by rewrite !list_elem_of_In.
  - by rewrite <- !list_elem_of_In.
Qed.

Lemma roll_numbers_elem sts refs i : i ∈ refs → roll_no (sts !!! i) ∈ roll_numbers sts refs.
Proof. intros Hi. unfold roll_numbers. by apply (list_elem_of_fmap_2 (λ i, roll_no (sts !!! i))). Qed.

Lemma new_Assignment_ok fid rolls batch note :
  strip fid ≠ "" → rolls ≠ [] → 0 < batch →
  new_Assignment fid rolls batch note
  = Ok {| mentor_id := fid; student_roll_numbers := rolls; batch_number := batch;
          notes := note |}.
Proof.
  intros Hfid Hne Hb. unfold new_Assignment.
  destruct (String.eqb_spec (strip fid) ""); [done|].
  rewrite bool_decide_eq_false_2 by done. by rewrite bool_decide_eq_false_2 by lia.
Qed.

Lemma alter_last {A} (f : A → A) (l : list A) x :
  alter f (pred (length (l ++ [x]))) (l ++ [x]) = l ++ [f x].
Proof.
  rewrite length_app. simpl. replace (pred (length l + 1)) with (length l + 0) by lia.
  by rewrite alter_app_r.
Qed.

Lemma batch_slice cfg (order : list nat) k :
  slice order (k * BATCH_SIZE cfg) (k * BATCH_SIZE cfg + BATCH_SIZE cfg)
  = take (BATCH_SIZE cfg) (drop (k * BATCH_SIZE cfg) order).
Proof. unfold slice. f_equal. lia. Qed.

Lemma take_drop_nonempty {A} (l : list A) c n : 0 < n → c < length l → take n (drop c l) ≠ [].
Proof.
  intros Hn Hc Hnil. apply (f_equal length) in Hnil.
  rewrite length_take, length_drop in Hnil. simpl in Hnil. lia.
Qed.

Lemma same_profile_extend rolls m m' :
  same_profile m m' → same_profile (extend_assigned_students rolls m) m'.
Proof. done. Qed.

Section placement.
Context (students : list Student) (mentors : list Mentor) (order avail : list nat).
Hypothesis Horder : order ≡ₚ seq 0 (length students).
Hypothesis Hrolls : NoDup (roll_no <$> students).
Hypothesis Hids : NoDup (faculty_id <$> mentors).
Hypothesis Havail : ∀ j, j ∈ avail → j < length mentors.
Hypothesis Hnamed : ∀ j, j ∈ avail → strip (faculty_id (mentors !!! j)) ≠ "".

Lemma order_valid i : i ∈ order → i < length students.
Proof. rewrite Horder, elem_of_seq. lia. Qed.

Lemma roll_numbers_seq : roll_numbers students (seq 0 (length students)) = roll_no <$> students.
Proof.
  unfold roll_numbers. apply list_eq. intros i.
  rewrite !list_lookup_fmap. destruct (decide (i < length students)) as [Hi|Hi].
  - rewrite lookup_seq_lt by done. simpl.
    destruct (lookup_lt_is_Some_2 _ _ Hi) as [s Hs].
    by rewrite Hs, (list_lookup_total_correct _ _ _ Hs).
  - rewrite lookup_seq_ge by lia. by rewrite lookup_ge_None_2 by lia.
Qed.

Lemma roll_numbers_order : roll_numbers students order ≡ₚ roll_no <$> students.
Proof. rewrite <- roll_numbers_seq. unfold roll_numbers. by rewrite Horder. Qed.

Lemma roll_numbers_order_NoDup : NoDup (roll_numbers students order).
Proof. by rewrite roll_numbers_order. Qed.

Lemma roll_no_inj i i' :
  i < length students → i' < length students →
  roll_no (students !!! i) = roll_no (students !!! i') → i = i'.
Proof.
  intros Hi Hi' Heq.
  destruct (lookup_lt_is_Some_2 _ _ Hi) as [s Hs].
  destruct (lookup_lt_is_Some_2 _ _ Hi') as [s' Hs'].
  rewrite (list_lookup_total_correct _ _ _ Hs), (list_lookup_total_correct _ _ _ Hs') in Heq.
  apply (NoDup_lookup _ _ _ (roll_no s) Hrolls); rewrite list_lookup_fmap.
  - by rewrite Hs.
  - by rewrite Hs', Heq.
Qed.

Lemma faculty_id_inj j j' :
  j < length mentors → j' < length mentors →
  faculty_id (mentors !!! j) = faculty_id (mentors !!! j') → j = j'.
Proof.
  intros Hj Hj' Heq.
  destruct (lookup_lt_is_Some_2 _ _ Hj) as [m Hm].
  destruct (lookup_lt_is_Some_2 _ _ Hj') as [m' Hm'].
  rewrite (list_lookup_total_correct _ _ _ Hm), (list_lookup_total_correct _ _ _ Hm') in Heq.
  apply (NoDup_lookup _ _ _ (faculty_id m) Hids); rewrite list_lookup_fmap.
  - by rewrite Hm.
  - by rewrite Hm', Heq.
Qed.

(** The roll numbers of the students placed so far and those of the next
    students in line are apart. *)
Lemma next_rolls_fresh c n r :
  r ∈ roll_numbers students (take c order) →
  r ∉ roll_numbers students (take n (drop c order)).
Proof.
  intros Hr Hr'. pose proof roll_numbers_order_NoDup as Hnd.
  rewrite <- (take_drop c order) in Hnd. unfold roll_numbers in Hnd.
  rewrite fmap_app in Hnd. apply NoDup_app in Hnd as (_ & Hdisj & _).
  apply (Hdisj r Hr). unfold roll_numbers in Hr'.
  apply list_elem_of_fmap in Hr' as (i & -> & Hi).
  apply (roll_numbers_elem students). eapply subseteq_take, Hi.
Qed.

Lemma next_valid c n i : i ∈ take n (drop c order) → i < length students.
Proof. intros Hi. apply order_valid. eapply subseteq_drop, subseteq_take, Hi. Qed.

(** A roll number of the next students belongs to one of them only. *)
Lemma roll_in_refs refs i :
  (∀ i', i' ∈ refs → i' < length students) → i < length students →
  roll_no (students !!! i) ∈ roll_numbers students refs → i ∈ refs.
Proof.
  intros Hrefs Hi Hin. apply list_elem_of_fmap in Hin as (i' & Heq & Hi').
  by rewrite (roll_no_inj i i' Hi (Hrefs _ Hi') Heq).
Qed.

Lemma roll_numbers_current (sts : list Student) refs :
  (∀ i, roll_no (sts !!! i) = roll_no (students !!! i)) →
  roll_numbers sts refs = roll_numbers students refs.
Proof. intros Hsame. unfold roll_numbers. apply list_fmap_ext. intros _ i _. apply Hsame. Qed.

Lemma alter_extend_profile rolls j (ms : list Mentor) :
  (∀ j', same_profile (ms !!! j') (mentors !!! j')) →
  ∀ j', same_profile (alter (extend_assigned_students rolls) j ms !!! j') (mentors !!! j').
Proof.
  intros Hprof j'. rewrite list_lookup_total_alter.
  case_decide as Hd; [|done]. destruct Hd as [-> _]. apply same_profile_extend, Hprof.
Qed.

(** An assignment that agreed with the stores still does after a write for
    students whose roll numbers it does not hold. *)
Lemma agrees_write sts (ms : list Mentor) a fid refs rolls j' :
  agrees students mentors avail sts ms a →
  (∀ r, r ∈ student_roll_numbers a → r ∉ roll_numbers students refs) →
  agrees students mentors avail (set_mentor_of fid refs sts)
    (alter (extend_assigned_students rolls) j' ms) a.
Proof.
  intros (j & Hj & Hid & Hsub & Hst) Hfresh. exists j. repeat split; try done.
  - rewrite list_lookup_total_alter. case_decide as Hd; [|done].
    destruct Hd as [-> _]. simpl. intros r Hr. apply elem_of_app. left. by apply Hsub.
  - intros i Hi Hr. rewrite set_mentor_of_lookup_total.
    rewrite decide_False; [by apply Hst|].
    intros [Hin _]. apply (Hfresh _ Hr). by apply roll_numbers_elem.
Qed.

(** The assignment a write is made for agrees with the stores after it:
    [prev] are the roll numbers it held before, [refs] the students added. *)
Lemma agrees_extended sts (ms : list Mentor) a' j prev refs :
  j ∈ avail → length ms = length mentors → length sts = length students →
  mentor_id a' = faculty_id (mentors !!! j) →
  student_roll_numbers a' = prev ++ roll_numbers students refs →
  prev ⊆ assigned_students (ms !!! j) →
  (∀ i, i < length students → roll_no (students !!! i) ∈ prev →
        assigned_mentor_id (sts !!! i) = Some (mentor_id a')) →
  (∀ r, r ∈ prev → r ∉ roll_numbers students refs) →
  (∀ i, i ∈ refs → i < length students) →
  agrees students mentors avail (set_mentor_of (mentor_id a') refs sts)
    (alter (extend_assigned_students (roll_numbers students refs)) j ms) a'.
Proof.
  intros Hj Hms Hsts Hid Hrolls' Hprev Hold Hfresh Hrefs. exists j. repeat split; try done.
  - rewrite list_lookup_total_alter, decide_True
      by (split; [done|rewrite Hms; by apply Havail]).
    simpl. rewrite Hrolls'. intros r Hr. apply elem_of_app.
    apply elem_of_app in Hr as [Hr|Hr]; [left; by apply Hprev|by right].
  - intros i Hi Hr. rewrite set_mentor_of_lookup_total. rewrite Hrolls' in Hr.
    apply elem_of_app in Hr as [Hr|Hr].
    + rewrite decide_False; [by apply Hold|].
      intros [Hin _]. apply (Hfresh _ Hr). by apply roll_numbers_elem.
    + rewrite decide_True; [done|]. split; [by apply roll_in_refs|by rewrite Hsts].
Qed.

Lemma consistent_mark_unassigned c n st :
  consistent students mentors order avail c st →
  consistent students mentors order avail (c + n)
    (mark_unassigned (take n (drop c order)) st).
Proof.
  intros [Hsl Hsr Hml Hmp Hal Has]. split; try done.
  unfold allocated in *. simpl.
  rewrite (roll_numbers_current _ (st_unassigned st) Hsr) in Hal.
  rewrite (roll_numbers_current _ _ Hsr).
  unfold roll_numbers in *. by rewrite <- take_take_drop, !fmap_app, app_assoc, Hal.
Qed.

(** The state a new assignment of [refs] to mentor [j] leaves. *)
Lemma assign_to_cursor_ok refs batch note cursor next st j :
  avail !! cursor = Some j →
  faculty_id (st_mentors st !!! j) = faculty_id (mentors !!! j) →
  refs ≠ [] → 0 < batch →
  assign_to_cursor avail refs batch note cursor next st
  = ({| st_students := set_mentor_of (faculty_id (mentors !!! j)) refs (st_students st);
        st_mentors := alter (extend_assigned_students (roll_numbers (st_students st) refs)) j
                        (st_mentors st);
        st_assignments :=
          st_assignments st
          ++ [{| mentor_id := faculty_id (mentors !!! j);
                 student_roll_numbers := roll_numbers (st_students st) refs;
                 batch_number := batch; notes := Some note |}];
        st_unassigned := st_unassigned st;
        current_mentor_index := next |}, None).
Proof.
  intros Hc Hid Hne Hb. unfold assign_to_cursor. rewrite Hc, Hid.
  rewrite new_Assignment_ok; [done| |by destruct refs|done].
  apply Hnamed. by eapply list_elem_of_lookup_2.
Qed.

Lemma consistent_assign c n st j batch note next :
  consistent students mentors order avail c st →
  j ∈ avail →
  consistent students mentors order avail (c + n)
    {| st_students := set_mentor_of (faculty_id (mentors !!! j)) (take n (drop c order))
                        (st_students st);
       st_mentors := alter (extend_assigned_students
                              (roll_numbers (st_students st) (take n (drop c order)))) j
                       (st_mentors st);
       st_assignments :=
         st_assignments st
         ++ [{| mentor_id := faculty_id (mentors !!! j);
                student_roll_numbers := roll_numbers (st_students st) (take n (drop c order));
                batch_number := batch; notes := Some note |}];
       st_unassigned := st_unassigned st;
       current_mentor_index := next |}.
Proof.
  intros [Hsl Hsr Hml Hmp Hal Has] Hj.
  rewrite (roll_numbers_current _ _ Hsr).
  split; simpl.
  - by rewrite set_mentor_of_length.
  - intros i. by rewrite set_mentor_of_roll_no.
  - by rewrite length_alter.
  - by apply alter_extend_profile.
  - unfold allocated in *. simpl. rewrite roll_numbers_set_mentor_of.
    rewrite fmap_app, concat_app. simpl. rewrite app_nil_r.
    rewrite <- take_take_drop. unfold roll_numbers at 3. rewrite fmap_app, <- Hal.
    rewrite <- !app_assoc. apply Permutation_app_head, Permutation_app_comm.
  - intros a Ha. apply elem_of_app in Ha as [Ha|Ha].
    + apply agrees_write; [by apply Has|].
      intros r Hr. apply next_rolls_fresh. rewrite <- Hal. unfold allocated.
      apply elem_of_app. left. apply elem_of_concat. exists (student_roll_numbers a).
      split; [|done]. by apply list_elem_of_fmap_2.
    + apply list_elem_of_singleton in Ha as ->.
      apply (agrees_extended _ _
               {| mentor_id := faculty_id (mentors !!! j);
                  student_roll_numbers := roll_numbers students (take n (drop c order));
                  batch_number := batch; notes := Some note |} j []); try done.
      * intros r Hr. by apply elem_of_nil in Hr.
      * intros i _ Hi. by apply elem_of_nil in Hi.
      * intros r Hr. by apply elem_of_nil in Hr.
      * apply next_valid.
Qed.

(** The state folding [refs] into the last assignment leaves. *)
Lemma consistent_fold c n st a p j remainder :
  consistent students mentors order avail c st →
  last (st_assignments st) = Some a →
  list_find (λ j, faculty_id (st_mentors st !!! j) = mentor_id a) avail = Some (p, j) →
  consistent students mentors order avail (c + n)
    {| st_students := set_mentor_of (faculty_id (st_mentors st !!! j))
                        (take n (drop c order)) (st_students st);
       st_mentors := alter (extend_assigned_students
                              (roll_numbers (st_students st) (take n (drop c order)))) j
                       (st_mentors st);
       st_assignments :=
         alter (fold_into (roll_numbers (st_students st) (take n (drop c order))) remainder)
           (pred (length (st_assignments st))) (st_assignments st);
       st_unassigned := st_unassigned st;
       current_mentor_index := current_mentor_index st |}.
Proof.
  intros [Hsl Hsr Hml Hmp Hal Has] Hlast Hfind.
  apply last_Some in Hlast as [A0 HA]. rewrite HA in *. rewrite alter_last.
  apply list_find_Some in Hfind as (Hp & Hfid & _).
  assert (Hj : j ∈ avail) by (by eapply list_elem_of_lookup_2).
  assert (Hidj : faculty_id (mentors !!! j) = mentor_id a).
  { rewrite <- Hfid. symmetry. apply Hmp. }
  rewrite Hfid. rewrite (roll_numbers_current _ _ Hsr).
  assert (Hplaced : ∀ a0 r, a0 ∈ A0 ++ [a] → r ∈ student_roll_numbers a0 →
                    r ∈ roll_numbers students (take c order)).
  { intros a0 r Ha0 Hr. rewrite <- Hal. unfold allocated. rewrite HA.
    apply elem_of_app. left. apply elem_of_concat. exists (student_roll_numbers a0).
    split; [|done]. by apply list_elem_of_fmap_2. }
  split; simpl.
  - by rewrite set_mentor_of_length.
  - intros i. by rewrite set_mentor_of_roll_no.
  - by rewrite length_alter.
  - by apply alter_extend_profile.
  - unfold allocated in *. simpl in *. rewrite HA in Hal. rewrite roll_numbers_set_mentor_of.
    rewrite fmap_app, concat_app in Hal. rewrite fmap_app, concat_app.
    simpl in *. rewrite app_nil_r in Hal. rewrite app_nil_r.
    rewrite <- take_take_drop. unfold roll_numbers at 3. rewrite fmap_app, <- Hal.
    rewrite <- !app_assoc. do 2 apply Permutation_app_head. apply Permutation_app_comm.
  - intros a0 Ha0. apply elem_of_app in Ha0 as [Ha0|Ha0].
    + apply agrees_write.
      * apply Has. apply elem_of_app. by left.
      * intros r Hr. apply next_rolls_fresh. apply (Hplaced a0); [|done].
        apply elem_of_app. by left.
    + apply list_elem_of_singleton in Ha0 as ->.
      destruct (Has a) as (j0 & Hj0 & Hid0 & Hsub0 & Hst0).
      { apply elem_of_app. right. by apply list_elem_of_singleton. }
      assert (j0 = j) as ->.
      { apply faculty_id_inj; [by apply Havail..|congruence]. }
      apply (agrees_extended _ _
               (fold_into (roll_numbers students (take n (drop c order))) remainder a) j
               (student_roll_numbers a)); try done.
      * intros r Hr. apply next_rolls_fresh. apply (Hplaced a); [|done].
        apply elem_of_app. right. by apply list_elem_of_singleton.
      * apply next_valid.
Qed.

Context (cfg : Config).
Hypothesis Hbatch : 0 < BATCH_SIZE cfg.
Hypothesis Hsome : avail ≠ [].

Lemma batch_step_consistent k st :
  consistent students mentors order avail (k * BATCH_SIZE cfg) st →
  S k * BATCH_SIZE cfg ≤ length order →
  ∃ st', batch_step cfg order avail k st = (st', None)
         ∧ consistent students mentors order avail (S k * BATCH_SIZE cfg) st'.
Proof.
  intros Hcon Hlen. unfold batch_step. rewrite (batch_slice cfg order).
  replace (S k * BATCH_SIZE cfg) with (k * BATCH_SIZE cfg + BATCH_SIZE cfg) by lia.
  assert (Hne : take (BATCH_SIZE cfg) (drop (k * BATCH_SIZE cfg) order) ≠ [])
    by (apply take_drop_nonempty; simpl in Hlen; lia).
  assert (Hassign : ∀ cursor next j, avail !! cursor = Some j →
    ∃ st', assign_to_cursor avail (take (BATCH_SIZE cfg) (drop (k * BATCH_SIZE cfg) order))
             (k + 1)
             ("Batch assignment with "
              +:+ pretty (length (take (BATCH_SIZE cfg) (drop (k * BATCH_SIZE cfg) order)))
              +:+ " students") cursor next st = (st', None)
           ∧ consistent students mentors order avail
               (k * BATCH_SIZE cfg + BATCH_SIZE cfg) st').
  { intros cursor next j Hc. eexists. split.
    - apply assign_to_cursor_ok; [done| |done|lia]. apply (con_profile _ _ _ _ _ _ Hcon).
    - apply consistent_assign; [done|]. by eapply list_elem_of_lookup_2. }
  case_bool_decide as Hcur.
  - destruct (wrap_around_mentors cfg).
    + destruct avail as [|j avail'] eqn:Hav; [done|]. by apply (Hassign 0 1 j).
    + eexists. split; [done|]. by apply consistent_mark_unassigned.
  - destruct (lookup_lt_is_Some_2 avail (current_mentor_index st)) as [j Hj]; [lia|].
    by apply (Hassign _ _ j).
Qed.

Lemma process_batches_consistent k st0 :
  consistent students mentors order avail 0 st0 →
  k * BATCH_SIZE cfg ≤ length order →
  ∃ st', process_batches cfg order avail k st0 = (st', None)
         ∧ consistent students mentors order avail (k * BATCH_SIZE cfg) st'.
Proof.
  intros Hcon. induction k as [|k IH]; intros Hlen.
  - by exists st0.
  - destruct IH as (st1 & Hrun & Hcon1); [simpl in Hlen; lia|].
    rewrite process_batches_S, Hrun. unfold and_then. cbn [fst snd].
    by apply batch_step_consistent.
Qed.

Lemma handle_remainder_consistent complete remainder st :
  consistent students mentors order avail (complete * BATCH_SIZE cfg) st →
  complete * BATCH_SIZE cfg + remainder = length order →
  ∃ st', handle_remainder cfg order avail complete remainder st = (st', None)
         ∧ consistent students mentors order avail (length order) st'.
Proof.
  intros Hcon Hlen. unfold handle_remainder.
  case_bool_decide as Hrem.
  2:{ exists st. split; [done|]. by replace (length order) with (complete * BATCH_SIZE cfg) by lia. }
  rewrite <- Hlen.
  assert (Hrefs : drop (complete * BATCH_SIZE cfg) order
                  = take remainder (drop (complete * BATCH_SIZE cfg) order)).
  { symmetry. apply take_ge. rewrite length_drop. lia. }
  assert (Hne : take remainder (drop (complete * BATCH_SIZE cfg) order) ≠ [])
    by (apply take_drop_nonempty; lia).
  rewrite Hrefs.
  case_bool_decide as Hthr.
  - destruct (last (st_assignments st)) as [a|] eqn:Hlast.
    2:{ eexists. split; [done|]. by apply consistent_mark_unassigned. }
    destruct (list_find _ avail) as [[p j]|] eqn:Hfind.
    2:{ exfalso. destruct (con_assignments _ _ _ _ _ _ Hcon a) as (j0 & Hj0 & Hid0 & _).
        { by apply last_Some_elem_of. }
        eapply list_find_None, Forall_forall in Hfind; [|exact Hj0].
        apply Hfind. rewrite <- Hid0. apply (con_profile _ _ _ _ _ _ Hcon). }
    destruct (_ && _).
    + eexists. split; [done|]. by apply consistent_mark_unassigned.
    + eexists. split; [done|]. by eapply consistent_fold.
  - case_bool_decide as Hcur.
    + destruct (lookup_lt_is_Some_2 avail (current_mentor_index st)) as [j Hj]; [lia|].
      eexists. split.
      * apply assign_to_cursor_ok; [done| |done|lia]. apply (con_profile _ _ _ _ _ _ Hcon).
      * apply consistent_assign; [done|]. by eapply list_elem_of_lookup_2.
    + eexists. split; [done|]. by apply consistent_mark_unassigned.
Qed.

End placement.

(** ** A run that validation accepts *)

Lemma fmap_lookup_total_ext `{!Inhabited A} {B} (f : A → B) (l l' : list A) :
  length l = length l' → (∀ i, f (l !!! i) = f (l' !!! i)) → f <$> l = f <$> l'.
Proof.
  intros Hlen Hf. apply list_eq. intros i. rewrite !list_lookup_fmap.
  destruct (decide (i < length l)) as [Hi|Hi].
  - destruct (lookup_lt_is_Some_2 l i Hi) as [x Hx].
    destruct (lookup_lt_is_Some_2 l' i) as [x' Hx']; [lia|].
    specialize (Hf i).
    rewrite (list_lookup_total_correct _ _ _ Hx), (list_lookup_total_correct _ _ _ Hx') in Hf.
    rewrite Hx, Hx'. simpl. by f_equal.
  - by rewrite !lookup_ge_None_2 by lia.
Qed.

Lemma reset_assignments_length refs ms : length (reset_assignments refs ms) = length ms.
Proof. apply foldl_alter_length. Qed.

Lemma reset_assignments_profile refs ms j :
  same_profile (reset_assignments refs ms !!! j) (ms !!! j).
Proof. rewrite reset_assignments_lookup_total. by case_decide. Qed.

Lemma reset_assignments_ids refs ms :
  faculty_id <$> reset_assignments refs ms = faculty_id <$> ms.
Proof.
  apply fmap_lookup_total_ext; [apply reset_assignments_length|].
  intros j. apply reset_assignments_profile.
Qed.

Lemma total_capacity_pos ms : (0 < total_capacity ms)%Z → available_refs ms ≠ [].
Proof.
  intros Hpos Hnil. apply (f_equal length) in Hnil.
  rewrite available_refs_length in Hnil. unfold total_capacity in Hpos.
  destruct (List.filter availability ms); [simpl in Hpos; lia|done].
Qed.

Lemma lookup_total_elem `{!Inhabited A} (l : list A) i : i < length l → l !!! i ∈ l.
Proof. intros Hi. by apply list_elem_of_lookup_total_2. Qed.

(** Once validation has passed the call returns, and the state the engine
    ends in is consistent for all the students. *)
Lemma accepted_run cfg students mentors issues :
  validate_data_consistency cfg students mentors = Ok (true, issues) →
  ∃ st,
    assign_students_to_mentors cfg students mentors
    = ((st_students st, st_mentors st),
       Ok (_create_assignment_summary (length students) (length mentors)
             (st_assignments st) (roll_numbers (st_students st) (st_unassigned st))))
    ∧ consistent students (reset_assignments (available_refs mentors) mentors)
        (student_order cfg students) (available_refs mentors) (length students) st.
Proof.
  intros Hval. pose proof (validation_accepted _ _ _ _ Hval) as Hacc.
  destruct Hacc as [HB Hsne Hrolls Hids Hnamed Hcap Hbat].
  assert (Hav : available_refs mentors ≠ []).
  { apply total_capacity_pos. destruct students; [done|]. simpl in Hcap. lia. }
  set (order := student_order cfg students).
  set (avail := available_refs mentors).
  set (mentors0 := reset_assignments avail mentors).
  assert (Hlen : length order = length students).
  { unfold order. by rewrite student_order_Permutation, length_seq. }
  assert (Hids0 : NoDup (faculty_id <$> mentors0))
    by (unfold mentors0; by rewrite reset_assignments_ids).
  assert (Havail : ∀ j, j ∈ avail → j < length mentors0).
  { intros j Hj. apply available_refs_spec in Hj as [? _].
    unfold mentors0. by rewrite reset_assignments_length. }
  assert (Hnamed0 : ∀ j, j ∈ avail → strip (faculty_id (mentors0 !!! j)) ≠ "").
  { intros j Hj. apply available_refs_spec in Hj as [? _].
    unfold mentors0. destruct (reset_assignments_profile avail mentors j) as [-> _].
    by apply Hnamed, lookup_total_elem. }
  assert (Hcon0 : consistent students mentors0 order avail 0 (initial_state students mentors0)).
  { split; try done. intros a Ha. by apply elem_of_nil in Ha. }
  pose proof (Nat.div_mod_eq (length order) (BATCH_SIZE cfg)) as Hdiv.
  destruct (process_batches_consistent students mentors0 order avail
              (student_order_Permutation cfg students) Hrolls Havail Hnamed0 cfg HB Hav
              (length order / BATCH_SIZE cfg) _ Hcon0) as (st1 & Hrun1 & Hcon1); [lia|].
  destruct (handle_remainder_consistent students mentors0 order avail
              (student_order_Permutation cfg students) Hrolls Hids0 Havail Hnamed0 cfg HB
              (length order / BATCH_SIZE cfg) (length order `mod` BATCH_SIZE cfg) st1 Hcon1)
    as (st2 & Hrun2 & Hcon2); [lia|].
  exists st2. rewrite <- Hlen at 2. split; [|done].
  unfold assign_students_to_mentors. rewrite Hval.
  rewrite (bool_decide_eq_false_2 (available_refs mentors = [])) by done.
  rewrite (bool_decide_eq_false_2 (BATCH_SIZE cfg = 0)) by lia.
  fold order avail mentors0. rewrite Hrun1. unfold and_then. cbn [fst snd].
  rewrite Hrun2. cbn [fst snd]. by rewrite Hlen.
Qed.

Lemma total_assigned_length (l : list Assignment) :
  foldr Nat.add 0 ((λ a, length (student_roll_numbers a)) <$> l)
  = length (concat (student_roll_numbers <$> l)).
Proof. induction l as [|a l IH]; simpl; [done|]. rewrite length_app. by f_equal. Qed.

(** C2: when validation passes (which needs at least one student, enough
    capacity and, unless mentors are reused, enough available mentors for
    the batches) the call returns a summary in which the assignment sizes
    and the unassigned students add up to the number of students, and the
    roll numbers of the assignments followed by the unassigned ones are the
    students' roll numbers rearranged, none twice: each student's roll
    number has exactly one place. *)
Theorem assignment_conserves_students cfg students mentors issues :
  validate_data_consistency cfg students mentors = Ok (true, issues) →
  ∃ stores summary,
    assign_students_to_mentors cfg students mentors = (stores, Ok summary)
    ∧ foldr Nat.add 0 ((λ a, length (student_roll_numbers a)) <$> assignments summary)
      + length (unassigned_students summary) = length students
    ∧ concat (student_roll_numbers <$> assignments summary) ++ unassigned_students summary
      ≡ₚ roll_no <$> students
    ∧ NoDup (concat (student_roll_numbers <$> assignments summary)
             ++ unassigned_students summary).
Proof.
  intros Hval. destruct (accepted_run _ _ _ _ Hval) as (st & Hrun & Hcon).
  destruct (validation_accepted _ _ _ _ Hval) as [_ _ Hrolls _ _ _ _].
  eexists _, _. split; [exact Hrun|]. simpl.
  assert (Hperm : allocated st ≡ₚ roll_no <$> students).
  { rewrite (con_allocated _ _ _ _ _ _ Hcon).
    rewrite take_ge by (by rewrite student_order_Permutation, length_seq).
    apply roll_numbers_order. apply student_order_Permutation. }
  unfold allocated in Hperm. split; [|split].
  - rewrite total_assigned_length, <- length_app, Hperm. apply length_fmap.
  - done.
  - by rewrite Hperm.
Qed.

Lemma assignment_conserves_students_witness :
  ∃ stores summary,
    assign_students_to_mentors config (students_upto 64)
      [mentor_n "FAC001" 30; mentor_n "FAC002" 30; mentor_n "FAC003" 30]
    = (stores, Ok summary)
    ∧ foldr Nat.add 0 ((λ a, length (student_roll_numbers a)) <$> assignments summary)
      + length (unassigned_students summary) = length (students_upto 64)
    ∧ concat (student_roll_numbers <$> assignments summary) ++ unassigned_students summary
      ≡ₚ roll_no <$> students_upto 64
    ∧ NoDup (concat (student_roll_numbers <$> assignments summary)
             ++ unassigned_students summary).
Proof.
  apply (assignment_conserves_students config (students_upto 64)
           [mentor_n "FAC001" 30; mentor_n "FAC002" 30; mentor_n "FAC003" 30] []).
  by vm_compute.
Defined.

(** C9: after a run that validation accepted, the students keep their
    places and roll numbers; every assignment of the summary names exactly
    one mentor, that mentor is available and holds all the roll numbers of
    the assignment, and every student whose roll number is in the
    assignment points to that mentor; and no roll number is both unassigned
    and in an assignment. *)
Theorem assignments_agree_with_stores cfg students mentors issues :
  validate_data_consistency cfg students mentors = Ok (true, issues) →
  ∃ students' mentors' summary,
    assign_students_to_mentors cfg students mentors = ((students', mentors'), Ok summary)
    ∧ roll_no <$> students' = roll_no <$> students
    ∧ (∀ a, a ∈ assignments summary →
        (∃ j m, mentors' !! j = Some m ∧ availability m = true
                ∧ faculty_id m = mentor_id a
                ∧ (∀ j' m', mentors' !! j' = Some m' → faculty_id m' = mentor_id a → j' = j)
                ∧ student_roll_numbers a ⊆ assigned_students m)
        ∧ (∀ s, s ∈ students' → roll_no s ∈ student_roll_numbers a →
                assigned_mentor_id s = Some (mentor_id a)))
    ∧ (∀ r a, r ∈ unassigned_students summary → a ∈ assignments summary →
              r ∉ student_roll_numbers a).
Proof.
  intros Hval. destruct (accepted_run _ _ _ _ Hval) as (st & Hrun & Hcon).
  destruct (validation_accepted _ _ _ _ Hval) as [_ _ Hrolls Hids _ _ _].
  destruct Hcon as [Hsl Hsr Hml Hmp Hal Has].
  rewrite reset_assignments_length in Hml.
  exists (st_students st), (st_mentors st). eexists. split; [exact Hrun|]. simpl.
  assert (Hperm : allocated st ≡ₚ roll_no <$> students).
  { rewrite Hal. rewrite take_ge by (by rewrite student_order_Permutation, length_seq).
    apply roll_numbers_order. apply student_order_Permutation. }
  split; [by apply fmap_lookup_total_ext|]. split.
  - intros a Ha. destruct (Has a Ha) as (j & Hj & Hid & Hsub & Hst).
    apply available_refs_spec in Hj as [Hjlt Hjav].
    destruct (reset_assignments_profile (available_refs mentors) mentors j)
      as (Hp1 & Hp2 & _).
    destruct (Hmp j) as (Hq1 & Hq2 & _).
    split.
    + exists j, (st_mentors st !!! j). repeat split.
      * apply list_lookup_lookup_total_lt. lia.
      * congruence.
      * congruence.
      * intros j' m' Hj' Hid'. pose proof (lookup_lt_Some _ _ _ Hj') as Hlt'.
        apply (faculty_id_inj mentors Hids); [lia..|].
        destruct (Hmp j') as (Hr1 & _).
        destruct (reset_assignments_profile (available_refs mentors) mentors j')
          as (Hr2 & _).
        rewrite (list_lookup_total_correct _ _ _ Hj') in Hr1. congruence.
      * done.
    + intros s Hs Hr. apply list_elem_of_lookup in Hs as [i Hi].
      pose proof (lookup_lt_Some _ _ _ Hi) as Hlt.
      rewrite <- (list_lookup_total_correct _ _ _ Hi) in *.
      apply Hst; [lia|]. by rewrite <- Hsr.
  - intros r a Hr Ha Hin.
    assert (Hnd : NoDup (allocated st)) by (by rewrite Hperm).
    apply NoDup_app in Hnd as (_ & Hdisj & _). apply (Hdisj r); [|done].
    apply elem_of_concat. exists (student_roll_numbers a). split; [|done].
    by apply list_elem_of_fmap_2.
Qed.

Lemma assignments_agree_with_stores_witness :
  ∃ students' mentors' summary,
    assign_students_to_mentors config (students_upto 64)
      [mentor_n "FAC001" 30; mentor_n "FAC002" 30; mentor_n "FAC003" 30]
    = ((students', mentors'), Ok summary)
    ∧ roll_no <$> students' = roll_no <$> students_upto 64
    ∧ (∀ a, a ∈ assignments summary →
        (∃ j m, mentors' !! j = Some m ∧ availability m = true
                ∧ faculty_id m = mentor_id a
                ∧ (∀ j' m', mentors' !! j' = Some m' → faculty_id m' = mentor_id a → j' = j)
                ∧ student_roll_numbers a ⊆ assigned_students m)
        ∧ (∀ s, s ∈ students' → roll_no s ∈ student_roll_numbers a →
                assigned_mentor_id s = Some (mentor_id a)))
    ∧ (∀ r a, r ∈ unassigned_students summary → a ∈ assignments summary →
              r ∉ student_roll_numbers a).
Proof.
  apply (assignments_agree_with_stores config (students_upto 64)
           [mentor_n "FAC001" 30; mentor_n "FAC002" 30; mentor_n "FAC003" 30] []).
  by vm_compute.
Defined.

(** ** Batches when no mentor is reused *)

Lemma length_roll_numbers (sts : list Student) refs : length (roll_numbers sts refs) = length refs.
Proof. apply length_fmap. Qed.

Section no_reuse.
Context (students : list Student) (mentors : list Mentor) (order avail : list nat).
Context (cfg : Config).
Hypothesis Horder : order ≡ₚ seq 0 (length students).
Hypothesis Hrolls : NoDup (roll_no <$> students).
Hypothesis Hids : NoDup (faculty_id <$> mentors).
Hypothesis Havail : ∀ j, j ∈ avail → j < length mentors.
Hypothesis Hdistinct : NoDup avail.
Hypothesis Hnamed : ∀ j, j ∈ avail → strip (faculty_id (mentors !!! j)) ≠ "".
Hypothesis Hbatch : 0 < BATCH_SIZE cfg.
Hypothesis Hsome : avail ≠ [].



End no_reuse.

(** What the loop starts from once validation has passed. *)
Lemma accepted_setting cfg students mentors issues :
  validate_data_consistency cfg students mentors = Ok (true, issues) →
  let order := student_order cfg students in
  let avail := available_refs mentors in
  let mentors0 := reset_assignments avail mentors in
  NoDup (faculty_id <$> mentors0)
  ∧ (∀ j, j ∈ avail → j < length mentors0)
  ∧ (∀ j, j ∈ avail → strip (faculty_id (mentors0 !!! j)) ≠ "")
  ∧ avail ≠ []
  ∧ length order = length students
  ∧ consistent students mentors0 order avail 0 (initial_state students mentors0)
  ∧ sequential (BATCH_SIZE cfg) mentors0 avail 0 (initial_state students mentors0).
Proof.
  intros Hval order avail mentors0.
  destruct (validation_accepted _ _ _ _ Hval) as [HB Hsne Hrolls Hids Hnamed Hcap Hbat].
  assert (Hlen0 : length mentors0 = length mentors) by apply reset_assignments_length.
  split_and!.
  - unfold mentors0. by rewrite reset_assignments_ids.
  - intros j Hj. apply available_refs_spec in Hj as [? _]. by rewrite Hlen0.
  - intros j Hj. apply available_refs_spec in Hj as [? _].
    unfold mentors0. destruct (reset_assignments_profile avail mentors j) as [-> _].
    by apply Hnamed, lookup_total_elem.
  - apply total_capacity_pos. destruct students; [done|]. simpl in Hcap. lia.
  - unfold order. by rewrite student_order_Permutation, length_seq.
  - split; try done. intros a Ha. by apply elem_of_nil in Ha.
  - split; try done.
    + intros a Ha. by apply elem_of_nil in Ha.
    + intros p j Hp. cbn [initial_state st_mentors].
      rewrite (decide_False (P := p < 0)) by lia.
      unfold mentors0. rewrite reset_assignments_lookup_total, decide_True; [done|].
      assert (Hj : j ∈ avail) by (by eapply list_elem_of_lookup_2).
      split; [done|]. by apply available_refs_spec in Hj as [? _].
Qed.

(** The call is the loop followed by the remainder step. *)
Lemma run_of_states cfg students mentors issues st1 st2 :
  validate_data_consistency cfg students mentors = Ok (true, issues) →
  let order := student_order cfg students in
  let avail := available_refs mentors in
  let mentors0 := reset_assignments avail mentors in
  process_batches cfg order avail (length order / BATCH_SIZE cfg)
    (initial_state students mentors0) = (st1, None) →
  handle_remainder cfg order avail (length order / BATCH_SIZE cfg)
    (length order `mod` BATCH_SIZE cfg) st1 = (st2, None) →
  assign_students_to_mentors cfg students mentors
  = ((st_students st2, st_mentors st2),
     Ok (_create_assignment_summary (length students) (length mentors)
           (st_assignments st2) (roll_numbers (st_students st2) (st_unassigned st2)))).
Proof.
  intros Hval order avail mentors0 Hrun1 Hrun2. subst order avail mentors0.
  destruct (validation_accepted _ _ _ _ Hval) as [HB _ _ _ _ _ _].
  destruct (accepted_setting _ _ _ _ Hval) as (_ & _ & _ & Hav & Hlen & _).
  unfold assign_students_to_mentors. rewrite Hval.
  rewrite (bool_decide_eq_false_2 (available_refs mentors = [])) by done.
  rewrite (bool_decide_eq_false_2 (BATCH_SIZE cfg = 0)) by lia.
  cbv zeta. rewrite Hrun1. unfold and_then. cbn [fst snd].
  rewrite Hrun2. cbn [fst snd]. by rewrite Hlen.
Qed.

(** Without wrap-around, validation has seen to it that the complete
    batches are no more than the available mentors. *)
Lemma accepted_batches cfg students mentors issues :
  validate_data_consistency cfg students mentors = Ok (true, issues) →
  wrap_around_mentors cfg = false →
  length students / BATCH_SIZE cfg ≤ length (available_refs mentors).
Proof.
  intros Hval Hwrap.
  destruct (validation_accepted _ _ _ _ Hval) as [HB _ _ _ _ _ Hbat].
  etrans; [|by apply Hbat]. apply Nat.Div0.div_le_mono. lia.
Qed.

(** ** Loads after the remainder step *)

Section remainder_loads.
Context (students : list Student) (mentors : list Mentor) (order avail : list nat).
Context (cfg : Config).
Hypothesis Hids : NoDup (faculty_id <$> mentors).
Hypothesis Havail : ∀ j, j ∈ avail → j < length mentors.
Hypothesis Hdistinct : NoDup avail.
Hypothesis Hnamed : ∀ j, j ∈ avail → strip (faculty_id (mentors !!! j)) ≠ "".



End remainder_loads.

(** ** Runs that reuse no mentor *)



(** Why the amended C3 asks for wrap-around to be off: with it on, ninety
    students and two mentors of capacity thirty and sixty pass validation,
    and the third batch goes to the first mentor again, who ends with sixty
    students against a maximum of thirty. *)
Lemma reused_mentor_exceeds_capacity :
  allow_mentor_overload reuse_config = false ∧
  ∃ students' mentors' summary m,
    assign_students_to_mentors reuse_config (students_upto 90)
      [mentor_n "FAC001" 30; mentor_n "FAC002" 60]
    = ((students', mentors'), Ok summary)
    ∧ mentors' !! 0 = Some m
    ∧ max_students m = 30%Z ∧ length (assigned_students m) = 60.
Proof.
  split; [done|].
  eexists _, _, _, _. split; [by vm_compute|]. by split.
Qed.



(** ** The remainder *)




(** * Further properties *)

(** ** The mentor's own bookkeeping *)

Lemma set_assigned_students_same m : set_assigned_students (assigned_students m) m = m.
Proof. by destruct m. Qed.

Lemma remove_first_snoc l r : r ∉ l → remove_first r (l ++ [r]) = l.
Proof.
  induction l as [|y l IH]; simpl; intros Hr.
  - by rewrite bool_decide_eq_true_2.
  - apply not_elem_of_cons in Hr as [Hne Hr].
    rewrite bool_decide_eq_false_2 by done. by rewrite IH.
Qed.

(** X1: [Mentor.assign_student] on an available mentor with a free slot: the
    student is on the list afterwards, the list is within capacity and has
    gained no duplicate, a student already held changes nothing, a new one
    goes to the end of the list, and the mentor is the one it was in every
    field but [assigned_students]. *)
Theorem assign_student_succeeds m r :
  availability m = true →
  (Z.of_nat (length (assigned_students m)) < max_students m)%Z →
  ∃ m', assign_student m r = Ok m'
        ∧ r ∈ assigned_students m'
        ∧ (Z.of_nat (length (assigned_students m')) ≤ max_students m')%Z
        ∧ (NoDup (assigned_students m) → NoDup (assigned_students m'))
        ∧ (r ∈ assigned_students m → m' = m)
        ∧ (r ∉ assigned_students m → assigned_students m' = assigned_students m ++ [r])
        ∧ m' = set_assigned_students (assigned_students m') m.
Proof.
  unfold assign_student, can_accept_students, get_student_count.
  intros Hav Hfree. rewrite Hav, (bool_decide_eq_true_2 (_ ≤ _)%Z) by lia. simpl.
  case_bool_decide as Hin.
  - exists m. split_and!; try done; [lia|by rewrite set_assigned_students_same].
  - eexists. split; [done|]. simpl. split_and!; try done.
    + apply elem_of_app. right. by apply list_elem_of_singleton.
    + rewrite length_app. simpl. lia.
    + intros Hnd. apply NoDup_app. split_and!; [done| |apply NoDup_singleton].
      intros x Hx Hx'. apply list_elem_of_singleton in Hx' as ->. done.
Qed.

Lemma assign_student_succeeds_witness :
  ∃ m', assign_student (mentor_n "FAC001" 30) 7 = Ok m'
        ∧ 7%Z ∈ assigned_students m'
        ∧ (Z.of_nat (length (assigned_students m')) ≤ max_students m')%Z
        ∧ (NoDup (assigned_students (mentor_n "FAC001" 30)) → NoDup (assigned_students m'))
        ∧ (7%Z ∈ assigned_students (mentor_n "FAC001" 30) → m' = mentor_n "FAC001" 30)
        ∧ (7%Z ∉ assigned_students (mentor_n "FAC001" 30) →
           assigned_students m' = assigned_students (mentor_n "FAC001" 30) ++ [7%Z])
        ∧ m' = set_assigned_students (assigned_students m') (mentor_n "FAC001" 30).
Proof.
  apply (assign_student_succeeds (mentor_n "FAC001" 30) 7); [reflexivity|simpl; lia].
Defined.

(** X2: [Mentor.assign_student] refuses whenever the mentor is unavailable or
    full, also for a student the mentor already holds (for whom the call
    would have changed nothing). *)
Theorem assign_student_refuses m r :
  availability m = false
  ∨ (max_students m ≤ Z.of_nat (length (assigned_students m)))%Z →
  assign_student m r
  = Raise (ValueError ("Mentor " +:+ faculty_id m +:+ " cannot accept more students")).
Proof.
  unfold assign_student, can_accept_students, get_student_count. intros [Hav|Hfull].
  - by rewrite Hav.
  - rewrite (bool_decide_eq_false_2 (_ ≤ _)%Z) by lia. by rewrite andb_false_r.
Qed.

Lemma assign_student_refuses_witness :
  assign_student (set_assigned_students [7%Z] (mentor_n "FAC001" 1)) 7
  = Raise (ValueError ("Mentor " +:+ "FAC001" +:+ " cannot accept more students")).
Proof.
  apply (assign_student_refuses (set_assigned_students [7%Z] (mentor_n "FAC001" 1)) 7).
  right. simpl. lia.
Defined.

(** X3: removing a student that was just added to a mentor who did not hold it
    gives the mentor back. *)
Theorem remove_after_assign m r m' :
  r ∉ assigned_students m → assign_student m r = Ok m' → remove_student m' r = m.
Proof.
  intros Hr. unfold assign_student.
  destruct (negb _); [done|]. rewrite bool_decide_eq_false_2 by done.
  intros [= <-]. unfold remove_student, extend_assigned_students. simpl.
  rewrite bool_decide_eq_true_2.
  - rewrite remove_first_snoc by done. by destruct m.
  - apply elem_of_app. right. by apply list_elem_of_singleton.
Qed.

Lemma remove_after_assign_witness :
  remove_student (extend_assigned_students [7%Z] (mentor_n "FAC001" 30)) 7 = mentor_n "FAC001" 30.
Proof.
  apply (remove_after_assign (mentor_n "FAC001" 30) 7).
  - apply (bool_decide_unpack _). by vm_compute.
  - reflexivity.
Defined.

(** X4: a mentor can accept [count] more students, for a [count] of at least
    one, exactly when it is available and has that many free slots. *)
Theorem can_accept_students_slots m count :
  0 < count →
  can_accept_students m count
  = availability m && bool_decide (Z.of_nat count ≤ get_available_slots m)%Z.
Proof.
  intros Hc. unfold can_accept_students, get_available_slots, get_student_count.
  f_equal. apply bool_decide_ext. lia.
Qed.

Lemma can_accept_students_slots_witness :
  can_accept_students (mentor_n "FAC001" 30) 30
  = availability (mentor_n "FAC001" 30)
    && bool_decide (Z.of_nat 30 ≤ get_available_slots (mentor_n "FAC001" 30))%Z.
Proof. apply (can_accept_students_slots (mentor_n "FAC001" 30) 30). lia. Defined.

(** ** The assignment's own bookkeeping *)

(** X5: for a roll number an assignment does not hold yet: adding it and
    removing it again gives the assignment back, and adding it a second
    time changes nothing. *)
Theorem Assignment_add_remove a r :
  r ∉ student_roll_numbers a →
  Assignment_remove_student (Assignment_add_student a r) r = a
  ∧ Assignment_add_student (Assignment_add_student a r) r = Assignment_add_student a r.
Proof.
  intros Hr. unfold Assignment_add_student, Assignment_remove_student.
  rewrite (bool_decide_eq_false_2 (r ∈ student_roll_numbers a)) by done. simpl.
  assert (Hin : r ∈ student_roll_numbers a ++ [r]).
  { apply elem_of_app. right. by apply list_elem_of_singleton. }
  rewrite !bool_decide_eq_true_2 by done. split; [|done].
  rewrite remove_first_snoc by done. by destruct a.
Qed.

Lemma Assignment_add_remove_witness :
  Assignment_remove_student
    (Assignment_add_student
       {| mentor_id := "FAC001"; student_roll_numbers := [5%Z]; batch_number := 1;
          notes := None |} 6) 6
  = {| mentor_id := "FAC001"; student_roll_numbers := [5%Z]; batch_number := 1;
       notes := None |}
  ∧ Assignment_add_student
      (Assignment_add_student
         {| mentor_id := "FAC001"; student_roll_numbers := [5%Z]; batch_number := 1;
            notes := None |} 6) 6
    = Assignment_add_student
        {| mentor_id := "FAC001"; student_roll_numbers := [5%Z]; batch_number := 1;
           notes := None |} 6.
Proof.
  apply (Assignment_add_remove
           {| mentor_id := "FAC001"; student_roll_numbers := [5%Z]; batch_number := 1;
              notes := None |} 6).
  apply (bool_decide_unpack _). by vm_compute.
Defined.

(** X6: [Assignment.remove_student] does not keep what the constructor checks:
    removing the only student leaves an assignment with an empty list, which
    the constructor refuses to build. *)
Theorem Assignment_remove_last_student a r :
  student_roll_numbers a = [r] → strip (mentor_id a) ≠ "" →
  student_roll_numbers (Assignment_remove_student a r) = []
  ∧ new_Assignment (mentor_id (Assignment_remove_student a r))
      (student_roll_numbers (Assignment_remove_student a r))
      (batch_number (Assignment_remove_student a r)) (notes (Assignment_remove_student a r))
    = Raise (ValueError "Student list cannot be empty").
Proof.
  intros Hone Hid. unfold Assignment_remove_student. rewrite Hone.
  rewrite bool_decide_eq_true_2 by (by apply list_elem_of_singleton).
  simpl. rewrite bool_decide_eq_true_2 by done. split; [done|].
  unfold new_Assignment. simpl. by destruct (String.eqb_spec (strip (mentor_id a)) "").
Qed.

Lemma Assignment_remove_last_student_witness :
  student_roll_numbers
    (Assignment_remove_student
       {| mentor_id := "FAC001"; student_roll_numbers := [5%Z]; batch_number := 1;
          notes := None |} 5) = []
  ∧ new_Assignment
      (mentor_id (Assignment_remove_student
         {| mentor_id := "FAC001"; student_roll_numbers := [5%Z]; batch_number := 1;
            notes := None |} 5))
      (student_roll_numbers (Assignment_remove_student
         {| mentor_id := "FAC001"; student_roll_numbers := [5%Z]; batch_number := 1;
            notes := None |} 5))
      (batch_number (Assignment_remove_student
         {| mentor_id := "FAC001"; student_roll_numbers := [5%Z]; batch_number := 1;
            notes := None |} 5))
      (notes (Assignment_remove_student
         {| mentor_id := "FAC001"; student_roll_numbers := [5%Z]; batch_number := 1;
            notes := None |} 5))
    = Raise (ValueError "Student list cannot be empty").
Proof.
  apply (Assignment_remove_last_student
           {| mentor_id := "FAC001"; student_roll_numbers := [5%Z]; batch_number := 1;
              notes := None |} 5).
  - reflexivity.
  - by vm_compute.
Defined.
(** ** The email pattern *)

Lemma take_drop_while {A} (p : A → bool) l : take_while p l ++ drop_while p l = l.
Proof. induction l as [|x l IH]; simpl; [done|]. destruct (p x); simpl; by f_equal. Qed.

Lemma take_while_Forall {A} (p : A → bool) l : Forall (λ a, p a = true) (take_while p l).
Proof.
  induction l as [|x l IH]; simpl; [constructor|].
  destruct (p x) eqn:Hx; by constructor.
Qed.

Lemma drop_while_head {A} (p : A → bool) l x l' : drop_while p l = x :: l' → p x = false.
Proof.
  induction l as [|y l IH]; simpl; [done|].
  destruct (p y) eqn:Hy; [done|]. by intros [= -> _].
Qed.

Lemma take_while_stop {A} (p : A → bool) l x r :
  Forall (λ a, p a = true) l → p x = false → take_while p (l ++ x :: r) = l.
Proof.
  intros Hl Hx. induction Hl as [|y l Hy _ IH]; simpl; [by rewrite Hx|].
  by rewrite Hy, IH.
Qed.

Lemma drop_while_stop {A} (p : A → bool) l x r :
  Forall (λ a, p a = true) l → p x = false → drop_while p (l ++ x :: r) = x :: r.
Proof.
  intros Hl Hx. induction Hl as [|y l Hy _ IH]; simpl; [by rewrite Hx|].
  by rewrite Hy, IH.
Qed.

Lemma forallb_Forall {A} (p : A → bool) l : forallb p l = true ↔ Forall (λ a, p a = true) l.
Proof.
  rewrite forallb_forall, Forall_forall. by setoid_rewrite list_elem_of_In.
Qed.

Lemma not_char_neq c a : not_char c a = true ↔ a ≠ c.
Proof. unfold not_char. destruct (Ascii.eqb_spec a c); split; intros; done. Qed.

(** [$] lets one newline at the end of the string pass. *)
Lemma chomp_newline body :
  match reverse (body ++ ["010"%char]) with
  | "010"%char :: r => reverse r
  | _ => body ++ ["010"%char]
  end = body.
Proof. rewrite reverse_snoc. apply reverse_involutive. Qed.

Lemma chomp_other s :
  last s ≠ Some "010"%char →
  match reverse s with
  | "010"%char :: r => reverse r
  | _ => s
  end = s.
Proof.
  intros Hlast. destruct (reverse s) as [|a r] eqn:Hrev; [done|].
  assert (Hs : s = reverse r ++ [a]).
  { rewrite <- (reverse_involutive s), Hrev. by rewrite reverse_cons. }
  destruct (decide (a = "010"%char)) as [->|Hne].
  { destruct Hlast. rewrite Hs. by rewrite last_snoc. }
  destruct a as [[] [] [] [] [] [] [] []]; try done.
Qed.

Lemma chomp_cases s :
  let s' := match reverse s with
            | "010"%char :: r => reverse r
            | _ => s
            end in
  s = s' ∨ s = s' ++ ["010"%char].
Proof.
  destruct (decide (last s = Some "010"%char)) as [Hlast|Hlast].
  - right. apply last_Some in Hlast as [body ->]. by rewrite chomp_newline.
  - left. by rewrite chomp_other.
Qed.

(** The checks behind the pattern once the newline is set aside. *)
Lemma match_body_shape s :
  (let local := take_while (not_char "@") s in
   match drop_while (not_char "@") s with
   | _ :: rest =>
       let tld := reverse (take_while (not_char ".") (reverse rest)) in
       match drop_while (not_char ".") (reverse rest) with
       | _ :: dom =>
           negb (bool_decide (local = [])) && forallb local_char local
           && negb (bool_decide (dom = [])) && forallb domain_char dom
           && bool_decide (2 ≤ length tld) && forallb is_alpha tld
       | [] => false
       end
   | [] => false
   end) = true ↔ email_shape s.
Proof.
  cbv zeta. split.
  - pose proof (take_drop_while (not_char "@") s) as Hs.
    destruct (drop_while (not_char "@") s) as [|at_ rest] eqn:Hdrop; [done|].
    apply drop_while_head, not_true_iff_false in Hdrop.
    rewrite not_char_neq in Hdrop. apply dec_stable in Hdrop as ->.
    pose proof (take_drop_while (not_char ".") (reverse rest)) as Hrest.
    destruct (drop_while (not_char ".") (reverse rest)) as [|dot dom] eqn:Hdrop; [done|].
    apply drop_while_head, not_true_iff_false in Hdrop.
    rewrite not_char_neq in Hdrop. apply dec_stable in Hdrop as ->.
    rewrite !andb_true_iff, !negb_true_iff, !bool_decide_eq_false, bool_decide_eq_true,
      !forallb_Forall.
    intros [[[[[Hl Hlc] Hd] Hdc] Ht] Htc].
    exists (take_while (not_char "@") s), (reverse dom),
      (reverse (take_while (not_char ".") (reverse rest))).
    split_and!; try done.
    + rewrite <- Hs at 1. do 2 f_equal.
      apply (inj reverse). rewrite <- Hrest at 1.
      by rewrite reverse_app, reverse_cons, !reverse_involutive, <- app_assoc.
    + intros Hnil. apply Hd. by rewrite <- (reverse_involutive dom), Hnil.
    + by apply Forall_reverse.
  - intros (local & dom & tld & -> & Hl & Hlc & Hd & Hdc & Ht & Htc).
    assert (Hat : Forall (λ a, not_char "@" a = true) local).
    { eapply Forall_impl; [exact Hlc|]. intros a Ha. apply not_char_neq. by intros ->. }
    assert (Hdot : Forall (λ a, not_char "." a = true) (reverse tld)).
    { apply Forall_reverse. eapply Forall_impl; [exact Htc|].
      intros a Ha. apply not_char_neq. by intros ->. }
    rewrite (take_while_stop _ local), (drop_while_stop _ local) by (done || reflexivity).
    rewrite reverse_app, reverse_cons, <- app_assoc. simpl.
    rewrite (take_while_stop _ (reverse tld)), (drop_while_stop _ (reverse tld))
      by (done || reflexivity).
    rewrite reverse_involutive.
    rewrite !andb_true_iff, !negb_true_iff, !bool_decide_eq_false, bool_decide_eq_true,
      !forallb_Forall.
    split_and!; try done.
    + intros Hnil. apply Hd. by rewrite <- (reverse_involutive dom), Hnil.
    + by apply Forall_reverse.
Qed.

(** X7: [validate_email]'s matcher accepts exactly the strings of the shape its
    regular expression describes, with or without one newline at the end. *)
Theorem match_email_pattern_shape s :
  match_email_pattern s = true
  ↔ ∃ body, (s = body ∨ s = body ++ ["010"%char]) ∧ email_shape body.
Proof.
  unfold match_email_pattern. cbv zeta. rewrite match_body_shape. split.
  - intros Hshape. eexists. split; [apply chomp_cases|done].
  - intros (body & [->| ->] & Hshape).
    + rewrite chomp_other; [done|].
      destruct Hshape as (local & dom & tld & -> & _ & _ & _ & _ & Ht & Htc).
      destruct tld as [|a tld _] using rev_ind; [simpl in Ht; lia|].
      rewrite !app_comm_cons, !app_assoc, last_snoc. intros [= ->].
      apply Forall_app in Htc as [_ Htc]. inversion Htc as [|? ? Ha _]. by vm_compute in Ha.
    + by rewrite chomp_newline.
Qed.
(** ** Feasibility *)

(** X8: [validate_assignment_feasibility] finds an assignment feasible, with or
    without a warning, exactly when the batch size is not zero, there are
    students and mentors, no roll number and no faculty id occurs twice, the
    available capacity covers the students unless overload is allowed, and
    the available mentors cover the batches unless mentors may be reused. *)
Theorem validate_assignment_feasibility_accepts cfg students mentors :
  (∃ issues, validate_assignment_feasibility cfg students mentors = Ok (true, issues))
  ↔ BATCH_SIZE cfg ≠ 0 ∧ students ≠ [] ∧ mentors ≠ []
    ∧ NoDup (roll_no <$> students) ∧ NoDup (faculty_id <$> mentors)
    ∧ (allow_mentor_overload cfg = true
       ∨ (Z.of_nat (length students) ≤ total_capacity mentors)%Z)
    ∧ (wrap_around_mentors cfg = true
       ∨ (length students + BATCH_SIZE cfg - 1) / BATCH_SIZE cfg
         ≤ length (List.filter availability mentors)).
Proof.
  unfold validate_assignment_feasibility.
  destruct (decide (students = [])) as [->|Hs].
  { destruct (bool_decide (mentors = [])); simpl; split.
    all: try (intros [? [=]]). all: by intros (_ & ? & _). }
  destruct (decide (mentors = [])) as [->|Hm].
  { rewrite (bool_decide_eq_false_2 (students = [])) by done. simpl. split.
    - intros [? [=]].
    - by intros (_ & _ & ? & _). }
  rewrite (bool_decide_eq_false_2 (students = [])),
    (bool_decide_eq_false_2 (mentors = [])) by done.
  simpl. destruct (decide (BATCH_SIZE cfg = 0)) as [HB|HB].
  { rewrite bool_decide_eq_true_2 by done. split; [intros [? [=]]|by intros (? & _)]. }
  rewrite (bool_decide_eq_false_2 (BATCH_SIZE cfg = 0)) by done.
  split.
  - intros (issues & [= Hlen _]). apply bool_decide_eq_true in Hlen.
    rewrite !length_app in Hlen.
    split_and!; try done.
    + apply remove_dups_length_NoDup.
      destruct (decide (length (roll_no <$> students)
                        = length (remove_dups (roll_no <$> students)))); [done|].
      rewrite (bool_decide_eq_true_2 (length (roll_no <$> students) ≠ _)) in Hlen by done.
      simpl in Hlen. lia.
    + apply remove_dups_length_NoDup.
      destruct (decide (length (faculty_id <$> mentors)
                        = length (remove_dups (faculty_id <$> mentors)))); [done|].
      rewrite (bool_decide_eq_true_2 (length (faculty_id <$> mentors) ≠ _)) in Hlen by done.
      simpl in Hlen. lia.
    + destruct (allow_mentor_overload cfg); [by left|right].
      destruct (decide (total_capacity mentors < Z.of_nat (length students))%Z); [|lia].
      rewrite (bool_decide_eq_true_2 (_ < _)%Z) in Hlen by done. simpl in Hlen. lia.
    + destruct (wrap_around_mentors cfg); [by left|right].
      destruct (decide (length (List.filter availability mentors)
                        < (length students + BATCH_SIZE cfg - 1) / BATCH_SIZE cfg)); [|lia].
      rewrite (bool_decide_eq_true_2 (_ < _)) in Hlen by done. simpl in Hlen. lia.
  - intros (_ & _ & _ & Hr & Hi & Hc & Hb). eexists. f_equal. f_equal.
    apply bool_decide_eq_true. apply remove_dups_length_NoDup in Hr, Hi.
    rewrite (bool_decide_eq_false_2 (length (roll_no <$> students) ≠ _))
      by (intros Hne; by apply Hne).
    rewrite (bool_decide_eq_false_2 (length (faculty_id <$> mentors) ≠ _))
      by (intros Hne; by apply Hne).
    replace (bool_decide (total_capacity mentors < Z.of_nat (length students))%Z
             && negb (allow_mentor_overload cfg)) with false.
    2:{ destruct Hc as [->|Hc]; [by rewrite andb_false_r|].
        by rewrite (bool_decide_eq_false_2 (_ < _)%Z) by lia. }
    replace (bool_decide (length (List.filter availability mentors)
                          < (length students + BATCH_SIZE cfg - 1) / BATCH_SIZE cfg)
             && negb (wrap_around_mentors cfg)) with false.
    2:{ destruct Hb as [->|Hb]; [by rewrite andb_false_r|].
        by rewrite (bool_decide_eq_false_2 (_ < _)) by lia. }
    done.
Qed.
(** ** Records that pass validation *)

Lemma email_errors_opt d o :
  d !! "email" = Some (opt_value o) →
  email_errors d
  = Ok (match o with
        | Some e =>
            if negb (String.eqb e "")
               && negb (match_email_pattern (String.list_ascii_of_string e))
            then ["Invalid email format"] else []
        | None => []
        end).
Proof.
  intros Hd. unfold email_errors, present, field_missing, getitem, validate_email. rewrite Hd.
  destruct o as [e|]; simpl; [|done].
  destruct (String.eqb e ""); simpl; [done|]. by destruct (match_email_pattern _).
Qed.

Lemma phone_errors_opt d o :
  d !! "phone" = Some (opt_value o) →
  phone_errors d
  = Ok (match o with
        | Some p =>
            if negb (String.eqb p "")
               && negb (bool_decide
                          (10 ≤ length (List.filter is_digit (String.list_ascii_of_string p))
                           ≤ 15))
            then ["Invalid phone number format"] else []
        | None => []
        end).
Proof.
  intros Hd. unfold phone_errors, present, field_missing, getitem, validate_phone. rewrite Hd.
  destruct o as [p|]; simpl; [|done].
  destruct (String.eqb p ""); simpl; [done|]. by destruct (bool_decide _).
Qed.

Lemma well_formed_nil {A} (check : string → bool) o (x : A) :
  match o with
  | Some s => if negb (String.eqb s "") && negb (check s) then [x] else []
  | None => []
  end = [] ↔ well_formed check o.
Proof.
  unfold well_formed. destruct o as [s|]; [|by split].
  destruct (String.eqb_spec s "") as [->|Hs]; simpl.
  - split; [|done]. by intros _ ? [= <-].
  - destruct (check s) eqn:Hc; simpl.
    + split; [|done]. by intros _ ? [= <-].
    + split; [done|]. intros Hwf. specialize (Hwf s eq_refl Hs). congruence.
Qed.

Lemma strip_nonempty s : strip s ≠ "" → s ≠ "".
Proof. by intros Hs ->. Qed.

Lemma fmap_nil_iff {A B} (f : A → B) l : f <$> l = [] ↔ l = [].
Proof. by destruct l. Qed.

Lemma issues_nil {A} (f : string → A) (errors : list string) :
  (if bool_decide (length errors = 0) then [] else f <$> errors) = [] ↔ errors = [].
Proof.
  case_bool_decide as Hlen.
  - split; [|done]. intros _. by apply length_zero_iff_nil.
  - apply fmap_nil_iff.
Qed.

(** The phone check of [validate_phone] on a text. *)
Lemma plausible_phone_spec p :
  plausible_phone p = true
  ↔ 10 ≤ length (List.filter is_digit (String.list_ascii_of_string p)) ≤ 15.
Proof. apply bool_decide_eq_true. Qed.

Lemma student_checks cfg s :
  missing_field_errors (required_student_fields cfg) (Student_to_dict s) = [] →
  student_issues cfg s = []
  ↔ (min_roll_number cfg ≤ roll_no s ≤ max_roll_number cfg)%Z
    ∧ year s ∈ valid_years cfg
    ∧ strip (name s) ≠ ""
    ∧ well_formed (λ e, match_email_pattern (String.list_ascii_of_string e)) (email s)
    ∧ well_formed plausible_phone (phone s).
Proof.
  intros Hmiss. unfold student_issues, validate_student. rewrite Hmiss.
  rewrite (bool_decide_eq_true_2 ([] = [])) by done. cbn [negb].
  unfold roll_number_errors, year_errors, getitem.
  replace (Student_to_dict s !! "roll_no") with (Some (VInt (roll_no s))) by reflexivity.
  replace (Student_to_dict s !! "year") with (Some (VInt (year s))) by reflexivity.
  rewrite (blank_errors_spec _ "name" (name s)) by reflexivity.
  rewrite (email_errors_opt _ (email s)), (phone_errors_opt _ (phone s)) by reflexivity.
  cbn [bind int]. etrans; [apply issues_nil|]. rewrite !app_nil_l.
  unfold validate_roll_number, validate_year.
  split.
  - intros Hnil. apply app_eq_nil in Hnil as [Hnil Hp].
    apply app_eq_nil in Hnil as [Hnil He]. apply app_eq_nil in Hnil as [Hnil Hn].
    apply app_eq_nil in Hnil as [Hr Hy].
    apply (well_formed_nil (λ e, match_email_pattern (String.list_ascii_of_string e))) in He.
    apply (well_formed_nil plausible_phone) in Hp.
    assert (Hr' : (min_roll_number cfg ≤ roll_no s ≤ max_roll_number cfg)%Z).
    { destruct (decide (min_roll_number cfg ≤ roll_no s ≤ max_roll_number cfg)%Z); [done|].
      by rewrite bool_decide_eq_false_2 in Hr. }
    assert (Hy' : year s ∈ valid_years cfg).
    { destruct (decide (year s ∈ valid_years cfg)); [done|].
      by rewrite bool_decide_eq_false_2 in Hy. }
    assert (Hn' : strip (name s) ≠ "").
    { intros Hs. by rewrite Hs in Hn. }
    done.
  - intros (Hr & Hy & Hn & He & Hp).
    apply (well_formed_nil (λ e, match_email_pattern (String.list_ascii_of_string e))
             _ "Invalid email format") in He.
    apply (well_formed_nil plausible_phone _ "Invalid phone number format") in Hp.
    unfold plausible_phone in Hp. rewrite He, Hp.
    rewrite !bool_decide_eq_true_2 by done.
    by destruct (String.eqb_spec (strip (name s)) "").
Qed.

(** X9: under the required fields of the default configuration,
    [validate_data_consistency] has no issue with a student exactly when the
    roll number is not zero and in range, the year is not zero and valid,
    the name is not blank, the branch is not empty (a branch of spaces
    passes), and email and phone are well-formed where given. *)
Theorem student_without_issues cfg s :
  required_student_fields cfg = ["roll_no"; "name"; "branch"; "year"] →
  student_issues cfg s = []
  ↔ roll_no s ≠ 0%Z ∧ (min_roll_number cfg ≤ roll_no s ≤ max_roll_number cfg)%Z
    ∧ year s ≠ 0%Z ∧ year s ∈ valid_years cfg
    ∧ strip (name s) ≠ "" ∧ branch s ≠ ""
    ∧ well_formed (λ e, match_email_pattern (String.list_ascii_of_string e)) (email s)
    ∧ well_formed plausible_phone (phone s).
Proof.
  intros Hreq.
  assert (Hmiss : missing_field_errors (required_student_fields cfg) (Student_to_dict s)
                  = (λ field, "Missing required field: " +:+ field) <$>
                    ((if (roll_no s =? 0)%Z then ["roll_no"] else [])
                     ++ (if String.eqb (name s) "" then ["name"] else [])
                     ++ (if String.eqb (branch s) "" then ["branch"] else [])
                     ++ (if (year s =? 0)%Z then ["year"] else []))).
  { rewrite Hreq. unfold missing_field_errors. f_equal. cbn [List.filter].
    unfold field_missing.
    replace (Student_to_dict s !! "roll_no") with (Some (VInt (roll_no s))) by reflexivity.
    replace (Student_to_dict s !! "name") with (Some (VStr (name s))) by reflexivity.
    replace (Student_to_dict s !! "branch") with (Some (VStr (branch s))) by reflexivity.
    replace (Student_to_dict s !! "year") with (Some (VInt (year s))) by reflexivity.
    cbn [truthy]. rewrite !negb_involutive.
    by destruct (roll_no s =? 0)%Z, (String.eqb (name s) ""), (String.eqb (branch s) ""),
      (year s =? 0)%Z. }
  destruct (Z.eqb_spec (roll_no s) 0) as [Hr|Hr];
    [|destruct (String.eqb_spec (name s) "") as [Hn|Hn];
      [|destruct (String.eqb_spec (branch s) "") as [Hb|Hb];
        [|destruct (Z.eqb_spec (year s) 0) as [Hy|Hy]]]].
  5:{ rewrite student_checks by (by rewrite Hmiss). split.
      - intros (H1 & H2 & H3 & H4 & H5). by apply strip_nonempty in H3 as H3'.
      - by intros (_ & H1 & _ & H2 & H3 & _ & H4 & H5). }
  all: split; [|intros (? & ? & ? & ? & Hs & ? & _); try done;
                 by apply strip_nonempty in Hs].
  all: unfold student_issues, validate_student; rewrite Hmiss; done.
Qed.

Lemma student_without_issues_witness :
  student_issues config (student_n 1) = []
  ↔ roll_no (student_n 1) ≠ 0%Z
    ∧ (min_roll_number config ≤ roll_no (student_n 1) ≤ max_roll_number config)%Z
    ∧ year (student_n 1) ≠ 0%Z ∧ year (student_n 1) ∈ valid_years config
    ∧ strip (name (student_n 1)) ≠ "" ∧ branch (student_n 1) ≠ ""
    ∧ well_formed (λ e, match_email_pattern (String.list_ascii_of_string e))
        (email (student_n 1))
    ∧ well_formed plausible_phone (phone (student_n 1)).
Proof. apply (student_without_issues config (student_n 1)). reflexivity. Defined.

Lemma mentor_checks cfg m :
  missing_field_errors (required_mentor_fields cfg) (Mentor_to_dict m) = [] →
  mentor_issues cfg m = []
  ↔ strip (faculty_id m) ≠ "" ∧ strip (m_name m) ≠ "" ∧ strip (department m) ≠ ""
    ∧ well_formed (λ e, match_email_pattern (String.list_ascii_of_string e)) (m_email m)
    ∧ well_formed plausible_phone (m_phone m)
    ∧ (0 < max_students m)%Z.
Proof.
  intros Hmiss. unfold mentor_issues, validate_mentor. rewrite Hmiss.
  rewrite (bool_decide_eq_true_2 ([] = [])) by done. cbn [negb].
  unfold getitem at 1.
  replace (Mentor_to_dict m !! "faculty_id") with (Some (VStr (faculty_id m))) by reflexivity.
  rewrite (blank_errors_spec _ "name" (m_name m)) by reflexivity.
  rewrite (blank_errors_spec _ "department" (department m)) by reflexivity.
  rewrite (email_errors_opt _ (m_email m)), (phone_errors_opt _ (m_phone m)) by reflexivity.
  unfold max_students_errors.
  replace (Mentor_to_dict m !! "max_students") with (Some (VInt (max_students m)))
    by reflexivity.
  assert (Hfid : validate_faculty_id (VStr (faculty_id m))
                 = Ok (negb (String.eqb (strip (faculty_id m)) ""))).
  { unfold validate_faculty_id. cbn [truthy strip_value bind].
    destruct (String.eqb_spec (faculty_id m) "") as [->|]; done. }
  cbn [bind]. rewrite Hfid. cbn [bind int]. etrans; [apply issues_nil|]. rewrite !app_nil_l.
  split.
  - intros Hnil. apply app_eq_nil in Hnil as [Hnil Hc].
    apply app_eq_nil in Hnil as [Hnil Hp]. apply app_eq_nil in Hnil as [Hnil He].
    apply app_eq_nil in Hnil as [Hnil Hd]. apply app_eq_nil in Hnil as [Hf Hn].
    apply (well_formed_nil (λ e, match_email_pattern (String.list_ascii_of_string e))) in He.
    apply (well_formed_nil plausible_phone) in Hp.
    assert (Hf' : strip (faculty_id m) ≠ "").
    { intros Hs. by rewrite Hs in Hf. }
    assert (Hn' : strip (m_name m) ≠ "").
    { intros Hs. by rewrite Hs in Hn. }
    assert (Hd' : strip (department m) ≠ "").
    { intros Hs. by rewrite Hs in Hd. }
    assert (Hc' : (0 < max_students m)%Z).
    { destruct (decide (max_students m ≤ 0)%Z); [|lia].
      by rewrite bool_decide_eq_true_2 in Hc. }
    done.
  - intros (Hf & Hn & Hd & He & Hp & Hc).
    apply (well_formed_nil (λ e, match_email_pattern (String.list_ascii_of_string e))
             _ "Invalid email format") in He.
    apply (well_formed_nil plausible_phone _ "Invalid phone number format") in Hp.
    unfold plausible_phone in Hp. rewrite He, Hp.
    rewrite (bool_decide_eq_false_2 (_ ≤ _)%Z) by lia.
    by destruct (String.eqb_spec (strip (faculty_id m)) ""),
      (String.eqb_spec (strip (m_name m)) ""), (String.eqb_spec (strip (department m)) "").
Qed.

(** X10: under the required fields of the default configuration,
    [validate_data_consistency] has no issue with a mentor exactly when
    faculty id, name and department are not blank, email and phone are
    well-formed where given, and [max_students] is positive. *)
Theorem mentor_without_issues cfg m :
  required_mentor_fields cfg = ["faculty_id"; "name"; "department"] →
  mentor_issues cfg m = []
  ↔ strip (faculty_id m) ≠ "" ∧ strip (m_name m) ≠ "" ∧ strip (department m) ≠ ""
    ∧ well_formed (λ e, match_email_pattern (String.list_ascii_of_string e)) (m_email m)
    ∧ well_formed plausible_phone (m_phone m)
    ∧ (0 < max_students m)%Z.
Proof.
  intros Hreq.
  assert (Hmiss : missing_field_errors (required_mentor_fields cfg) (Mentor_to_dict m)
                  = (λ field, "Missing required field: " +:+ field) <$>
                    ((if String.eqb (faculty_id m) "" then ["faculty_id"] else [])
                     ++ (if String.eqb (m_name m) "" then ["name"] else [])
                     ++ (if String.eqb (department m) "" then ["department"] else []))).
  { rewrite Hreq. unfold missing_field_errors. f_equal. cbn [List.filter].
    unfold field_missing.
    replace (Mentor_to_dict m !! "faculty_id") with (Some (VStr (faculty_id m)))
      by reflexivity.
    replace (Mentor_to_dict m !! "name") with (Some (VStr (m_name m))) by reflexivity.
    replace (Mentor_to_dict m !! "department") with (Some (VStr (department m)))
      by reflexivity.
    cbn [truthy]. rewrite !negb_involutive.
    by destruct (String.eqb (faculty_id m) ""), (String.eqb (m_name m) ""),
      (String.eqb (department m) ""). }
  destruct (String.eqb_spec (faculty_id m) "") as [Hf|Hf];
    [|destruct (String.eqb_spec (m_name m) "") as [Hn|Hn];
      [|destruct (String.eqb_spec (department m) "") as [Hd|Hd]]].
  4:{ apply mentor_checks. by rewrite Hmiss. }
  all: split; [|intros (H1 & H2 & H3 & _);
                 apply strip_nonempty in H1, H2, H3; done].
  all: unfold mentor_issues, validate_mentor; rewrite Hmiss; done.
Qed.

Lemma mentor_without_issues_witness :
  mentor_issues config (mentor_n "FAC001" 30) = []
  ↔ strip (faculty_id (mentor_n "FAC001" 30)) ≠ ""
    ∧ strip (m_name (mentor_n "FAC001" 30)) ≠ ""
    ∧ strip (department (mentor_n "FAC001" 30)) ≠ ""
    ∧ well_formed (λ e, match_email_pattern (String.list_ascii_of_string e))
        (m_email (mentor_n "FAC001" 30))
    ∧ well_formed plausible_phone (m_phone (mentor_n "FAC001" 30))
    ∧ (0 < max_students (mentor_n "FAC001" 30))%Z.
Proof. apply (mentor_without_issues config (mentor_n "FAC001" 30)). reflexivity. Defined.

Lemma student_issues_missing cfg s :
  student_issues cfg s = [] →
  missing_field_errors (required_student_fields cfg) (Student_to_dict s) = [].
Proof.
  unfold student_issues, validate_student.
  destruct (missing_field_errors _ _) as [|e errors]; [done|].
  by rewrite (bool_decide_eq_false_2 (_ = [])).
Qed.

Lemma mentor_issues_missing cfg m :
  mentor_issues cfg m = [] →
  missing_field_errors (required_mentor_fields cfg) (Mentor_to_dict m) = [].
Proof.
  unfold mentor_issues, validate_mentor.
  destruct (missing_field_errors _ _) as [|e errors]; [done|].
  by rewrite (bool_decide_eq_false_2 (_ = [])).
Qed.

(** X11: validation is at least as strict as the constructors, whatever fields
    the configuration requires: when roll numbers must be positive and the
    valid years are among 1 to 4, every student and every mentor of an input
    that [validate_data_consistency] accepts would be built again by
    [Student(...)] and [Mentor(...)] without an error. *)
Theorem validated_records_constructible cfg students mentors issues :
  (0 < min_roll_number cfg)%Z →
  valid_years cfg ⊆ [1; 2; 3; 4]%Z →
  validate_data_consistency cfg students mentors = Ok (true, issues) →
  (∀ s, s ∈ students →
     new_Student (roll_no s) (name s) (branch s) (year s) (email s) (phone s)
       (assigned_mentor_id s) = Ok s)
  ∧ (∀ m, m ∈ mentors →
       new_Mentor (faculty_id m) (m_name m) (department m) (m_email m) (m_phone m)
         (availability m) (max_students m) (Some (assigned_students m)) = Ok m).
Proof.
  intros Hmin Hyears. unfold validate_data_consistency.
  destruct (validate_assignment_feasibility cfg students mentors) as [[ok fissues]|e];
    simpl; [|done].
  intros [= Hlen _]. apply bool_decide_eq_true in Hlen. rewrite !length_app in Hlen.
  assert (Hs : concat (student_issues cfg <$> students) = [])
    by (apply length_zero_iff_nil; lia).
  assert (Hm : concat (mentor_issues cfg <$> mentors) = [])
    by (apply length_zero_iff_nil; lia).
  split.
  - intros s Hin.
    assert (Hnil : student_issues cfg s = []).
    { apply (concat_nil_elem _ _ Hs). by apply (list_elem_of_fmap_2 (student_issues cfg)). }
    apply student_checks in Hnil as (Hr & Hy & Hn & _); [|by apply student_issues_missing].
    unfold new_Student.
    rewrite (bool_decide_eq_false_2 (_ ≤ 0)%Z) by lia.
    destruct (String.eqb_spec (strip (name s)) ""); [done|].
    rewrite (bool_decide_eq_true_2 (year s ∈ _)) by (by apply Hyears).
    by destruct s.
  - intros m Hin.
    assert (Hnil : mentor_issues cfg m = []).
    { apply (concat_nil_elem _ _ Hm). by apply (list_elem_of_fmap_2 (mentor_issues cfg)). }
    apply mentor_checks in Hnil as (Hf & Hn & _ & _ & _ & Hc);
      [|by apply mentor_issues_missing].
    unfold new_Mentor.
    destruct (String.eqb_spec (strip (faculty_id m)) ""); [done|].
    destruct (String.eqb_spec (strip (m_name m)) ""); [done|].
    rewrite (bool_decide_eq_false_2 (_ ≤ 0)%Z) by lia.
    by destruct m.
Qed.

Lemma validated_records_constructible_witness :
  (∀ s, s ∈ students_upto 3 →
     new_Student (roll_no s) (name s) (branch s) (year s) (email s) (phone s)
       (assigned_mentor_id s) = Ok s)
  ∧ (∀ m, m ∈ [mentor_n "FAC001" 30] →
       new_Mentor (faculty_id m) (m_name m) (department m) (m_email m) (m_phone m)
         (availability m) (max_students m) (Some (assigned_students m)) = Ok m).
Proof.
  apply (validated_records_constructible config (students_upto 3) [mentor_n "FAC001" 30] []).
  - reflexivity.
  - intros y Hy. exact Hy.
  - by vm_compute.
Defined.
(** ** What the engine writes to the students *)

Lemma new_Assignment_inv fid rolls batch note a :
  new_Assignment fid rolls batch note = Ok a →
  a = {| mentor_id := fid; student_roll_numbers := rolls; batch_number := batch;
         notes := note |}.
Proof.
  unfold new_Assignment. destruct (String.eqb _ _); [done|].
  do 2 (case_bool_decide; [done|]). by intros [= <-].
Qed.

Lemma untouched_write students st st' fid refs :
  untouched students st →
  st_students st' = set_mentor_of fid refs (st_students st) →
  (∀ r, r ∈ concat (student_roll_numbers <$> st_assignments st)
        ∨ r ∈ roll_numbers (st_students st) refs →
        r ∈ concat (student_roll_numbers <$> st_assignments st')) →
  untouched students st'.
Proof.
  intros [Hlen Hun] Hs Hin. split; [by rewrite Hs, set_mentor_of_length|].
  intros i. destruct (Hun i) as [Hsame Hkeep].
  rewrite Hs, set_mentor_of_lookup_total.
  destruct (decide (i ∈ refs ∧ i < length (st_students st))) as [[Hi _]|_].
  - split; [exact Hsame|]. intros Hnot. destruct Hnot. apply Hin. right.
    replace (roll_no (students !!! i)) with (roll_no (st_students st !!! i))
      by (by apply (f_equal roll_no) in Hsame).
    by apply roll_numbers_elem.
  - split; [done|]. intros Hnot. apply Hkeep. intros Hr. apply Hnot, Hin. by left.
Qed.

Lemma assign_to_cursor_untouched students avail refs batch note cursor next st :
  untouched students st →
  untouched students (assign_to_cursor avail refs batch note cursor next st).1.
Proof.
  intros Hun. unfold assign_to_cursor.
  destruct (avail !! cursor) as [j|]; [|done].
  destruct (new_Assignment _ _ _ _) as [a|] eqn:Ha; [|done].
  apply new_Assignment_inv in Ha as ->.
  eapply untouched_write; [done|done|]. simpl.
  intros r. rewrite fmap_app, concat_app, elem_of_app. simpl. by rewrite app_nil_r.
Qed.

Lemma batch_step_untouched cfg students order avail k st :
  untouched students st → untouched students (batch_step cfg order avail k st).1.
Proof.
  intros Hun. unfold batch_step.
  case_bool_decide; [destruct (wrap_around_mentors cfg)|];
    auto using assign_to_cursor_untouched.
Qed.

Lemma process_batches_untouched cfg students order avail k st :
  untouched students st → untouched students (process_batches cfg order avail k st).1.
Proof.
  intros Hun. induction k as [|k IH]; [done|].
  rewrite process_batches_S. unfold and_then.
  destruct (process_batches cfg order avail k st) as [st' [e|]]; [done|].
  by apply batch_step_untouched.
Qed.

Lemma handle_remainder_untouched cfg students order avail complete remainder st :
  untouched students st →
  untouched students (handle_remainder cfg order avail complete remainder st).1.
Proof.
  intros Hun. unfold handle_remainder.
  case_bool_decide; [|done].
  case_bool_decide.
  - destruct (last (st_assignments st)) as [a|] eqn:Hlast; [|done].
    destruct (list_find _ avail) as [[p j]|]; [|done].
    destruct (_ && _); [done|].
    eapply untouched_write; [done|done|]. simpl.
    apply last_Some in Hlast as [A0 ->]. rewrite alter_last.
    intros r. rewrite !fmap_app, !concat_app. simpl.
    rewrite !app_nil_r, !elem_of_app. tauto.
  - case_bool_decide; [|done]. by apply assign_to_cursor_untouched.
Qed.

Lemma reset_assignments_untouched students mentors :
  untouched students (initial_state students mentors).
Proof. split; [done|]. intros i. done. Qed.

(** The students of any call are those of a state that [untouched]
    describes, whose assignments the summary reports. *)
Lemma run_untouched cfg students mentors :
  ∃ st, untouched students st
        ∧ (assign_students_to_mentors cfg students mentors).1.1 = st_students st
        ∧ ∀ summary,
            (assign_students_to_mentors cfg students mentors).2 = Ok summary →
            assignments summary = st_assignments st.
Proof.
  pose proof (reset_assignments_untouched students mentors) as Hsame.
  unfold assign_students_to_mentors.
  destruct (validate_data_consistency cfg students mentors) as [[[] issues]|e];
    [|by eexists..].
  case_bool_decide; [by eexists|].
  case_bool_decide; [by eexists|].
  set (order := student_order cfg students).
  set (avail := available_refs mentors).
  set (st0 := initial_state students (reset_assignments avail mentors)).
  set (r := and_then _ _).
  assert (Hun : untouched students r.1).
  { unfold r, and_then.
    pose proof (process_batches_untouched cfg students order avail
                  (length order / BATCH_SIZE cfg) st0
                  (reset_assignments_untouched _ _)) as Hun1.
    destruct (process_batches _ _ _ _ _) as [st1 [e|]]; [done|].
    by apply handle_remainder_untouched. }
  exists r.1. split; [done|]. split; [done|].
  intros summary. cbn [snd]. destruct r.2; [done|]. by intros [= <-].
Qed.

(** X12: whatever the input, the engine changes nothing of a student but
    [assigned_mentor_id], and not even that of a student whose roll number
    the summary has in no assignment: a student left unassigned keeps the
    mentor id of an earlier run. *)
Theorem engine_writes_assigned_students_only cfg students mentors :
  let run := assign_students_to_mentors cfg students mentors in
  length run.1.1 = length students
  ∧ (∀ i, set_assigned_mentor_id None (run.1.1 !!! i)
          = set_assigned_mentor_id None (students !!! i))
  ∧ (∀ summary i,
       run.2 = Ok summary →
       roll_no (students !!! i) ∉ concat (student_roll_numbers <$> assignments summary) →
       run.1.1 !!! i = students !!! i).
Proof.
  cbv zeta. destruct (run_untouched cfg students mentors) as (st & [Hlen Hun] & -> & Has).
  split_and!.
  - done.
  - intros i. apply Hun.
  - intros summary i Hok. rewrite (Has summary Hok). apply Hun.
Qed.
(** ** The batches in turn *)

Lemma mod_succ_lt a m : a `mod` m + 1 < m → (a + 1) `mod` m = a `mod` m + 1.
Proof.
  intros Hlt. symmetry. apply (Nat.mod_unique _ _ (a / m)); [done|].
  pose proof (Nat.div_mod_eq a m). lia.
Qed.

Lemma mod_succ_wrap a m : 0 < m → m ≤ a `mod` m + 1 → (a + 1) `mod` m = 0.
Proof.
  intros Hm Hge. pose proof (Nat.mod_upper_bound a m). symmetry.
  apply (Nat.mod_unique _ _ (a / m + 1)); [done|].
  pose proof (Nat.div_mod_eq a m). lia.
Qed.

Lemma concat_blocks {A B} (f : list A → list B) (l : list A) n k :
  (∀ l1 l2, f (l1 ++ l2) = f l1 ++ f l2) → f [] = [] →
  concat ((λ p, f (take n (drop (p * n) l))) <$> seq 0 k) = f (take (k * n) l).
Proof.
  intros Happ Hnil. induction k as [|k IH]; [by rewrite take_0, Hnil|].
  rewrite seq_S, fmap_app, concat_app, IH. cbn [fmap list_fmap concat Nat.add].
  rewrite app_nil_r, <- Happ. f_equal. rewrite take_take_drop. f_equal. lia.
Qed.

Section dealing.
Context (students : list Student) (mentors : list Mentor) (order avail : list nat).
Context (cfg : Config).
Hypothesis Horder : order ≡ₚ seq 0 (length students).
Hypothesis Hrolls : NoDup (roll_no <$> students).
Hypothesis Hids : NoDup (faculty_id <$> mentors).
Hypothesis Havail : ∀ j, j ∈ avail → j < length mentors.
Hypothesis Hnamed : ∀ j, j ∈ avail → strip (faculty_id (mentors !!! j)) ≠ "".
Hypothesis Hbatch : 0 < BATCH_SIZE cfg.
Hypothesis Hsome : avail ≠ [].

(** The batch loop's step in full, for a batch that is there. *)
Lemma batch_step_cases k st :
  consistent students mentors order avail (k * BATCH_SIZE cfg) st →
  S k * BATCH_SIZE cfg ≤ length order →
  let refs := take (BATCH_SIZE cfg) (drop (k * BATCH_SIZE cfg) order) in
  let c := if bool_decide (length avail ≤ current_mentor_index st)
           then 0 else current_mentor_index st in
  (length avail ≤ current_mentor_index st ∧ wrap_around_mentors cfg = false
   ∧ batch_step cfg order avail k st = (mark_unassigned refs st, None))
  ∨ (∃ j, avail !! c = Some j
       ∧ (current_mentor_index st < length avail ∨ wrap_around_mentors cfg = true)
       ∧ batch_step cfg order avail k st
         = ({| st_students := set_mentor_of (faculty_id (mentors !!! j)) refs (st_students st);
               st_mentors := alter (extend_assigned_students (roll_numbers students refs)) j
                               (st_mentors st);
               st_assignments :=
                 st_assignments st
                 ++ [{| mentor_id := faculty_id (mentors !!! j);
                        student_roll_numbers := roll_numbers students refs;
                        batch_number := k + 1;
                        notes := Some ("Batch assignment with " +:+ pretty (BATCH_SIZE cfg)
                                       +:+ " students") |}];
               st_unassigned := st_unassigned st;
               current_mentor_index := c + 1 |}, None)).
Proof.
  intros Hcon Hlen refs c. unfold batch_step. rewrite (batch_slice cfg order). fold refs.
  assert (Hne : refs ≠ []) by (apply take_drop_nonempty; simpl in Hlen; lia).
  assert (Hrefs : length refs = BATCH_SIZE cfg).
  { unfold refs. rewrite length_take, length_drop. simpl in Hlen. lia. }
  rewrite Hrefs.
  assert (Hassign : ∀ cursor next j, avail !! cursor = Some j →
    assign_to_cursor avail refs (k + 1)
      ("Batch assignment with " +:+ pretty (BATCH_SIZE cfg) +:+ " students") cursor next st
    = ({| st_students := set_mentor_of (faculty_id (mentors !!! j)) refs (st_students st);
          st_mentors := alter (extend_assigned_students (roll_numbers students refs)) j
                          (st_mentors st);
          st_assignments :=
            st_assignments st
            ++ [{| mentor_id := faculty_id (mentors !!! j);
                   student_roll_numbers := roll_numbers students refs;
                   batch_number := k + 1;
                   notes := Some ("Batch assignment with " +:+ pretty (BATCH_SIZE cfg)
                                  +:+ " students") |}];
          st_unassigned := st_unassigned st;
          current_mentor_index := next |}, None)).
  { intros cursor next j Hc.
    rewrite (assign_to_cursor_ok mentors avail Hnamed _ _ _ _ _ _ j); [|done| |done|lia].
    - by rewrite (roll_numbers_current students _ _ (con_rolls _ _ _ _ _ _ Hcon)).
    - apply (con_profile _ _ _ _ _ _ Hcon). }
  subst c. case_bool_decide as Hcur.
  - destruct (wrap_around_mentors cfg); [|by left].
    right. destruct avail as [|j avail'] eqn:Hav; [done|]. exists j.
    split; [done|]. split; [by right|]. by apply Hassign.
  - right. destruct (lookup_lt_is_Some_2 avail (current_mentor_index st)) as [j Hj]; [lia|].
    exists j. split; [done|]. split; [left; lia|].
    rewrite (Hassign _ _ j Hj). do 3 f_equal.
Qed.

Lemma batch_step_placement k st :
  consistent students mentors order avail (k * BATCH_SIZE cfg) st →
  S k * BATCH_SIZE cfg ≤ length order →
  ∃ st', batch_step cfg order avail k st = (st', None)
         ∧ placement_step students mentors avail
             (take (BATCH_SIZE cfg) (drop (k * BATCH_SIZE cfg) order)) st st'.
Proof.
  intros Hcon Hlen.
  destruct (batch_step_cases k st Hcon Hlen) as [(_ & _ & ->)|(j & Hj & _ & ->)].
  - eexists. split; [done|]. by apply step_unassigned.
  - eexists. split; [done|].
    eapply (step_assigned _ _ _ _ _ _ j); simpl; try done; try done.
    by eapply list_elem_of_lookup_2.
Qed.

Lemma handle_remainder_placement complete remainder st :
  consistent students mentors order avail (complete * BATCH_SIZE cfg) st →
  complete * BATCH_SIZE cfg + remainder = length order →
  0 < remainder →
  ∃ st', handle_remainder cfg order avail complete remainder st = (st', None)
         ∧ placement_step students mentors avail
             (drop (complete * BATCH_SIZE cfg) order) st st'.
Proof.
  intros Hcon Hlen Hrem. unfold handle_remainder.
  rewrite (bool_decide_eq_true_2 (0 < remainder)) by done.
  set (rem := drop (complete * BATCH_SIZE cfg) order).
  assert (Hne : rem ≠ []).
  { intros Hnil. apply (f_equal length) in Hnil. unfold rem in Hnil.
    rewrite length_drop in Hnil. simpl in Hnil. lia. }
  pose proof (roll_numbers_current students _ rem (con_rolls _ _ _ _ _ _ Hcon)) as Hcur.
  case_bool_decide as Hthr.
  - destruct (last (st_assignments st)) as [a|] eqn:Hlast.
    2:{ eexists. split; [done|]. by apply step_unassigned. }
    destruct (list_find _ avail) as [[p j]|] eqn:Hfind.
    2:{ exfalso. destruct (con_assignments _ _ _ _ _ _ Hcon a) as (j0 & Hj0 & Hid0 & _).
        { by apply last_Some_elem_of. }
        eapply list_find_None, Forall_forall in Hfind; [|exact Hj0].
        apply Hfind. rewrite <- Hid0. apply (con_profile _ _ _ _ _ _ Hcon). }
    destruct (_ && _).
    + eexists. split; [done|]. by apply step_unassigned.
    + eexists. split; [done|].
      apply list_find_Some in Hfind as (Hp & Hfid & _).
      apply last_Some in Hlast as [A0 HA].
      apply (step_folded _ _ _ _ _ _ j A0 a
               (fold_into (roll_numbers students rem) remainder a)); simpl; try done.
      * by eapply list_elem_of_lookup_2.
      * rewrite <- Hfid. apply (con_profile _ _ _ _ _ _ Hcon).
      * by rewrite Hcur.
      * by rewrite HA, alter_last, Hcur.
  - case_bool_decide as Hc.
    + destruct (lookup_lt_is_Some_2 avail (current_mentor_index st)) as [j Hj]; [lia|].
      rewrite (assign_to_cursor_ok mentors avail Hnamed _ _ _ _ _ _ j); [|done| |done|lia].
      2:{ apply (con_profile _ _ _ _ _ _ Hcon). }
      eexists. split; [done|].
      eapply (step_assigned _ _ _ _ _ _ j); simpl; try done; try done.
      * by eapply list_elem_of_lookup_2.
      * by rewrite Hcur.
    + eexists. split; [done|]. by apply step_unassigned.
Qed.

(** A step keeps each available mentor's list equal to the mentor's
    assignments. *)
Lemma placement_step_holds refs st st' :
  length (st_mentors st) = length mentors →
  holds_assignments mentors avail st →
  placement_step students mentors avail refs st st' →
  holds_assignments mentors avail st'.
Proof.
  intros Hlen Hholds Hstep j' Hj'.
  assert (Hother : ∀ j, j ∈ avail → j ≠ j' →
            faculty_id (mentors !!! j) ≠ faculty_id (mentors !!! j')).
  { intros j Hj Hne Heq. apply Hne.
    by apply (faculty_id_inj mentors Hids j j'); [apply Havail..|]. }
  destruct Hstep as [Hm Ha Hu|j a Hj Hid Hr Hm Ha Hu|j A0 a a' Hj HA Hid Hid' Hb Hr Hm Ha Hu].
  - by rewrite Hm, Ha, Hholds.
  - rewrite Hm, Ha, list_lookup_total_alter, List.filter_app, fmap_app, concat_app.
    cbn [List.filter]. rewrite Hid.
    destruct (decide (j = j')) as [->|Hne].
    + rewrite decide_True by (split; [done|rewrite Hlen; by apply Havail]).
      rewrite bool_decide_eq_true_2 by done. simpl.
      by rewrite app_nil_r, Hr, Hholds.
    + rewrite decide_False by (by intros [? _]).
      rewrite bool_decide_eq_false_2 by auto. simpl. by rewrite app_nil_r, Hholds.
  - specialize (Hholds j' Hj'). rewrite HA in Hholds.
    rewrite List.filter_app, fmap_app, concat_app in Hholds. cbn [List.filter] in Hholds.
    rewrite Hm, Ha, list_lookup_total_alter, List.filter_app, fmap_app, concat_app.
    cbn [List.filter]. rewrite Hid', Hid. rewrite Hid in Hholds.
    destruct (decide (j = j')) as [->|Hne].
    + rewrite decide_True by (split; [done|rewrite Hlen; by apply Havail]).
      rewrite bool_decide_eq_true_2 in Hholds by done.
      rewrite bool_decide_eq_true_2 by done. simpl in *.
      rewrite app_nil_r in Hholds. by rewrite app_nil_r, Hr, Hholds, app_assoc.
    + rewrite decide_False by (by intros [? _]).
      rewrite bool_decide_eq_false_2 in Hholds by auto.
      by rewrite bool_decide_eq_false_2 by auto.
Qed.

(** A step on a state with nobody unassigned yet adds its students at the
    end of what has been placed. *)
Lemma placement_step_order refs st st' :
  st_unassigned st = [] →
  placement_step students mentors avail refs st st' →
  concat (student_roll_numbers <$> st_assignments st')
  ++ roll_numbers students (st_unassigned st')
  = concat (student_roll_numbers <$> st_assignments st) ++ roll_numbers students refs.
Proof.
  intros Hnone [Hm Ha Hu|j a Hj Hid Hr Hm Ha Hu|j A0 a a' Hj HA Hid Hid' Hb Hr Hm Ha Hu].
  - by rewrite Ha, Hu, Hnone.
  - rewrite Ha, Hu, Hnone, fmap_app, concat_app. simpl. by rewrite !app_nil_r, Hr.
  - rewrite Ha, Hu, Hnone, HA, !fmap_app, !concat_app. simpl.
    by rewrite !app_nil_r, Hr, app_assoc.
Qed.

Lemma batch_step_dealt k st :
  consistent students mentors order avail (k * BATCH_SIZE cfg) st →
  dealt cfg students mentors order avail k st →
  wrap_around_mentors cfg = true ∨ k < length avail →
  S k * BATCH_SIZE cfg ≤ length order →
  ∃ st', batch_step cfg order avail k st = (st', None)
         ∧ dealt cfg students mentors order avail (S k) st'.
Proof.
  intros Hcon [Has Hun Hcur] Hturn Hlen.
  assert (Hm : 0 < length avail) by (destruct avail; [done|simpl; lia]).
  pose proof (Nat.mod_upper_bound k (length avail)) as Hmod.
  assert (Hc : (if bool_decide (length avail ≤ current_mentor_index st)
                then 0 else current_mentor_index st) = k `mod` length avail).
  { rewrite Hcur. destruct k as [|k']; [rewrite Nat.Div0.mod_0_l; by destruct (bool_decide _)|].
    replace (S k') with (k' + 1) by lia. case_bool_decide.
    - symmetry. by apply mod_succ_wrap.
    - symmetry. apply mod_succ_lt. lia. }
  destruct (batch_step_cases k st Hcon Hlen) as [(Hge & Hwrap & _)|(j & Hj & _ & ->)].
  { exfalso. destruct Hturn as [?|Hk]; [congruence|]. rewrite Hcur in Hge.
    destruct k as [|k']; [lia|]. rewrite Nat.mod_small in Hge by lia. lia. }
  rewrite Hc in Hj. eexists. split; [done|]. split.
  - cbn [st_assignments]. rewrite seq_S, fmap_app, Has. cbn [fmap list_fmap Nat.add].
    do 2 f_equal. unfold batch_assignment.
    by rewrite (list_lookup_total_correct _ _ _ Hj).
  - done.
  - cbn [current_mentor_index]. by rewrite Hc.
Qed.

Lemma process_batches_dealt k st0 :
  consistent students mentors order avail 0 st0 →
  dealt cfg students mentors order avail 0 st0 →
  length (st_mentors st0) = length mentors →
  holds_assignments mentors avail st0 →
  wrap_around_mentors cfg = true ∨ k ≤ length avail →
  k * BATCH_SIZE cfg ≤ length order →
  ∃ st', process_batches cfg order avail k st0 = (st', None)
         ∧ consistent students mentors order avail (k * BATCH_SIZE cfg) st'
         ∧ dealt cfg students mentors order avail k st'
         ∧ holds_assignments mentors avail st'.
Proof.
  intros Hcon Hdealt Hml Hholds. induction k as [|k IH]; intros Hturn Hlen.
  - by exists st0.
  - destruct IH as (st1 & Hrun & Hcon1 & Hdealt1 & Hholds1);
      [destruct Hturn; [by left|right; lia]|simpl in Hlen; lia|].
    rewrite process_batches_S, Hrun. unfold and_then. cbn [fst snd].
    destruct (batch_step_consistent students mentors order avail Horder Hrolls Havail
                Hnamed cfg Hbatch Hsome k st1 Hcon1 Hlen) as (st2 & Hstep & Hcon2).
    destruct (batch_step_dealt k st1 Hcon1 Hdealt1) as (st2' & Hstep' & Hdealt2);
      [destruct Hturn; [by left|right; lia]|done|].
    destruct (batch_step_placement k st1 Hcon1 Hlen) as (st2'' & Hstep'' & Hplace).
    rewrite Hstep in Hstep', Hstep''. injection Hstep' as <-. injection Hstep'' as <-.
    exists st2. split_and!; try done.
    eapply placement_step_holds; [|done|done]. apply (con_mentors _ _ _ _ _ _ Hcon1).
Qed.

End dealing.

(** A validated run, step by step: the batch loop skips no batch, and the
    remainder, if there is one, takes one more step. *)
Lemma accepted_run_dealt cfg students mentors issues :
  validate_data_consistency cfg students mentors = Ok (true, issues) →
  let order := student_order cfg students in
  let avail := available_refs mentors in
  let mentors0 := reset_assignments avail mentors in
  let k := length students / BATCH_SIZE cfg in
  ∃ st1 st2,
    consistent students mentors0 order avail (k * BATCH_SIZE cfg) st1
    ∧ dealt cfg students mentors0 order avail k st1
    ∧ holds_assignments mentors0 avail st1
    ∧ handle_remainder cfg order avail k (length students `mod` BATCH_SIZE cfg) st1
      = (st2, None)
    ∧ consistent students mentors0 order avail (length students) st2
    ∧ (length students `mod` BATCH_SIZE cfg = 0 ∧ st2 = st1
       ∨ 0 < length students `mod` BATCH_SIZE cfg
         ∧ placement_step students mentors0 avail (drop (k * BATCH_SIZE cfg) order) st1 st2)
    ∧ assign_students_to_mentors cfg students mentors
      = ((st_students st2, st_mentors st2),
         Ok (_create_assignment_summary (length students) (length mentors)
               (st_assignments st2) (roll_numbers (st_students st2) (st_unassigned st2)))).
Proof.
  intros Hval order avail mentors0 k.
  destruct (validation_accepted _ _ _ _ Hval) as [HB _ Hrolls _ _ _ _].
  destruct (accepted_setting _ _ _ _ Hval)
    as (Hids0 & Havail & Hnamed0 & Hav & Hlen & Hcon0 & _).
  fold order avail mentors0 in Hids0, Havail, Hnamed0, Hav, Hlen, Hcon0.
  pose proof (student_order_Permutation cfg students) as Horder. fold order in Horder.
  pose proof (Nat.div_mod_eq (length students) (BATCH_SIZE cfg)) as Hdiv.
  assert (Hturn : wrap_around_mentors cfg = true ∨ k ≤ length avail).
  { destruct (wrap_around_mentors cfg) eqn:Hwrap; [by left|right].
    by apply (accepted_batches _ _ _ _ Hval). }
  destruct (process_batches_dealt students mentors0 order avail cfg Horder Hrolls Hids0
              Havail Hnamed0 HB Hav k (initial_state students mentors0) Hcon0)
    as (st1 & Hrun1 & Hcon1 & Hdealt1 & Hholds1).
  { by split. }
  { done. }
  { intros j Hj. simpl. unfold mentors0.
    rewrite reset_assignments_lookup_total, decide_True; [done|].
    split; [done|]. by apply available_refs_spec in Hj as [? _]. }
  { done. }
  { unfold k. rewrite Hlen. lia. }
  destruct (handle_remainder_consistent students mentors0 order avail Horder Hrolls Hids0
              Havail Hnamed0 cfg HB k (length students `mod` BATCH_SIZE cfg) st1 Hcon1)
    as (st2 & Hrun2 & Hcon2).
  { rewrite Hlen. unfold k. lia. }
  rewrite Hlen in Hcon2.
  exists st1, st2. split_and!; try done.
  - destruct (decide (length students `mod` BATCH_SIZE cfg = 0)) as [Hzero|Hpos].
    + left. split; [done|]. rewrite Hzero in Hrun2. by injection Hrun2.
    + right. split; [lia|].
      destruct (handle_remainder_placement students mentors0 order avail cfg Hnamed0 HB k
                  (length students `mod` BATCH_SIZE cfg) st1 Hcon1)
        as (st2' & Hrun2' & Hstep); [rewrite Hlen; unfold k; lia|lia|].
      rewrite Hrun2 in Hrun2'. by injection Hrun2' as <-.
  - apply (run_of_states _ _ _ issues st1 st2 Hval).
    + fold order avail mentors0. by rewrite Hlen.
    + fold order avail. by rewrite Hlen.
Qed.

(** The assignments of the complete batches survive the remainder step,
    the last one with the remainder added at its end at most. *)
Lemma remainder_keeps_batches students mentors avail refs st st' p a :
  (st' = st ∨ placement_step students mentors avail refs st st') →
  st_assignments st !! p = Some a →
  ∃ a' extra, st_assignments st' !! p = Some a'
              ∧ mentor_id a' = mentor_id a ∧ batch_number a' = batch_number a
              ∧ student_roll_numbers a' = student_roll_numbers a ++ extra.
Proof.
  intros [->|Hstep] Hp.
  { exists a, []. by rewrite app_nil_r. }
  destruct Hstep as [Hm Ha Hu|j a0 Hj Hid Hr Hm Ha Hu|j A0 a0 a' Hj HA Hid Hid' Hb Hr Hm Ha Hu].
  - exists a, []. by rewrite Ha, app_nil_r.
  - exists a, []. rewrite Ha, app_nil_r. split; [|done]. by apply lookup_app_l_Some.
  - rewrite HA in Hp. rewrite Ha.
    destruct (decide (p < length A0)) as [Hlt|Hge].
    + rewrite lookup_app_l in Hp by done. exists a, []. rewrite app_nil_r.
      split; [|done]. by rewrite lookup_app_l.
    + rewrite lookup_app_r in Hp by lia. rewrite lookup_app_r by lia.
      destruct (p - length A0) as [|n]; [|by destruct n].
      injection Hp as <-. by exists a', (roll_numbers students refs).
Qed.

(** X13: the complete batches of a validated run are dealt out in turn: the
    summary's assignment number [p + 1] goes to the available mentor at
    position [p] modulo the number of available mentors and starts with the
    [p]-th block of [BATCH_SIZE] students in walking order (the last of them
    may have the remainder after it). *)
Theorem batches_dealt_in_turn cfg students mentors issues :
  validate_data_consistency cfg students mentors = Ok (true, issues) →
  ∃ stores summary,
    assign_students_to_mentors cfg students mentors = (stores, Ok summary)
    ∧ ∀ p, p < length students / BATCH_SIZE cfg →
        ∃ a j,
          assignments summary !! p = Some a
          ∧ available_refs mentors !! (p `mod` length (available_refs mentors)) = Some j
          ∧ mentor_id a = faculty_id (mentors !!! j)
          ∧ batch_number a = p + 1
          ∧ take (BATCH_SIZE cfg) (student_roll_numbers a)
            = roll_numbers students
                (take (BATCH_SIZE cfg)
                   (drop (p * BATCH_SIZE cfg) (student_order cfg students))).
Proof.
  intros Hval.
  destruct (accepted_run_dealt _ _ _ _ Hval)
    as (st1 & st2 & Hcon1 & Hdealt1 & _ & _ & _ & Hstep & Hrun).
  destruct (validation_accepted _ _ _ _ Hval) as [HB _ _ _ _ _ _].
  destruct (accepted_setting _ _ _ _ Hval) as (_ & _ & _ & Hav & Hlen & _).
  eexists _, _. split; [exact Hrun|]. intros p Hp. cbn [assignments _create_assignment_summary].
  set (avail := available_refs mentors) in *.
  set (order := student_order cfg students) in *.
  assert (Hm : 0 < length avail) by (destruct avail; [done|simpl; lia]).
  destruct (lookup_lt_is_Some_2 avail (p `mod` length avail)) as [j Hj];
    [by apply Nat.mod_upper_bound; lia|].
  destruct (remainder_keeps_batches students (reset_assignments avail mentors) avail
              (drop (length students / BATCH_SIZE cfg * BATCH_SIZE cfg) order) st1 st2 p
              (batch_assignment cfg students (reset_assignments avail mentors) order avail p))
    as (a & extra & Ha & Hid & Hnum & Hrolls).
  { destruct Hstep as [[_ ->]|[_ Hstep]]; [by left|by right]. }
  { rewrite (dealt_assignments _ _ _ _ _ _ _ Hdealt1), list_lookup_fmap.
    by rewrite lookup_seq_lt. }
  exists a, j. split_and!; try done.
  - rewrite Hid. simpl. rewrite (list_lookup_total_correct _ _ _ Hj).
    by destruct (reset_assignments_profile avail mentors j) as [-> _].
  - rewrite Hrolls. simpl. apply take_app_length'.
    rewrite length_roll_numbers, length_take, length_drop.
    pose proof (Nat.div_mod_eq (length students) (BATCH_SIZE cfg)).
    fold order in Hlen. rewrite Hlen.
    assert (S p * BATCH_SIZE cfg ≤ length students / BATCH_SIZE cfg * BATCH_SIZE cfg)
      by (apply Nat.mul_le_mono_r; lia).
    simpl in *. lia.
Qed.

Lemma batches_dealt_in_turn_witness :
  ∃ stores summary,
    assign_students_to_mentors reuse_config (students_upto 64) [mentor_n "FAC001" 100]
    = (stores, Ok summary)
    ∧ ∀ p, p < length (students_upto 64) / BATCH_SIZE reuse_config →
        ∃ a j,
          assignments summary !! p = Some a
          ∧ available_refs [mentor_n "FAC001" 100]
            !! (p `mod` length (available_refs [mentor_n "FAC001" 100])) = Some j
          ∧ mentor_id a = faculty_id ([mentor_n "FAC001" 100] !!! j)
          ∧ batch_number a = p + 1
          ∧ take (BATCH_SIZE reuse_config) (student_roll_numbers a)
            = roll_numbers (students_upto 64)
                (take (BATCH_SIZE reuse_config)
                   (drop (p * BATCH_SIZE reuse_config)
                      (student_order reuse_config (students_upto 64)))).
Proof.
  apply (batches_dealt_in_turn reuse_config (students_upto 64) [mentor_n "FAC001" 100] []).
  by vm_compute.
Defined.

(** *** The walking order *)

Lemma insert_by_keys {A} (key : A → Z) x l :
  key <$> insert_by key x l = insert_by (λ z, z) (key x) (key <$> l).
Proof.
  induction l as [|y l IH]; simpl; [done|].
  destruct (key x <=? key y)%Z; simpl; [done|]. f_equal. apply IH.
Qed.

Lemma insert_by_sorted x l :
  StronglySorted Z.le l → StronglySorted Z.le (insert_by (λ z, z) x l).
Proof.
  induction 1 as [|y l Hs IH Hy]; simpl; [by repeat constructor|].
  destruct (Z.leb_spec x y) as [Hle|Hgt].
  - constructor; [by constructor|]. constructor; [done|].
    eapply Forall_impl; [exact Hy|]. simpl. lia.
  - constructor; [done|].
    assert (Hperm : insert_by (λ z, z) x l ≡ₚ x :: l) by apply insert_by_Permutation.
    rewrite Hperm. constructor; [lia|done].
Qed.

Lemma sorted_keys_ascending {A} (key : A → Z) l : StronglySorted Z.le (key <$> sorted key l).
Proof.
  induction l as [|x l IH]; simpl; [constructor|].
  rewrite insert_by_keys. by apply insert_by_sorted.
Qed.

Lemma ascending_NoDup l : StronglySorted Z.le l → NoDup l → StronglySorted Z.lt l.
Proof.
  induction 1 as [|x l Hs IH Hx]; intros Hnd; [constructor|].
  apply NoDup_cons in Hnd as [Hin Hnd]. constructor; [by apply IH|].
  apply Forall_forall. intros y Hy.
  rewrite Forall_forall in Hx. specialize (Hx y Hy).
  assert (x ≠ y) by (by intros ->). lia.
Qed.

(** X14: the summary of a validated run lists the students in the order the
    engine walked them: the roll numbers of the assignments, one assignment
    after the other, and then the unassigned ones are the roll numbers in
    walking order, which is strictly ascending when [sort_by_roll_number] is
    on and the order of the input otherwise. *)
Theorem summary_in_walking_order cfg students mentors issues :
  validate_data_consistency cfg students mentors = Ok (true, issues) →
  ∃ stores summary,
    assign_students_to_mentors cfg students mentors = (stores, Ok summary)
    ∧ concat (student_roll_numbers <$> assignments summary) ++ unassigned_students summary
      = roll_numbers students (student_order cfg students)
    ∧ (sort_by_roll_number cfg = true →
       StronglySorted Z.lt (roll_numbers students (student_order cfg students)))
    ∧ (sort_by_roll_number cfg = false →
       roll_numbers students (student_order cfg students) = roll_no <$> students).
Proof.
  intros Hval.
  destruct (accepted_run_dealt _ _ _ _ Hval)
    as (st1 & st2 & Hcon1 & Hdealt1 & _ & _ & Hcon2 & Hstep & Hrun).
  destruct (validation_accepted _ _ _ _ Hval) as [HB _ Hrolls _ _ _ _].
  destruct (accepted_setting _ _ _ _ Hval) as (_ & _ & _ & _ & Hlen & _).
  pose proof (student_order_Permutation cfg students) as Horder.
  eexists _, _. split; [exact Hrun|].
  cbn [assignments unassigned_students _create_assignment_summary].
  set (avail := available_refs mentors) in *.
  set (order := student_order cfg students) in *.
  set (k := length students / BATCH_SIZE cfg) in *.
  pose proof (Nat.div_mod_eq (length students) (BATCH_SIZE cfg)) as Hdiv. fold k in Hdiv.
  assert (Hplaced : concat (student_roll_numbers <$> st_assignments st1)
                    = roll_numbers students (take (k * BATCH_SIZE cfg) order)).
  { rewrite (dealt_assignments _ _ _ _ _ _ _ Hdealt1), <- list_fmap_compose.
    apply (concat_blocks (roll_numbers students) order (BATCH_SIZE cfg) k); [|done].
    intros l1 l2. apply fmap_app. }
  split_and!.
  - rewrite (roll_numbers_current students _ _ (con_rolls _ _ _ _ _ _ Hcon2)).
    destruct Hstep as [[Hzero ->]|[_ Hstep]].
    + rewrite (dealt_unassigned _ _ _ _ _ _ _ Hdealt1), Hplaced. simpl.
      rewrite app_nil_r, take_ge; [done|]. lia.
    + rewrite (placement_step_order _ _ _ _ _ _ (dealt_unassigned _ _ _ _ _ _ _ Hdealt1) Hstep).
      rewrite Hplaced. unfold roll_numbers. by rewrite <- fmap_app, take_drop.
  - intros Hsort. apply ascending_NoDup.
    + unfold order, student_order. rewrite Hsort. apply sorted_keys_ascending.
    + apply (roll_numbers_order_NoDup students order Horder Hrolls).
  - intros Hsort. unfold order, student_order. rewrite Hsort.
    apply roll_numbers_seq.
Qed.

Lemma summary_in_walking_order_witness :
  ∃ stores summary,
    assign_students_to_mentors config (students_upto 64)
      [mentor_n "FAC001" 30; mentor_n "FAC002" 30; mentor_n "FAC003" 30]
    = (stores, Ok summary)
    ∧ concat (student_roll_numbers <$> assignments summary) ++ unassigned_students summary
      = roll_numbers (students_upto 64) (student_order config (students_upto 64))
    ∧ (sort_by_roll_number config = true →
       StronglySorted Z.lt
         (roll_numbers (students_upto 64) (student_order config (students_upto 64))))
    ∧ (sort_by_roll_number config = false →
       roll_numbers (students_upto 64) (student_order config (students_upto 64))
       = roll_no <$> students_upto 64).
Proof.
  apply (summary_in_walking_order config (students_upto 64)
           [mentor_n "FAC001" 30; mentor_n "FAC002" 30; mentor_n "FAC003" 30] []).
  by vm_compute.
Defined.

(** *** The mentors' lists *)

(** X15: after a validated run every available mentor holds exactly the roll
    numbers of the assignments made out to that mentor, in the order of the
    summary. *)
Theorem mentors_hold_their_assignments cfg students mentors issues :
  validate_data_consistency cfg students mentors = Ok (true, issues) →
  ∃ students' mentors' summary,
    assign_students_to_mentors cfg students mentors = ((students', mentors'), Ok summary)
    ∧ ∀ j m, mentors' !! j = Some m → availability m = true →
        assigned_students m
        = concat (student_roll_numbers <$>
                    List.filter (λ a, bool_decide (mentor_id a = faculty_id m))
                      (assignments summary)).
Proof.
  intros Hval.
  destruct (accepted_run_dealt _ _ _ _ Hval)
    as (st1 & st2 & Hcon1 & _ & Hholds1 & _ & Hcon2 & Hstep & Hrun).
  destruct (accepted_setting _ _ _ _ Hval) as (Hids0 & Havail & _).
  eexists _, _, _. split; [exact Hrun|].
  cbn [assignments _create_assignment_summary].
  set (avail := available_refs mentors) in *.
  set (mentors0 := reset_assignments avail mentors) in *.
  assert (Hholds2 : holds_assignments mentors0 avail st2).
  { destruct Hstep as [[_ ->]|[_ Hstep]]; [done|].
    eapply (placement_step_holds students mentors0 avail Hids0 Havail); [|done|done].
    apply (con_mentors _ _ _ _ _ _ Hcon1). }
  intros j m Hj Hm.
  pose proof (lookup_lt_Some _ _ _ Hj) as Hlt.
  rewrite (con_mentors _ _ _ _ _ _ Hcon2) in Hlt.
  apply list_lookup_total_correct in Hj as Hjm.
  destruct (con_profile _ _ _ _ _ _ Hcon2 j) as (Hfid & Hav & _).
  destruct (reset_assignments_profile avail mentors j) as (Hfid0 & Hav0 & _).
  fold mentors0 in Hfid0, Hav0. rewrite Hjm in Hfid, Hav.
  assert (Hin : j ∈ avail).
  { apply available_refs_spec. split; [|congruence].
    unfold mentors0 in Hlt. by rewrite reset_assignments_length in Hlt. }
  rewrite <- Hjm, (Hholds2 j Hin), Hjm, Hfid. done.
Qed.

Lemma mentors_hold_their_assignments_witness :
  ∃ students' mentors' summary,
    assign_students_to_mentors reuse_config (students_upto 64) [mentor_n "FAC001" 100]
    = ((students', mentors'), Ok summary)
    ∧ ∀ j m, mentors' !! j = Some m → availability m = true →
        assigned_students m
        = concat (student_roll_numbers <$>
                    List.filter (λ a, bool_decide (mentor_id a = faculty_id m))
                      (assignments summary)).
Proof.
  apply (mentors_hold_their_assignments reuse_config (students_upto 64)
           [mentor_n "FAC001" 100] []).
  by vm_compute.
Defined.

(** *** Small classes and leftovers *)

(** X16: a validated class smaller than a batch and within the remainder
    threshold gets no mentor at all: the summary has no assignment and lists
    every student as unassigned, the students are as they were, and the
    available mentors have lost the students they held. *)
Theorem small_class_stays_unassigned cfg students mentors issues :
  validate_data_consistency cfg students mentors = Ok (true, issues) →
  length students < BATCH_SIZE cfg →
  length students ≤ remainder_threshold cfg →
  assign_students_to_mentors cfg students mentors
  = ((students, reset_assignments (available_refs mentors) mentors),
     Ok (_create_assignment_summary (length students) (length mentors) []
           (roll_numbers students (student_order cfg students)))).
Proof.
  intros Hval Hsmall Hthr.
  destruct (validation_accepted _ _ _ _ Hval) as [HB Hne _ _ _ _ _].
  destruct (accepted_setting _ _ _ _ Hval) as (_ & _ & _ & _ & Hlen & _).
  assert (Hpos : 0 < length students) by (destruct students; [done|simpl; lia]).
  rewrite (run_of_states cfg students mentors issues
             (initial_state students (reset_assignments (available_refs mentors) mentors))
             (mark_unassigned (student_order cfg students)
                (initial_state students (reset_assignments (available_refs mentors) mentors)))
             Hval); [done| |].
  - rewrite Hlen, Nat.div_small by done. done.
  - rewrite Hlen, Nat.div_small, Nat.mod_small by done.
    unfold handle_remainder.
    rewrite (bool_decide_eq_true_2 (0 < _)), (bool_decide_eq_true_2 (_ ≤ _)) by done.
    done.
Qed.

Lemma small_class_stays_unassigned_witness :
  assign_students_to_mentors config (students_upto 3) [mentor_n "FAC001" 30]
  = ((students_upto 3, reset_assignments (available_refs [mentor_n "FAC001" 30])
                         [mentor_n "FAC001" 30]),
     Ok (_create_assignment_summary (length (students_upto 3))
           (length [mentor_n "FAC001" 30]) []
           (roll_numbers (students_upto 3) (student_order config (students_upto 3))))).
Proof.
  apply (small_class_stays_unassigned config (students_upto 3) [mentor_n "FAC001" 30] []).
  - by vm_compute.
  - simpl. lia.
  - simpl. lia.
Defined.

Lemma raise_leaves_stores cfg students mentors e :
  (assign_students_to_mentors cfg students mentors).2 = Raise e →
  (assign_students_to_mentors cfg students mentors).1 = (students, mentors).
Proof.
  destruct (validate_data_consistency cfg students mentors) as [[[] issues]|e'] eqn:Hval.
  - destruct (accepted_run _ _ _ _ Hval) as (st & -> & _). done.
  - unfold assign_students_to_mentors. by rewrite Hval.
  - unfold assign_students_to_mentors. by rewrite Hval.
Qed.

(** X17: the engine raises before it writes: when
    [assign_students_to_mentors] raises, students and mentors are as they
    were, and the exception is the validation failure with its issues, or
    the division by a batch size of zero.  The engine's own check for
    available mentors, which comes after validation, therefore never
    raises. *)
Theorem engine_raises_before_writing cfg students mentors e :
  (assign_students_to_mentors cfg students mentors).2 = Raise e →
  (assign_students_to_mentors cfg students mentors).1 = (students, mentors)
  ∧ (BATCH_SIZE cfg = 0 ∧ e = ZeroDivisionError "integer division or modulo by zero"
     ∨ ∃ issues, issues ≠ []
         ∧ validate_data_consistency cfg students mentors = Ok (false, issues)
         ∧ e = ValueError ("Data validation failed: " +:+ join "; " issues)).
Proof.
  destruct (validate_data_consistency cfg students mentors) as [[[] issues]|e'] eqn:Hval.
  - destruct (accepted_run _ _ _ _ Hval) as (st & -> & _). done.
  - unfold assign_students_to_mentors. rewrite Hval. simpl. intros [= <-].
    split; [done|]. right. exists issues. split; [|done].
    unfold validate_data_consistency in Hval.
    destruct (validate_assignment_feasibility cfg students mentors) as [[ok fissues]|];
      simpl in Hval; [|done].
    injection Hval as Hlen <-. intros Hnil. rewrite Hnil in Hlen. done.
  - unfold assign_students_to_mentors. rewrite Hval. simpl. intros [= <-].
    split; [done|]. left.
    unfold validate_data_consistency, validate_assignment_feasibility in Hval.
    destruct (negb (bool_decide (_ = []))); simpl in Hval; [done|].
    case_bool_decide as HB; simpl in Hval; [|done]. by injection Hval as <-.
Qed.

Lemma engine_raises_before_writing_witness :
  (assign_students_to_mentors config [] [mentor_n "FAC001" 30]).1
  = ([], [mentor_n "FAC001" 30])
  ∧ (BATCH_SIZE config = 0
     ∧ ValueError "Data validation failed: No students to assign"
       = ZeroDivisionError "integer division or modulo by zero"
     ∨ ∃ issues, issues ≠ []
         ∧ validate_data_consistency config [] [mentor_n "FAC001" 30] = Ok (false, issues)
         ∧ ValueError "Data validation failed: No students to assign"
           = ValueError ("Data validation failed: " +:+ join "; " issues)).
Proof.
  apply (engine_raises_before_writing config [] [mentor_n "FAC001" 30]
           (ValueError "Data validation failed: No students to assign")).
  reflexivity.
Defined.

(** X18: after a validated run the unassigned students are nobody or the whole
    remainder, and [remainder_left_over] tells which: the remainder within
    the threshold is left over when there is no complete batch, or when
    overload is off and the last batch's mentor cannot hold batch and
    remainder; the remainder above the threshold is left over when the
    complete batches are a positive multiple of the available mentors,
    because the remainder step never wraps around. *)
Theorem unassigned_is_the_remainder cfg students mentors issues :
  validate_data_consistency cfg students mentors = Ok (true, issues) →
  ∃ stores summary,
    assign_students_to_mentors cfg students mentors = (stores, Ok summary)
    ∧ unassigned_students summary
      = if remainder_left_over cfg students mentors
        then roll_numbers students
               (drop (length students / BATCH_SIZE cfg * BATCH_SIZE cfg)
                  (student_order cfg students))
        else [].
Proof.
  intros Hval.
  destruct (accepted_run_dealt _ _ _ _ Hval)
    as (st1 & st2 & Hcon1 & Hdealt1 & _ & Hrun2 & Hcon2 & _ & Hrun).
  destruct (validation_accepted _ _ _ _ Hval) as [HB _ _ _ _ _ _].
  destruct (accepted_setting _ _ _ _ Hval) as (Hids0 & Havail & Hnamed0 & Hav & Hlen & _).
  eexists _, _. split; [exact Hrun|].
  cbn [unassigned_students _create_assignment_summary].
  rewrite (roll_numbers_current students _ _ (con_rolls _ _ _ _ _ _ Hcon2)).
  unfold remainder_left_over.
  set (avail := available_refs mentors) in *.
  set (mentors0 := reset_assignments avail mentors) in *.
  set (order := student_order cfg students) in *.
  set (k := length students / BATCH_SIZE cfg) in *.
  set (r := length students `mod` BATCH_SIZE cfg) in *.
  set (rem := drop (k * BATCH_SIZE cfg) order) in *.
  pose proof (Nat.div_mod_eq (length students) (BATCH_SIZE cfg)) as Hdiv.
  fold k r in Hdiv.
  assert (Hm : 0 < length avail) by (destruct avail; [done|simpl; lia]).
  destruct Hdealt1 as [Has Hun Hcur].
  cut (st_unassigned st2
       = if bool_decide (0 < r)
            && (if bool_decide (r ≤ remainder_threshold cfg)
                then bool_decide (k = 0)
                     || negb (allow_mentor_overload cfg)
                        && bool_decide
                             (Z.lt (max_students
                                      (mentors !!! (avail !!! ((k - 1) `mod` length avail))))
                                (Z.of_nat (BATCH_SIZE cfg + r)))
                else bool_decide (0 < k) && bool_decide (k `mod` length avail = 0))
         then rem else []).
  { intros ->. cbv zeta. by destruct (_ && _). }
  unfold handle_remainder in Hrun2. fold rem in Hrun2.
  destruct (decide (0 < r)) as [Hr|Hr].
  2:{ rewrite (bool_decide_eq_false_2 (0 < r)) in Hrun2 by done.
      rewrite (bool_decide_eq_false_2 (0 < r)) by done. by injection Hrun2 as <-. }
  rewrite (bool_decide_eq_true_2 (0 < r)) in Hrun2 by done.
  rewrite (bool_decide_eq_true_2 (0 < r)) by done. cbn [andb].
  destruct (decide (r ≤ remainder_threshold cfg)) as [Hthr|Hthr].
  - rewrite (bool_decide_eq_true_2 (r ≤ _)) in Hrun2 by done.
    rewrite (bool_decide_eq_true_2 (r ≤ _)) by done.
    destruct k as [|k'] eqn:Hk.
    { rewrite Has in Hrun2. simpl in Hrun2. injection Hrun2 as <-. simpl. by rewrite Hun. }
    rewrite (bool_decide_eq_false_2 (S k' = 0)) by done. cbn [orb].
    replace (S k' - 1) with k' by lia.
    rewrite Has, seq_S, fmap_app in Hrun2. cbn [fmap list_fmap Nat.add] in Hrun2.
    rewrite last_snoc in Hrun2.
    set (j := avail !!! (k' `mod` length avail)) in *.
    assert (Hj : j ∈ avail).
    { apply list_elem_of_lookup_total_2, Nat.mod_upper_bound. lia. }
    destruct (list_find _ avail) as [[p j']|] eqn:Hfind.
    2:{ exfalso. eapply list_find_None, Forall_forall in Hfind; [|exact Hj].
        apply Hfind. simpl. fold j. apply (con_profile _ _ _ _ _ _ Hcon1). }
    apply list_find_Some in Hfind as (Hp & Hfid & _). simpl in Hfid. fold j in Hfid.
    assert (j' = j) as ->.
    { apply (faculty_id_inj mentors0 Hids0).
      - apply Havail. by eapply list_elem_of_lookup_2.
      - by apply Havail.
      - rewrite <- Hfid. symmetry. apply (con_profile _ _ _ _ _ _ Hcon1). }
    assert (Hmax : max_students (st_mentors st1 !!! j) = max_students (mentors !!! j)).
    { destruct (con_profile _ _ _ _ _ _ Hcon1 j) as (_ & _ & ->). unfold mentors0.
      by destruct (reset_assignments_profile avail mentors j) as (_ & _ & ->). }
    assert (Hsize : length (student_roll_numbers
                      (batch_assignment cfg students mentors0 order avail k'))
                    = BATCH_SIZE cfg).
    { simpl. rewrite length_roll_numbers, length_take, length_drop. fold order in Hlen.
      simpl in Hdiv. lia. }
    rewrite Hmax, Hsize in Hrun2.
    rewrite (andb_comm (negb _)).
    destruct (_ && _); injection Hrun2 as <-; simpl; by rewrite Hun.
  - rewrite (bool_decide_eq_false_2 (r ≤ _)) in Hrun2 by done.
    rewrite (bool_decide_eq_false_2 (r ≤ _)) by done.
    assert (Hcursor : current_mentor_index st1 < length avail
                      ↔ ¬ (0 < k ∧ k `mod` length avail = 0)).
    { rewrite Hcur. destruct k as [|k']; [split; [lia|done]|].
      replace (S k') with (k' + 1) by lia.
      pose proof (Nat.mod_upper_bound k' (length avail)).
      destruct (decide (k' `mod` length avail + 1 < length avail)) as [Hlt|Hge].
      - rewrite mod_succ_lt by done. split; [lia|done].
      - rewrite mod_succ_wrap by lia. split; [lia|]. intros Hno. destruct Hno. lia. }
    destruct (decide (current_mentor_index st1 < length avail)) as [Hc|Hc].
    + rewrite (bool_decide_eq_true_2 (_ < _)) in Hrun2 by done.
      replace (bool_decide (0 < k) && bool_decide (k `mod` length avail = 0)) with false.
      2:{ symmetry. apply andb_false_iff. apply Hcursor in Hc.
          destruct (decide (0 < k)); [right|left]; apply bool_decide_eq_false; tauto. }
      destruct (lookup_lt_is_Some_2 avail (current_mentor_index st1)) as [j Hj]; [done|].
      rewrite (assign_to_cursor_ok mentors0 avail Hnamed0 _ _ _ _ _ _ j) in Hrun2;
        [|done|apply (con_profile _ _ _ _ _ _ Hcon1)| |lia].
      * injection Hrun2 as <-. simpl. by rewrite Hun.
      * intros Hnil. apply (f_equal length) in Hnil. unfold rem in Hnil.
        rewrite length_drop in Hnil. fold order in Hlen. simpl in Hnil. lia.
    + rewrite (bool_decide_eq_false_2 (_ < _)) in Hrun2 by done.
      replace (bool_decide (0 < k) && bool_decide (k `mod` length avail = 0)) with true.
      2:{ symmetry. apply andb_true_iff.
          destruct (decide (0 < k ∧ k `mod` length avail = 0)) as [[? ?]|Hno];
            [|by apply Hcursor in Hno].
          split; by apply bool_decide_eq_true. }
      injection Hrun2 as <-. simpl. by rewrite Hun.
Qed.

Lemma unassigned_is_the_remainder_witness :
  ∃ stores summary,
    assign_students_to_mentors reuse_config (students_upto 50) [mentor_n "FAC001" 100]
    = (stores, Ok summary)
    ∧ unassigned_students summary
      = if remainder_left_over reuse_config (students_upto 50) [mentor_n "FAC001" 100]
        then roll_numbers (students_upto 50)
               (drop (length (students_upto 50) / BATCH_SIZE reuse_config
                      * BATCH_SIZE reuse_config)
                  (student_order reuse_config (students_upto 50)))
        else [].
Proof.
  apply (unassigned_is_the_remainder reuse_config (students_upto 50)
           [mentor_n "FAC001" 100] []).
  by vm_compute.
Defined.
(** ** Reassignment *)

(** What any call of the engine leaves of the mentors: their number, their
    profiles, and everything of those that are not available. *)
Lemma run_mentors cfg students mentors :
  let mentors' := (assign_students_to_mentors cfg students mentors).1.2 in
  length mentors' = length mentors
  ∧ (∀ j, same_profile (mentors' !!! j) (mentors !!! j))
  ∧ (∀ j, j ∉ available_refs mentors → mentors' !! j = mentors !! j).
Proof.
  cbv zeta.
  destruct (validate_data_consistency cfg students mentors) as [[[] issues]|e] eqn:Hval.
  2,3: unfold assign_students_to_mentors; rewrite Hval; by split_and!.
  split_and!.
  - destruct (accepted_run _ _ _ _ Hval) as (st & -> & Hcon). cbn [fst snd].
    by rewrite (con_mentors _ _ _ _ _ _ Hcon), reset_assignments_length.
  - intros j. destruct (accepted_run _ _ _ _ Hval) as (st & -> & Hcon). cbn [fst snd].
    destruct (con_profile _ _ _ _ _ _ Hcon j) as (H1 & H2 & H3).
    destruct (reset_assignments_profile (available_refs mentors) mentors j) as (H4 & H5 & H6).
    unfold same_profile. by rewrite H1, H2, H3.
  - intros j Hj. unfold assign_students_to_mentors. rewrite Hval.
    case_bool_decide; [done|].
    assert (Hreset : reset_assignments (available_refs mentors) mentors !! j = mentors !! j).
    { unfold reset_assignments. by rewrite foldl_alter_lookup_ne. }
    case_bool_decide; [done|]. cbn [fst snd]. unfold and_then.
    destruct (process_batches _ _ _ _ _) as [st' [e|]] eqn:Hloop; cbn [fst snd].
    + rewrite <- Hreset. change st' with (st', Some e).1. rewrite <- Hloop.
      by rewrite process_batches_frame.
    + rewrite handle_remainder_frame by done. rewrite <- Hreset.
      change st' with (st', @None exn).1. rewrite <- Hloop.
      by rewrite process_batches_frame.
Qed.

(** Every assignment of a summary is made out to an available mentor. *)
Lemma run_assignments_available cfg students mentors stores summary a :
  assign_students_to_mentors cfg students mentors = (stores, Ok summary) →
  a ∈ assignments summary →
  NoDup (faculty_id <$> mentors)
  ∧ ∃ j, j ∈ available_refs mentors ∧ faculty_id (mentors !!! j) = mentor_id a.
Proof.
  intros Hrun Ha.
  destruct (validate_data_consistency cfg students mentors) as [[[] issues]|e] eqn:Hval.
  2,3: unfold assign_students_to_mentors in Hrun; by rewrite Hval in Hrun.
  destruct (validation_accepted _ _ _ _ Hval) as [_ _ _ Hids _ _ _]. split; [done|].
  destruct (accepted_run _ _ _ _ Hval) as (st & Hrun' & Hcon).
  rewrite Hrun in Hrun'. injection Hrun' as _ ->.
  destruct (con_assignments _ _ _ _ _ _ Hcon a Ha) as (j & Hj & Hid & _).
  exists j. split; [done|]. rewrite <- Hid.
  by destruct (reset_assignments_profile (available_refs mentors) mentors j) as [-> _].
Qed.

(** X19: [reassign_students] clears before it validates.  Whatever the outcome,
    a mentor who is unavailable afterwards holds no student; a student in no
    assignment of the summary ends without a mentor id; and when the call
    raises, every student has lost the mentor id and every mentor the
    students, the mentor to remove being unavailable from then on. *)
Theorem reassign_students_clears_first cfg students mentors mentor_to_remove :
  let run := reassign_students cfg students mentors mentor_to_remove in
  (∀ j m, run.1.2 !! j = Some m → availability m = false → assigned_students m = [])
  ∧ (∀ summary i,
       run.2 = Ok summary → i < length students →
       roll_no (students !!! i) ∉ concat (student_roll_numbers <$> assignments summary) →
       run.1.1 !!! i = set_assigned_mentor_id None (students !!! i))
  ∧ (∀ e, run.2 = Raise e →
       run.1.1 = set_assigned_mentor_id None <$> students
       ∧ ∀ m, m ∈ run.1.2 → assigned_students m = []).
Proof.
  cbv zeta. unfold reassign_students.
  set (mentors1 := match mentor_to_remove with
                   | Some fid => if String.eqb fid "" then mentors
                                 else withdraw_mentor fid mentors
                   | None => mentors
                   end).
  set (students1 := set_assigned_mentor_id None <$> students).
  set (mentors2 := set_assigned_students [] <$> mentors1).
  destruct (run_mentors cfg students1 mentors2) as (Hlen & Hprofile & Hframe).
  split_and!.
  - intros j m Hj Hm.
    assert (Hnot : j ∉ available_refs mentors2).
    { rewrite available_refs_spec. intros [_ Hav].
      destruct (Hprofile j) as (_ & Hav' & _).
      rewrite (list_lookup_total_correct _ _ _ Hj) in Hav'. congruence. }
    rewrite (Hframe j Hnot) in Hj. unfold mentors2 in Hj.
    rewrite list_lookup_fmap in Hj. destruct (mentors1 !! j); [|done].
    by injection Hj as <-.
  - intros summary i Hok Hi Hnot.
    destruct (run_untouched cfg students1 mentors2) as (st & [_ Hun] & Hst & Has).
    assert (Hi1 : students1 !!! i = set_assigned_mentor_id None (students !!! i)).
    { unfold students1.
      apply (list_lookup_total_fmap (set_assigned_mentor_id None) students i Hi). }
    rewrite Hst. destruct (Hun i) as [_ Hkeep]. rewrite Hkeep; [done|].
    by rewrite <- (Has summary Hok), Hi1.
  - intros e He. rewrite (raise_leaves_stores _ _ _ _ He). split; [done|].
    intros m Hm. unfold mentors2 in Hm. cbn [fst snd] in Hm.
    by apply list_elem_of_fmap in Hm as (m0 & -> & _).
Qed.

(** X20: the mentor [reassign_students] is told to remove (the first with that
    faculty id) ends unavailable and without students, and when the call
    returns, no assignment of the summary is made out to that id. *)
Theorem reassign_students_withdraws_mentor cfg students mentors fid j m0 :
  fid ≠ "" →
  list_find (λ m, faculty_id m = fid) mentors = Some (j, m0) →
  let run := reassign_students cfg students mentors (Some fid) in
  run.1.2 !! j = Some (set_assigned_students [] (set_availability false m0))
  ∧ ∀ summary a, run.2 = Ok summary → a ∈ assignments summary → mentor_id a ≠ fid.
Proof.
  intros Hfid Hfind. cbv zeta. unfold reassign_students.
  rewrite (proj2 (String.eqb_neq fid "")) by done.
  set (students1 := set_assigned_mentor_id None <$> students).
  set (mentors2 := set_assigned_students [] <$> withdraw_mentor fid mentors).
  apply list_find_Some in Hfind as Hfound. destruct Hfound as (Hj & Hid & _).
  assert (Hj2 : mentors2 !! j = Some (set_assigned_students [] (set_availability false m0))).
  { unfold mentors2, withdraw_mentor.
    rewrite Hfind, list_lookup_fmap, list_lookup_alter, decide_True, Hj by done. done. }
  assert (Hnot : j ∉ available_refs mentors2).
  { rewrite available_refs_spec. intros [_ Hav].
    by rewrite (list_lookup_total_correct _ _ _ Hj2) in Hav. }
  destruct (run_mentors cfg students1 mentors2) as (_ & _ & Hframe).
  split; [by rewrite (Hframe j Hnot)|].
  intros summary a Hok Ha Hida.
  destruct (assign_students_to_mentors cfg students1 mentors2) as [stores res] eqn:Hrun.
  simpl in Hok. subst res.
  destruct (run_assignments_available _ _ _ _ _ a Hrun Ha) as (Hids & j' & Hj' & Hid').
  assert (j' = j) as ->; [|done].
  apply available_refs_spec in Hj' as Hlt. destruct Hlt as [Hlt _].
  apply (faculty_id_inj mentors2 Hids); [done|by eapply lookup_lt_Some|].
  rewrite Hid', Hida, (list_lookup_total_correct _ _ _ Hj2). done.
Qed.

Lemma reassign_students_withdraws_mentor_witness :
  (reassign_students config (students_upto 64)
     [mentor_n "FAC001" 30; mentor_n "FAC002" 30; mentor_n "FAC003" 30; mentor_n "FAC004" 30]
     (Some "FAC002")).1.2 !! 1
  = Some (set_assigned_students [] (set_availability false (mentor_n "FAC002" 30)))
  ∧ ∀ summary a,
      (reassign_students config (students_upto 64)
         [mentor_n "FAC001" 30; mentor_n "FAC002" 30; mentor_n "FAC003" 30;
          mentor_n "FAC004" 30]
         (Some "FAC002")).2 = Ok summary →
      a ∈ assignments summary → mentor_id a ≠ "FAC002".
Proof.
  apply (reassign_students_withdraws_mentor config (students_upto 64)
           [mentor_n "FAC001" 30; mentor_n "FAC002" 30; mentor_n "FAC003" 30;
            mentor_n "FAC004" 30] "FAC002" 1 (mentor_n "FAC002" 30)).
  - done.
  - reflexivity.
Defined.
(** ** Adding students to a standing allotment *)

Lemma grown_refl m : grown m m.
Proof. split_and!; [done|done|by left]. Qed.

Lemma grown_trans m1 m2 m3 : grown m1 m2 → grown m2 m3 → grown m1 m3.
Proof.
  intros (Hp1 & Hpre1 & Hc1) (Hp2 & Hpre2 & Hc2).
  destruct Hp1 as (Hf1 & Ha1 & Hm1), Hp2 as (Hf2 & Ha2 & Hm2).
  split_and!.
  - unfold same_profile. by rewrite Hf2, Ha2, Hm2.
  - by etrans.
  - destruct Hc2 as [->|[Hav Hle]]; [done|]. right. split; [congruence|].
    by rewrite <- Hm1.
Qed.

Lemma assign_student_grown m r m' : assign_student m r = Ok m' → grown m m'.
Proof.
  unfold assign_student.
  destruct (can_accept_students m 1) eqn:Hcan; simpl; [|done].
  apply andb_true_iff in Hcan as [Hav Hfree]. apply bool_decide_eq_true in Hfree.
  unfold get_student_count in Hfree.
  case_bool_decide; intros [= <-]; [apply grown_refl|].
  split_and!; [done|by apply prefix_app_r|]. right. split; [done|].
  simpl. rewrite length_app. simpl. lia.
Qed.

Lemma assign_each_grown j refs st :
  length (ad_mentors (assign_each j refs st).1) = length (ad_mentors st)
  ∧ ∀ j', grown (ad_mentors st !!! j') (ad_mentors (assign_each j refs st).1 !!! j').
Proof.
  revert st. induction refs as [|i refs IH]; intros st; simpl.
  { split; [done|]. intros j'. apply grown_refl. }
  destruct (assign_student _ _) as [mentor'|e] eqn:Hassign; simpl.
  2:{ split; [done|]. intros j'. apply grown_refl. }
  destruct (IH {| ad_new := alter (set_assigned_mentor_id
                                     (Some (faculty_id (ad_mentors st !!! j)))) i (ad_new st);
                  ad_mentors := <[j:=mentor']> (ad_mentors st);
                  ad_assigned := ad_assigned st ++ [i];
                  ad_unassigned := ad_unassigned st |}) as [Hlen Hgrown].
  simpl in Hlen, Hgrown. split; [by rewrite Hlen, length_insert|].
  intros j'. eapply grown_trans; [|apply Hgrown].
  rewrite list_lookup_total_insert.
  case_decide as Hj; [|apply grown_refl].
  destruct Hj as [<- _]. eapply assign_student_grown, Hassign.
Qed.

Lemma greedy_pass_grown candidates st :
  length (ad_mentors (greedy_pass candidates st).1) = length (ad_mentors st)
  ∧ ∀ j', grown (ad_mentors st !!! j') (ad_mentors (greedy_pass candidates st).1 !!! j').
Proof.
  revert st. induction candidates as [|[j slots] candidates IH]; intros st; simpl.
  { split; [done|]. intros j'. apply grown_refl. }
  case_bool_decide.
  { split; [done|]. intros j'. apply grown_refl. }
  pose proof (assign_each_grown j
                (take (Z.to_nat (Z.min slots (Z.of_nat (length (ad_unassigned st)))))
                   (ad_unassigned st)) st) as [Hlen1 Hgrown1].
  destruct (assign_each _ _ _) as [st1 [e|]]; [done|]. simpl in Hlen1, Hgrown1.
  match goal with |- context [greedy_pass candidates ?s] => destruct (IH s) as [Hlen2 Hgrown2] end.
  simpl in Hlen2, Hgrown2. split; [by rewrite Hlen2|].
  intros j'. eapply grown_trans; [apply Hgrown1|apply Hgrown2].
Qed.

Lemma overload_step_grown cfg st :
  length (ad_mentors (overload_step cfg st).1) = length (ad_mentors st)
  ∧ ∀ j', grown (ad_mentors st !!! j') (ad_mentors (overload_step cfg st).1 !!! j').
Proof.
  unfold overload_step. destruct (_ && _).
  2:{ split; [done|]. intros j'. apply grown_refl. }
  destruct (available_refs (ad_mentors st)) as [|j rest].
  { split; [done|]. intros j'. apply grown_refl. }
  pose proof (assign_each_grown j (ad_unassigned st) st) as Hgrown.
  by destruct (assign_each _ _ _) as [st1 [e|]].
Qed.

Lemma add_new_students_grown cfg existing new mentors :
  length (add_new_students cfg existing new mentors).1.2 = length mentors
  ∧ ∀ j, grown (mentors !!! j) ((add_new_students cfg existing new mentors).1.2 !!! j).
Proof.
  unfold add_new_students.
  destruct (List.find _ new) as [s|].
  { split; [done|]. intros j. apply grown_refl. }
  match goal with |- context [greedy_pass ?cs ?s] =>
    pose proof (greedy_pass_grown cs s) as [Hlen1 Hgrown1];
    destruct (greedy_pass cs s) as [st1 [e|]] end; [done|].
  simpl in Hlen1, Hgrown1.
  pose proof (overload_step_grown cfg st1) as [Hlen2 Hgrown2].
  destruct (overload_step cfg st1) as [st2 [e|]]; simpl in *.
  - split; [congruence|]. intros j. eapply grown_trans; [apply Hgrown1|apply Hgrown2].
  - split; [congruence|]. intros j. eapply grown_trans; [apply Hgrown1|apply Hgrown2].
Qed.

(** X21: whatever the outcome and whatever the overload setting,
    [add_new_students] only adds: every mentor keeps its profile and the
    students it held, at the front of its list, and a mentor whose list has
    changed is available and within [max_students]. *)
Theorem add_new_students_only_adds cfg existing new mentors :
  let mentors' := (add_new_students cfg existing new mentors).1.2 in
  length mentors' = length mentors
  ∧ ∀ j m m', mentors !! j = Some m → mentors' !! j = Some m' →
      same_profile m' m
      ∧ assigned_students m `prefix_of` assigned_students m'
      ∧ (m' = m
         ∨ availability m = true
           ∧ (Z.of_nat (length (assigned_students m')) ≤ max_students m)%Z).
Proof.
  cbv zeta. destruct (add_new_students_grown cfg existing new mentors) as [Hlen Hgrown].
  split; [done|]. intros j m m' Hj Hj'. specialize (Hgrown j).
  by rewrite (list_lookup_total_correct _ _ _ Hj), (list_lookup_total_correct _ _ _ Hj')
    in Hgrown.
Qed.

(** *** The pass over the mentors with free slots *)

Lemma filter_refs `{!Inhabited A} (p : A → bool) (l : list A) :
  (λ j, l !!! j) <$> List.filter (λ j, p (l !!! j)) (seq 0 (length l)) = List.filter p l.
Proof.
  induction l as [|x l IH] using rev_ind; [done|].
  replace (length (l ++ [x])) with (S (length l)) by (rewrite length_app; simpl; lia).
  rewrite seq_S, !List.filter_app, fmap_app. simpl.
  rewrite lookup_total_app_r, Nat.sub_diag by done. simpl.
  rewrite <- IH. f_equal.
  - replace (List.filter (λ j, p ((l ++ [x]) !!! j)) (seq 0 (length l)))
      with (List.filter (λ j, p (l !!! j)) (seq 0 (length l))).
    2:{ apply List.filter_ext_in. intros j Hj. apply in_seq in Hj.
        by rewrite lookup_total_app_l by lia. }
    apply list_fmap_ext. intros k j Hj.
    apply list_elem_of_lookup_2, list_elem_of_In, filter_In in Hj as [Hj _].
    apply in_seq in Hj. by rewrite lookup_total_app_l by lia.
  - destruct (p x); simpl; [|done].
    by rewrite lookup_total_app_r, Nat.sub_diag by done.
Qed.

Lemma sum_Permutation (l l' : list Z) : l ≡ₚ l' → foldr Z.add 0%Z l = foldr Z.add 0%Z l'.
Proof. induction 1; simpl; lia. Qed.

Lemma sum_positive (l : list Z) : Forall (λ z, 0 < z)%Z l → (0 ≤ foldr Z.add 0 l)%Z.
Proof. induction 1; simpl; lia. Qed.

(** The candidates of the greedy pass and their slots add up to the free
    slots of the available mentors. *)
Lemma mentors_with_capacity_slots mentors :
  foldr Z.add 0%Z (mentors_with_capacity mentors).*2 = free_slots mentors.
Proof.
  assert (Hslots : (mentors_with_capacity mentors).*2
                   = get_available_slots <$>
                     List.filter (λ m, availability m
                                       && bool_decide (0 < get_available_slots m)%Z) mentors).
  { rewrite <- filter_refs. unfold mentors_with_capacity.
    rewrite <- !list_fmap_compose. by apply list_fmap_ext. }
  rewrite Hslots. unfold free_slots. clear Hslots.
  induction mentors as [|m mentors IH]; [done|].
  cbn [List.filter]. destruct (availability m); cbn [andb]; [|done].
  case_bool_decide as Hpos; cbn [fmap list_fmap foldr].
  - f_equal. exact IH.
  - assert (get_available_slots m = 0%Z) as ->
      by (unfold get_available_slots in *; lia).
    rewrite Z.add_0_l. exact IH.
Qed.

Lemma mentors_with_capacity_spec mentors j slots :
  (j, slots) ∈ mentors_with_capacity mentors →
  j < length mentors ∧ availability (mentors !!! j) = true ∧ (0 < slots)%Z
  ∧ (Z.of_nat (length (assigned_students (mentors !!! j))) + slots
     ≤ max_students (mentors !!! j))%Z.
Proof.
  unfold mentors_with_capacity. intros Hin.
  apply list_elem_of_fmap in Hin as (j' & [= <- ->] & Hj).
  apply list_elem_of_In, filter_In in Hj as [Hj Hp]. apply in_seq in Hj.
  apply andb_true_iff in Hp as [Hav Hpos]. apply bool_decide_eq_true in Hpos.
  split_and!; [lia|done|done|].
  unfold get_available_slots, get_student_count in *. lia.
Qed.

Lemma mentors_with_capacity_NoDup mentors : NoDup (mentors_with_capacity mentors).*1.
Proof.
  unfold mentors_with_capacity. rewrite <- list_fmap_compose.
  rewrite (list_fmap_ext _ id _ (λ _ _ _, eq_refl)), list_fmap_id.
  apply filter_NoDup, NoDup_seq.
Qed.

(** A mentor with room for all of [refs] takes them without an error. *)
Lemma assign_each_fits j refs st :
  j < length (ad_mentors st) →
  availability (ad_mentors st !!! j) = true →
  (Z.of_nat (length (assigned_students (ad_mentors st !!! j)) + length refs)
   ≤ max_students (ad_mentors st !!! j))%Z →
  ∃ st', assign_each j refs st = (st', None)
    ∧ ad_assigned st' = ad_assigned st ++ refs
    ∧ ad_unassigned st' = ad_unassigned st
    ∧ length (ad_new st') = length (ad_new st)
    ∧ (∀ i, roll_no (ad_new st' !!! i) = roll_no (ad_new st !!! i))
    ∧ length (ad_mentors st') = length (ad_mentors st)
    ∧ (∀ j', j' ≠ j → ad_mentors st' !!! j' = ad_mentors st !!! j').
Proof.
  revert st. induction refs as [|i refs IH]; intros st Hj Hav Hroom.
  { exists st. by rewrite app_nil_r. }
  cbn [assign_each].
  set (mentor := ad_mentors st !!! j) in *.
  destruct (assign_student mentor (roll_no (ad_new st !!! i))) as [mentor'|e] eqn:Hassign.
  2:{ exfalso. unfold assign_student, can_accept_students, get_student_count in Hassign.
      rewrite Hav, bool_decide_eq_true_2 in Hassign by (simpl in Hroom; lia).
      simpl in Hassign. by case_bool_decide. }
  assert (Hm' : availability mentor' = true ∧ max_students mentor' = max_students mentor
                ∧ length (assigned_students mentor') ≤ S (length (assigned_students mentor))).
  { unfold assign_student in Hassign. destruct (negb _); [done|].
    case_bool_decide; injection Hassign as <-; [by split_and!; [| |lia]|].
    split_and!; [done|done|]. simpl. rewrite length_app. simpl. lia. }
  destruct Hm' as (Hav' & Hmax' & Hlen').
  match goal with |- context [assign_each j refs ?s] => destruct (IH s) as (st' & Hrun & Has & Hun & Hnew & Hroll & Hms & Hother) end.
  - simpl. by rewrite length_insert.
  - simpl. by rewrite list_lookup_total_insert, decide_True.
  - simpl. rewrite list_lookup_total_insert, decide_True by done.
    rewrite Hmax'. simpl in Hroom. lia.
  - simpl in *. exists st'. split; [done|]. split_and!.
    + by rewrite Has, <- app_assoc.
    + done.
    + by rewrite Hnew, length_alter.
    + intros i'. rewrite Hroll. rewrite list_lookup_total_alter.
      case_decide as Hi; [|done]. by destruct Hi as [<- _].
    + by rewrite Hms, length_insert.
    + intros j' Hne. rewrite Hother by done.
      rewrite list_lookup_total_insert, decide_False; [done|]. by intros [? _].
Qed.

Lemma greedy_pass_fits candidates st :
  NoDup candidates.*1 →
  (∀ j slots, (j, slots) ∈ candidates →
     j < length (ad_mentors st) ∧ availability (ad_mentors st !!! j) = true
     ∧ (0 < slots)%Z
     ∧ (Z.of_nat (length (assigned_students (ad_mentors st !!! j))) + slots
        ≤ max_students (ad_mentors st !!! j))%Z) →
  ∃ st', greedy_pass candidates st = (st', None)
    ∧ ad_assigned st' ++ ad_unassigned st' = ad_assigned st ++ ad_unassigned st
    ∧ length (ad_unassigned st')
      = length (ad_unassigned st) - Z.to_nat (foldr Z.add 0%Z candidates.*2)
    ∧ length (ad_new st') = length (ad_new st)
    ∧ (∀ i, roll_no (ad_new st' !!! i) = roll_no (ad_new st !!! i)).
Proof.
  revert st. induction candidates as [|[j slots] candidates IH]; intros st Hnd Hcs.
  { exists st. simpl. split_and!; try done. lia. }
  cbn [greedy_pass]. cbn [fmap list_fmap fst snd foldr] in *.
  apply NoDup_cons in Hnd as [Hj Hnd].
  assert (Hsum : (0 ≤ foldr Z.add 0 candidates.*2)%Z).
  { apply sum_positive, Forall_forall. intros z Hz.
    apply list_elem_of_fmap in Hz as ([j' z'] & -> & Hin).
    destruct (Hcs j' z') as (_ & _ & ? & _); [by right|done]. }
  case_bool_decide as Hun.
  { exists st. rewrite Hun. simpl. by split_and!. }
  destruct (Hcs j slots) as (Hlt & Hav & Hpos & Hroom); [left|].
  set (can := Z.to_nat (Z.min slots (Z.of_nat (length (ad_unassigned st))))).
  assert (Hcan : length (take can (ad_unassigned st)) = can).
  { rewrite length_take. unfold can. lia. }
  destruct (assign_each_fits j (take can (ad_unassigned st)) st Hlt Hav)
    as (st1 & -> & Has1 & Hun1 & Hnew1 & Hroll1 & Hms1 & Hother1).
  { rewrite Hcan. unfold can. lia. }
  match goal with |- context [greedy_pass candidates ?s] =>
    destruct (IH s Hnd) as (st' & -> & Has' & Hun' & Hnew' & Hroll') end.
  { cbn [ad_mentors]. intros j' slots' Hin.
    assert (j' ≠ j).
    { intros ->. apply Hj. by apply (list_elem_of_fmap_2 fst) in Hin. }
    rewrite Hms1, Hother1 by done. apply Hcs. by right. }
  cbn [ad_assigned ad_unassigned ad_new] in *.
  exists st'. split; [done|]. split_and!.
  - by rewrite Has', Has1, Hun1, <- app_assoc, take_drop.
  - rewrite Hun', Hun1, length_drop. unfold can. lia.
  - by rewrite Hnew', Hnew1.
  - intros i. by rewrite Hroll', Hroll1.
Qed.

Lemma extract_current_assignments_ok i mentors :
  (∀ m, m ∈ mentors → strip (faculty_id m) ≠ "") →
  ∃ l, _extract_current_assignments i mentors = Ok l
       ∧ concat (student_roll_numbers <$> l) = concat (assigned_students <$> mentors).
Proof.
  revert i. induction mentors as [|m mentors IH]; intros i Hnamed; [by exists []|].
  destruct (IH (S i)) as (l & Hl & Hrolls).
  { intros m' Hm'. apply Hnamed. by right. }
  cbn [_extract_current_assignments]. case_bool_decide as Hnil; cbn [negb].
  - exists l. rewrite Hl. split; [done|]. rewrite fmap_cons. cbn [concat].
    by rewrite Hnil, Hrolls.
  - rewrite new_Assignment_ok; [|apply Hnamed; left|done|lia].
    cbn [bind]. rewrite Hl. cbn [bind]. eexists. split; [done|].
    rewrite !fmap_cons. cbn [concat student_roll_numbers]. by rewrite Hrolls.
Qed.

(** X22: with overload off, [add_new_students] returns whenever no new roll
    number is among the existing ones and the mentors have faculty ids that
    are not blank: the students it returns are the existing and the new ones,
    the greedy pass has filled the free slots of the available mentors and
    left unassigned only the students beyond them, and the summary's
    assignments are the mentors' lists. *)
Theorem add_new_students_fills_free_slots cfg existing new mentors :
  allow_mentor_overload cfg = false →
  (∀ s, s ∈ new → roll_no s ∉ roll_no <$> existing) →
  (∀ m, m ∈ mentors → strip (faculty_id m) ≠ "") →
  ∃ new' mentors' summary all_students,
    add_new_students cfg existing new mentors
    = ((new', mentors'), Ok (summary, all_students))
    ∧ roll_no <$> all_students ≡ₚ roll_no <$> (existing ++ new)
    ∧ total_students summary = length existing + length new
    ∧ length (unassigned_students summary)
      = length new - Z.to_nat (free_slots mentors)
    ∧ concat (student_roll_numbers <$> assignments summary)
      = concat (assigned_students <$> mentors').
Proof.
  intros Hov Hfresh Hnamed.
  pose proof (add_new_students_grown cfg existing new mentors) as [Hlen Hgrown].
  unfold add_new_students in *.
  destruct (List.find (already_exists existing) new) as [s|] eqn:Hfind.
  { exfalso. apply find_some in Hfind as [Hs Hdup].
    apply already_exists_spec in Hdup. apply (Hfresh s); [|done]. by apply list_elem_of_In. }
  set (order := if sort_by_roll_number cfg
                then sorted (λ i, roll_no (new !!! i)) (seq 0 (length new))
                else seq 0 (length new)) in *.
  assert (Horder : order ≡ₚ seq 0 (length new)).
  { unfold order. destruct (sort_by_roll_number cfg); [apply sorted_Permutation|done]. }
  set (cs := sorted snd (mentors_with_capacity mentors)) in *.
  assert (Hcs : cs ≡ₚ mentors_with_capacity mentors) by apply sorted_Permutation.
  destruct (greedy_pass_fits cs
              {| ad_new := new; ad_mentors := mentors; ad_assigned := [];
                 ad_unassigned := order |})
    as (st1 & Hrun1 & Has1 & Hun1 & Hnew1 & Hroll1).
  { rewrite Hcs. apply mentors_with_capacity_NoDup. }
  { intros j slots Hin. rewrite Hcs in Hin. by apply mentors_with_capacity_spec. }
  rewrite Hrun1 in *. cbn [ad_assigned ad_unassigned ad_new] in *.
  unfold overload_step in *. rewrite Hov, andb_false_r in *. cbn [fst snd] in *.
  destruct (extract_current_assignments_ok 0 (ad_mentors st1)) as (l & Hl & Hrolls).
  { intros m' Hm'. apply list_elem_of_lookup in Hm' as [j Hj].
    destruct (Hgrown j) as ((Hfid & _) & _).
    rewrite (list_lookup_total_correct _ _ _ Hj) in Hfid. rewrite Hfid.
    apply Hnamed, lookup_total_elem. apply lookup_lt_Some in Hj. lia. }
  rewrite Hl. cbn [bind]. eexists _, _, _, _. split; [done|].
  cbn [total_students unassigned_students assignments _create_assignment_summary].
  split_and!.
  - rewrite <- (fmap_app (λ i, ad_new st1 !!! i)), Has1. cbn [app].
    rewrite !fmap_app. apply Permutation_app_head.
    rewrite <- list_fmap_compose.
    rewrite (list_fmap_ext _ (roll_no ∘ (λ i, new !!! i)) _ (λ _ i _, Hroll1 i)).
    rewrite Horder, list_fmap_compose.
    by rewrite <- (filter_true (seq 0 (length new))), (filter_refs (λ _, true)), filter_true.
  - rewrite length_app, <- (fmap_app (λ i, ad_new st1 !!! i)), Has1. cbn [app].
    by rewrite length_fmap, Horder, length_seq.
  - rewrite length_roll_numbers, Hun1, Horder, length_seq.
    by rewrite (sum_Permutation _ _ (fmap_Permutation snd _ _ Hcs)), mentors_with_capacity_slots.
  - done.
Qed.

Lemma add_new_students_fills_free_slots_witness :
  ∃ new' mentors' summary all_students,
    add_new_students strict_config [student_n 9] (students_upto 3)
      [mentor_n "FAC001" 1; mentor_on_leave; mentor_n "FAC003" 1]
    = ((new', mentors'), Ok (summary, all_students))
    ∧ roll_no <$> all_students ≡ₚ roll_no <$> ([student_n 9] ++ students_upto 3)
    ∧ total_students summary = length [student_n 9] + length (students_upto 3)
    ∧ length (unassigned_students summary)
      = length (students_upto 3)
        - Z.to_nat (free_slots [mentor_n "FAC001" 1; mentor_on_leave; mentor_n "FAC003" 1])
    ∧ concat (student_roll_numbers <$> assignments summary)
      = concat (assigned_students <$> mentors').
Proof.
  apply (add_new_students_fills_free_slots strict_config [student_n 9] (students_upto 3)
           [mentor_n "FAC001" 1; mentor_on_leave; mentor_n "FAC003" 1]).
  - reflexivity.
  - intros s Hs. apply (bool_decide_unpack _).
    repeat (apply elem_of_cons in Hs as [->|Hs]); [by vm_compute..|].
    by apply elem_of_nil in Hs.
  - intros m Hm.
    repeat (apply elem_of_cons in Hm as [->|Hm]); [by vm_compute..|].
    by apply elem_of_nil in Hm.
Defined.

(** *** The overload step *)

Lemma roll_numbers_alter v i (sts : list Student) refs :
  roll_numbers (alter (set_assigned_mentor_id v) i sts) refs = roll_numbers sts refs.
Proof.
  unfold roll_numbers. apply list_fmap_ext. intros _ i' _.
  rewrite list_lookup_total_alter. case_decide as Hi; [|done]. by destruct Hi as [<- _].
Qed.

(** Students whose roll numbers the mentor does not hold yet are added at
    the end of the mentor's list, one by one. *)
Lemma assign_each_appends j refs st :
  j < length (ad_mentors st) →
  availability (ad_mentors st !!! j) = true →
  (Z.of_nat (length (assigned_students (ad_mentors st !!! j)) + length refs)
   ≤ max_students (ad_mentors st !!! j))%Z →
  NoDup (roll_numbers (ad_new st) refs) →
  (∀ r, r ∈ roll_numbers (ad_new st) refs → r ∉ assigned_students (ad_mentors st !!! j)) →
  assigned_students (ad_mentors (assign_each j refs st).1 !!! j)
  = assigned_students (ad_mentors st !!! j) ++ roll_numbers (ad_new st) refs.
Proof.
  revert st. induction refs as [|i refs IH]; intros st Hj Hav Hroom Hnd Hfresh.
  { simpl. by rewrite app_nil_r. }
  cbn [assign_each]. cbn [roll_numbers fmap list_fmap] in Hnd, Hfresh |- *.
  fold (roll_numbers (ad_new st) refs) in Hnd, Hfresh |- *.
  apply NoDup_cons in Hnd as [Hi Hnd].
  assert (Hassign : assign_student (ad_mentors st !!! j) (roll_no (ad_new st !!! i))
                    = Ok (extend_assigned_students [roll_no (ad_new st !!! i)]
                            (ad_mentors st !!! j))).
  { unfold assign_student, can_accept_students, get_student_count.
    rewrite Hav, bool_decide_eq_true_2 by (simpl in Hroom; lia). simpl.
    rewrite bool_decide_eq_false_2; [done|]. apply Hfresh. left. }
  rewrite Hassign.
  match goal with |- context [assign_each j refs ?s] => rewrite (IH s) end; cbn [ad_mentors ad_new].
  - rewrite list_lookup_total_insert, decide_True by done. simpl.
    by rewrite roll_numbers_alter, <- app_assoc.
  - by rewrite length_insert.
  - by rewrite list_lookup_total_insert, decide_True.
  - rewrite list_lookup_total_insert, decide_True by done. simpl.
    rewrite length_app. simpl in *. lia.
  - by rewrite roll_numbers_alter.
  - intros r Hr. rewrite roll_numbers_alter in Hr.
    rewrite list_lookup_total_insert, decide_True by done. simpl.
    intros Hin. apply elem_of_app in Hin as [Hin|Hin].
    + apply (Hfresh r); [by right|done].
    + apply list_elem_of_singleton in Hin as ->. done.
Qed.

Lemma roll_numbers_ext (sts sts' : list Student) refs :
  (∀ i, roll_no (sts' !!! i) = roll_no (sts !!! i)) →
  roll_numbers sts' refs = roll_numbers sts refs.
Proof. intros Hroll. unfold roll_numbers. apply list_fmap_ext. intros _ i _. apply Hroll. Qed.

(** When the greedy pass leaves somebody over, it has filled every mentor
    it went through, and it has touched no other mentor. *)
Lemma greedy_pass_fills candidates st :
  NoDup candidates.*1 →
  (∀ j slots, (j, slots) ∈ candidates →
     j < length (ad_mentors st) ∧ availability (ad_mentors st !!! j) = true
     ∧ (0 < slots)%Z
     ∧ (Z.of_nat (length (assigned_students (ad_mentors st !!! j))) + slots
        = max_students (ad_mentors st !!! j))%Z
     ∧ ∀ r, r ∈ roll_numbers (ad_new st) (ad_unassigned st) →
            r ∉ assigned_students (ad_mentors st !!! j)) →
  NoDup (roll_numbers (ad_new st) (ad_unassigned st)) →
  (∀ j, j ∉ candidates.*1 →
        ad_mentors (greedy_pass candidates st).1 !!! j = ad_mentors st !!! j)
  ∧ (ad_unassigned (greedy_pass candidates st).1 ≠ [] →
     ∀ j slots, (j, slots) ∈ candidates →
       (max_students (ad_mentors st !!! j)
        ≤ Z.of_nat (length (assigned_students
                              (ad_mentors (greedy_pass candidates st).1 !!! j))))%Z).
Proof.
  revert st. induction candidates as [|[j slots] candidates IH]; intros st Hnd Hcs Hrolls.
  { split; [done|]. intros _ j slots Hin. by apply elem_of_nil in Hin. }
  cbn [greedy_pass]. cbn [fmap list_fmap fst] in *.
  apply NoDup_cons in Hnd as [Hj Hnd].
  case_bool_decide as Hun; [done|].
  destruct (Hcs j slots) as (Hlt & Hav & Hpos & Hroom & Hfresh); [left|].
  set (can := Z.to_nat (Z.min slots (Z.of_nat (length (ad_unassigned st))))).
  assert (Hcan : length (take can (ad_unassigned st)) = can).
  { rewrite length_take. unfold can. lia. }
  assert (Htake : ∀ r, r ∈ roll_numbers (ad_new st) (take can (ad_unassigned st)) →
                       r ∈ roll_numbers (ad_new st) (ad_unassigned st)).
  { intros r Hr. apply list_elem_of_fmap in Hr as (i & -> & Hi).
    apply roll_numbers_elem. eapply subseteq_take, Hi. }
  assert (Hdrop : ∀ r, r ∈ roll_numbers (ad_new st) (drop can (ad_unassigned st)) →
                       r ∈ roll_numbers (ad_new st) (ad_unassigned st)).
  { intros r Hr. apply list_elem_of_fmap in Hr as (i & -> & Hi).
    apply roll_numbers_elem. eapply subseteq_drop, Hi. }
  destruct (assign_each_fits j (take can (ad_unassigned st)) st Hlt Hav)
    as (st1 & Hrun1 & Has1 & Hun1 & Hnew1 & Hroll1 & Hms1 & Hother1).
  { rewrite Hcan. unfold can. lia. }
  assert (Happ : assigned_students (ad_mentors st1 !!! j)
                 = assigned_students (ad_mentors st !!! j)
                   ++ roll_numbers (ad_new st) (take can (ad_unassigned st))).
  { pose proof (assign_each_appends j (take can (ad_unassigned st)) st Hlt Hav) as Happ.
    rewrite Hrun1 in Happ. apply Happ.
    - rewrite Hcan. unfold can. lia.
    - rewrite <- (take_drop can (ad_unassigned st)) in Hrolls. unfold roll_numbers in Hrolls.
      rewrite fmap_app in Hrolls. by apply NoDup_app in Hrolls as [? _].
    - intros r Hr. by apply Hfresh, Htake. }
  rewrite Hrun1.
  match goal with |- context [greedy_pass candidates ?s] =>
    destruct (IH s Hnd) as [Hframe Hfull]; [| |
      pose proof (greedy_pass_fits candidates s Hnd) as Hfits] end;
    cbn [ad_mentors ad_new ad_unassigned] in *.
  - intros j' slots' Hin.
    assert (j' ≠ j).
    { intros ->. apply Hj. by apply (list_elem_of_fmap_2 fst) in Hin. }
    rewrite Hms1, Hother1 by done.
    destruct (Hcs j' slots') as (? & ? & ? & ? & Hfresh'); [by right|].
    split_and!; try done.
    intros r Hr. rewrite Hun1, (roll_numbers_ext _ _ _ Hroll1) in Hr.
    by apply Hfresh', Hdrop.
  - rewrite Hun1, (roll_numbers_ext _ _ _ Hroll1).
    rewrite <- (take_drop can (ad_unassigned st)) in Hrolls. unfold roll_numbers in Hrolls.
    rewrite fmap_app in Hrolls. by apply NoDup_app in Hrolls as (_ & _ & ?).
  - split.
    + intros j' Hj'. apply not_elem_of_cons in Hj' as [Hne Hj'].
      rewrite Hframe by done. by apply Hother1.
    + intros Hleft j' slots' Hin.
      apply elem_of_cons in Hin as [[= -> ->]|Hin].
      * rewrite Hframe, Happ by done.
        destruct Hfits as (st' & Hrun' & _ & Hlen' & _).
        { intros j' slots' Hin.
          assert (j' ≠ j).
          { intros ->. apply Hj. by apply (list_elem_of_fmap_2 fst) in Hin. }
          rewrite Hms1, Hother1 by done.
          destruct (Hcs j' slots') as (? & ? & ? & Heq & _); [by right|].
          split_and!; try done. lia. }
        rewrite Hrun' in Hleft. cbn [fst] in Hleft.
        assert (0 < length (ad_unassigned st')) by (destruct (ad_unassigned st'); [done|simpl; lia]).
        rewrite Hun1, length_drop in Hlen'.
        rewrite length_app, length_roll_numbers, Hcan. unfold can in *. lia.
      * assert (j' ≠ j).
        { intros ->. apply Hj. by apply (list_elem_of_fmap_2 fst) in Hin. }
        rewrite <- (Hother1 j') by done. by apply (Hfull Hleft j' slots').
Qed.

Lemma mentors_with_capacity_exact mentors j slots :
  (j, slots) ∈ mentors_with_capacity mentors →
  j < length mentors ∧ availability (mentors !!! j) = true ∧ (0 < slots)%Z
  ∧ (Z.of_nat (length (assigned_students (mentors !!! j))) + slots
     = max_students (mentors !!! j))%Z.
Proof.
  unfold mentors_with_capacity. intros Hin.
  apply list_elem_of_fmap in Hin as (j' & [= <- ->] & Hj).
  apply list_elem_of_In, filter_In in Hj as [Hj Hp]. apply in_seq in Hj.
  apply andb_true_iff in Hp as [Hav Hpos]. apply bool_decide_eq_true in Hpos.
  split_and!; [lia|done|done|].
  unfold get_available_slots, get_student_count in *. lia.
Qed.

Lemma free_slots_nonneg mentors : (0 ≤ free_slots mentors)%Z.
Proof.
  unfold free_slots.
  induction (List.filter availability mentors) as [|m l IH]; [done|].
  rewrite fmap_cons. cbn [foldr].
  assert (0 ≤ get_available_slots m)%Z by (unfold get_available_slots; lia). lia.
Qed.

Lemma available_refs_profile (ms ms' : list Mentor) :
  length ms' = length ms →
  (∀ j, availability (ms' !!! j) = availability (ms !!! j)) →
  available_refs ms' = available_refs ms.
Proof.
  intros Hlen Hav. unfold available_refs. rewrite Hlen.
  apply List.filter_ext. intros j. apply Hav.
Qed.

Lemma mentors_with_capacity_full mentors j :
  j < length mentors → availability (mentors !!! j) = true →
  j ∉ (mentors_with_capacity mentors).*1 →
  (max_students (mentors !!! j) ≤ Z.of_nat (length (assigned_students (mentors !!! j))))%Z.
Proof.
  intros Hj Hav Hnot.
  destruct (decide (0 < get_available_slots (mentors !!! j))%Z) as [Hpos|Hfull].
  - destruct Hnot. unfold mentors_with_capacity. rewrite <- list_fmap_compose.
    apply (list_elem_of_fmap_2' _ _ j); [|done].
    apply list_elem_of_In, filter_In. split; [apply in_seq; lia|].
    by rewrite Hav, bool_decide_eq_true_2.
  - unfold get_available_slots, get_student_count in Hfull. lia.
Qed.

(** X23: the overload step cannot place anybody.  With overload on, new
    students with distinct roll numbers that neither the existing students
    nor the mentors have, more of them than the available mentors have free
    slots, and at least one available mentor, [add_new_students] raises: the
    greedy pass has filled every available mentor, and the overload step
    calls [assign_student] on the first of them. *)
Theorem add_new_students_overload_raises cfg existing new mentors j rest :
  allow_mentor_overload cfg = true →
  (∀ s, s ∈ new → roll_no s ∉ roll_no <$> existing) →
  NoDup (roll_no <$> new) →
  (∀ s m, s ∈ new → m ∈ mentors → roll_no s ∉ assigned_students m) →
  (free_slots mentors < Z.of_nat (length new))%Z →
  available_refs mentors = j :: rest →
  (add_new_students cfg existing new mentors).2
  = Raise (ValueError ("Mentor " +:+ faculty_id (mentors !!! j)
                       +:+ " cannot accept more students")).
Proof.
  intros Hov Hfresh Hnd Hheld Hmore Hav.
  unfold add_new_students.
  destruct (List.find (already_exists existing) new) as [s|] eqn:Hfind.
  { exfalso. apply find_some in Hfind as [Hs Hdup].
    apply already_exists_spec in Hdup. apply (Hfresh s); [|done]. by apply list_elem_of_In. }
  set (order := if sort_by_roll_number cfg
                then sorted (λ i, roll_no (new !!! i)) (seq 0 (length new))
                else seq 0 (length new)) in *.
  assert (Horder : order ≡ₚ seq 0 (length new)).
  { unfold order. destruct (sort_by_roll_number cfg); [apply sorted_Permutation|done]. }
  assert (Hrolls : roll_numbers new order ≡ₚ roll_no <$> new).
  { unfold roll_numbers. rewrite Horder.
    fold (roll_numbers new (seq 0 (length new))). by rewrite roll_numbers_seq. }
  set (cs := sorted snd (mentors_with_capacity mentors)) in *.
  assert (Hcs : cs ≡ₚ mentors_with_capacity mentors) by apply sorted_Permutation.
  set (st0 := {| ad_new := new; ad_mentors := mentors; ad_assigned := [];
                 ad_unassigned := order |}) in *.
  assert (Hspec : ∀ j slots, (j, slots) ∈ cs →
            j < length mentors ∧ availability (mentors !!! j) = true ∧ (0 < slots)%Z
            ∧ (Z.of_nat (length (assigned_students (mentors !!! j))) + slots
               = max_students (mentors !!! j))%Z
            ∧ ∀ r, r ∈ roll_numbers new order → r ∉ assigned_students (mentors !!! j)).
  { intros j' slots Hin. rewrite Hcs in Hin.
    apply mentors_with_capacity_exact in Hin as (? & ? & ? & ?).
    split_and!; try done. intros r Hr. rewrite Hrolls in Hr.
    apply list_elem_of_fmap in Hr as (s & -> & Hs). apply Hheld; [done|].
    by apply lookup_total_elem. }
  assert (Hnd' : NoDup cs.*1) by (rewrite Hcs; apply mentors_with_capacity_NoDup).
  destruct (greedy_pass_fits cs st0 Hnd') as (st1 & Hrun1 & _ & Hun1 & _).
  { intros j' slots Hin. destruct (Hspec j' slots Hin) as (? & ? & ? & ? & _).
    split_and!; try done. simpl. lia. }
  destruct (greedy_pass_fills cs st0 Hnd') as [Hframe Hfull].
  { exact Hspec. }
  { simpl. by rewrite Hrolls. }
  rewrite Hrun1 in *. cbn [fst snd ad_unassigned ad_mentors st0] in *.
  assert (Hleft : ad_unassigned st1 ≠ []).
  { intros Hnil. rewrite Hnil in Hun1. simpl in Hun1.
    rewrite (sum_Permutation _ _ (fmap_Permutation snd _ _ Hcs)),
      mentors_with_capacity_slots, Horder, length_seq in Hun1.
    pose proof (free_slots_nonneg mentors). lia. }
  assert (Hj : j ∈ available_refs mentors) by (rewrite Hav; left).
  apply available_refs_spec in Hj as [Hjlt Hjav].
  pose proof (greedy_pass_grown cs st0) as [Hlen1 Hgrown1].
  rewrite Hrun1 in Hlen1, Hgrown1. cbn [fst ad_mentors st0] in Hlen1, Hgrown1.
  destruct (Hgrown1 j) as ((Hfid & _ & Hmax) & _).
  assert (Hraise : (overload_step cfg st1).2
                   = Some (ValueError ("Mentor " +:+ faculty_id (ad_mentors st1 !!! j)
                                       +:+ " cannot accept more students"))).
  { apply (overload_step_raises_when_full cfg st1 j rest); [done|done| |].
    - rewrite <- Hav. apply available_refs_profile; [done|].
      intros j'. by destruct (Hgrown1 j') as ((_ & ? & _) & _).
    - rewrite Hmax. destruct (decide (j ∈ cs.*1)) as [Hin|Hout].
      + apply list_elem_of_fmap in Hin as ([j' slots] & -> & Hin).
        by apply (Hfull Hleft j' slots).
      + rewrite (Hframe j Hout). apply mentors_with_capacity_full; [done|done|].
        by rewrite <- Hcs. }
  destruct (overload_step cfg st1) as [st2 [e|]]; [|done].
  simpl in Hraise. injection Hraise as ->. simpl. by rewrite Hfid.
Qed.

Lemma add_new_students_overload_raises_witness :
  (add_new_students config [student_n 9] (students_upto 3)
     [mentor_on_leave; mentor_n "FAC001" 1; mentor_n "FAC003" 1]).2
  = Raise (ValueError ("Mentor "
                       +:+ faculty_id ([mentor_on_leave; mentor_n "FAC001" 1;
                                        mentor_n "FAC003" 1] !!! 1)
                       +:+ " cannot accept more students")).
Proof.
  apply (add_new_students_overload_raises config [student_n 9] (students_upto 3)
           [mentor_on_leave; mentor_n "FAC001" 1; mentor_n "FAC003" 1] 1 [2]).
  - reflexivity.
  - intros s Hs. apply (bool_decide_unpack _).
    repeat (apply elem_of_cons in Hs as [->|Hs]); [by vm_compute..|].
    by apply elem_of_nil in Hs.
  - apply (bool_decide_unpack _). by vm_compute.
  - intros s m Hs Hm. apply (bool_decide_unpack _).
    repeat (apply elem_of_cons in Hs as [->|Hs]); [..|by apply elem_of_nil in Hs].
    all: repeat (apply elem_of_cons in Hm as [->|Hm]); [by vm_compute..|].
    all: by apply elem_of_nil in Hm.
  - by vm_compute.
  - reflexivity.
Defined.

(** ** Batch size and batch check *)

(** X24: for an input with students and mentors, feasibility validation
    divides by zero exactly when the batch size is zero, and
    [update_batch_size] never sets such a size: it refuses what is not
    positive and stores what is. *)
Theorem batch_size_zero_divides cfg students mentors :
  students ≠ [] → mentors ≠ [] →
  (validate_assignment_feasibility cfg students mentors
   = Raise (ZeroDivisionError "integer division or modulo by zero")
   ↔ BATCH_SIZE cfg = 0)
  ∧ (∀ new_size,
       if bool_decide (new_size ≤ 0)%Z
       then update_batch_size cfg new_size = Raise (ValueError "Batch size must be positive")
       else ∃ cfg', update_batch_size cfg new_size = Ok cfg'
                    ∧ Z.of_nat (BATCH_SIZE cfg') = new_size
                    ∧ ∃ outcome, validate_assignment_feasibility cfg' students mentors
                                 = Ok outcome).
Proof.
  intros Hs Hm.
  assert (Hdiv : ∀ c, validate_assignment_feasibility c students mentors
                      = Raise (ZeroDivisionError "integer division or modulo by zero")
                      ∧ BATCH_SIZE c = 0
                      ∨ (∃ outcome, validate_assignment_feasibility c students mentors
                                    = Ok outcome) ∧ BATCH_SIZE c ≠ 0).
  { intros c. unfold validate_assignment_feasibility.
    rewrite (bool_decide_eq_false_2 (students = [])),
      (bool_decide_eq_false_2 (mentors = [])) by done.
    simpl. case_bool_decide; [by left|right]. split; [by eexists|done]. }
  split.
  - destruct (Hdiv cfg) as [[-> ->]|[[outcome ->] ?]]; [done|]. split; [done|lia].
  - intros new_size. unfold update_batch_size. case_bool_decide as Hn; [done|].
    eexists. split; [done|]. split; [simpl; lia|].
    match goal with |- context [validate_assignment_feasibility ?c] =>
      destruct (Hdiv c) as [[_ HB]|[Hok _]] end; [simpl in HB; lia|done].
Qed.

Lemma batch_size_zero_divides_witness :
  (validate_assignment_feasibility config (students_upto 3) [mentor_n "FAC001" 30]
   = Raise (ZeroDivisionError "integer division or modulo by zero")
   ↔ BATCH_SIZE config = 0)
  ∧ (∀ new_size,
       if bool_decide (new_size ≤ 0)%Z
       then update_batch_size config new_size
            = Raise (ValueError "Batch size must be positive")
       else ∃ cfg', update_batch_size config new_size = Ok cfg'
                    ∧ Z.of_nat (BATCH_SIZE cfg') = new_size
                    ∧ ∃ outcome,
                        validate_assignment_feasibility cfg' (students_upto 3)
                          [mentor_n "FAC001" 30] = Ok outcome).
Proof.
  apply (batch_size_zero_divides config (students_upto 3) [mentor_n "FAC001" 30]); done.
Defined.

(** X25: with overload off, [validate_batch_assignment] accepts a batch for a
    mentor who holds no student yet exactly when [can_accept_students] says
    the mentor can take that many: the batch check looks at [max_students]
    alone, not at the students the mentor already has. *)
Theorem batch_check_matches_empty_mentor cfg batch_students mentor :
  allow_mentor_overload cfg = false →
  assigned_students mentor = [] →
  batch_students ≠ [] →
  (validate_batch_assignment cfg batch_students mentor).1
  = can_accept_students mentor (length batch_students).
Proof.
  intros Hov Hnone Hne.
  unfold validate_batch_assignment, can_accept_students, get_student_count.
  rewrite Hov, Hnone, (bool_decide_eq_false_2 (batch_students = [])) by done.
  cbn [fst negb andb app length Nat.add]. rewrite andb_true_r.
  destruct (availability mentor); cbn [negb andb app]; [|done].
  destruct (decide (max_students mentor < Z.of_nat (length batch_students))%Z).
  - rewrite (bool_decide_eq_true_2 (_ < _)%Z) by done.
    by rewrite (bool_decide_eq_false_2 (_ ≤ _)%Z) by lia.
  - rewrite (bool_decide_eq_false_2 (_ < _)%Z) by done.
    by rewrite (bool_decide_eq_true_2 (_ ≤ _)%Z) by lia.
Qed.

Lemma batch_check_matches_empty_mentor_witness :
  (validate_batch_assignment strict_config (students_upto 3) (mentor_n "FAC001" 2)).1
  = can_accept_students (mentor_n "FAC001" 2) (length (students_upto 3)).
Proof.
  apply (batch_check_matches_empty_mentor strict_config (students_upto 3)
           (mentor_n "FAC001" 2)); done.
Defined.
